(** * pdf2qbo: the line-oriented statement parser of [ofx/domain.py]

    A shallow embedding of [OfxBuilder.parse], [StatementPeriodBuilder.parse]
    and [StatementTransactionBuilder.parse], and the properties of the
    statement scanner and of the transaction reassembler.

    Conventions of the embedding.
    - The list [lines] that the Python code drains with [lines.pop(0)] is
      threaded explicitly: every function that pops returns the remaining
      lines.
    - A Python exception is the [Raise] outcome of the [result] type.
    - Text is ASCII: a line is a [string], [\d] is [0-9], [upper] maps
      [a-z] to [A-Z].
    - [print] and [dump_lines] only write to the console and are left out. *)

From Stdlib Require Import String Ascii List ZArith Bool Lia.
Import ListNotations.

Open Scope string_scope.

(** ** Exceptions and results *)

(** The exceptions the parser can raise.  [ValueError] carries the message
    of the parser's own [raise]; messages of library errors are shortened. *)
Inductive exn : Type :=
| IndexError
| ValueError (msg : string)
| AttributeError
| TypeError
| OverflowError.

Inductive result (A : Type) : Type :=
| Ok (a : A)
| Raise (e : exn).

Arguments Ok {A} a.
Arguments Raise {A} e.

Definition bind {A B : Type} (c : result A) (k : A -> result B) : result B :=
  match c with
  | Ok a => k a
  | Raise e => Raise e
  end.

Notation "'let*' x ':=' c 'in' k" := (bind c (fun x => k))
  (at level 10, x pattern, c at level 100, k at level 200).

Definition raises {A : Type} (c : result A) : Prop := exists e, c = Raise e.

(** ** Python string operations used by the parser *)

Module PyStr.

Definition is_digit (c : ascii) : bool :=
  let n := nat_of_ascii c in (48 <=? n)%nat && (n <=? 57)%nat.

Definition is_lower (c : ascii) : bool :=
  let n := nat_of_ascii c in (97 <=? n)%nat && (n <=? 122)%nat.

(** [\s] and [str.isspace] on ASCII: tab, LF, VT, FF, CR, FS, GS, RS, US
    and space. *)
Definition is_space (c : ascii) : bool :=
  let n := nat_of_ascii c in
  ((9 <=? n)%nat && (n <=? 13)%nat) || ((28 <=? n)%nat && (n <=? 32)%nat).

Definition upper_char (c : ascii) : ascii :=
  if is_lower c then ascii_of_nat (nat_of_ascii c - 32) else c.

(** [s.upper()] *)
Fixpoint upper (s : string) : string :=
  match s with
  | EmptyString => EmptyString
  | String c s' => String (upper_char c) (upper s')
  end.

(** [s.startswith(p)] *)
Definition startswith (s p : string) : bool := String.prefix p s.

(** [sub in s] *)
Fixpoint contains (s sub : string) : bool :=
  String.prefix sub s ||
  match s with
  | EmptyString => false
  | String _ s' => contains s' sub
  end.

(** [s.replace(',', '')] *)
Fixpoint replace_comma (s : string) : string :=
  match s with
  | EmptyString => EmptyString
  | String c s' =>
      if Ascii.eqb c "," then replace_comma s' else String c (replace_comma s')
  end.

(** [s[:n]] *)
Fixpoint take (n : nat) (s : string) : string :=
  match n, s with
  | O, _ => EmptyString
  | S _, EmptyString => EmptyString
  | S n', String c s' => String c (take n' s')
  end.

(** [s.split(sep)] for a one-character separator. *)
Fixpoint split (sep : ascii) (s : string) : list string :=
  match s with
  | EmptyString => [EmptyString]
  | String c s' =>
      if Ascii.eqb c sep then EmptyString :: split sep s'
      else match split sep s' with
           | [] => [String c EmptyString]
           | w :: ws => String c w :: ws
           end
  end.

(** Python truth value of a string: [bool(s)]. *)
Definition truthy (s : string) : bool :=
  match s with
  | EmptyString => false
  | String _ _ => true
  end.

Definition digit_val (c : ascii) : Z := Z.of_nat (nat_of_ascii c - 48).

(** [int(s)] for a string of decimal digits, most significant first. *)
Fixpoint int_of_digits_acc (acc : Z) (s : string) : Z :=
  match s with
  | EmptyString => acc
  | String c s' => int_of_digits_acc (10 * acc + digit_val c)%Z s'
  end.

Definition int_of_digits (s : string) : Z := int_of_digits_acc 0 s.

Fixpoint all_digits (s : string) : bool :=
  match s with
  | EmptyString => true
  | String c s' => is_digit c && all_digits s'
  end.

(** ["%d" % n] for [n >= 0]. *)
Fixpoint str_of_pos_fuel (fuel : nat) (n : Z) (acc : string) : string :=
  match fuel with
  | O => acc
  | S fuel' =>
      let acc' := String (ascii_of_nat (48 + Z.to_nat (n mod 10))) acc in
      if (n <? 10)%Z then acc' else str_of_pos_fuel fuel' (n / 10)%Z acc'
  end.

Definition str_of_int (n : Z) : string :=
  if (n <? 0)%Z
  then String "-" (str_of_pos_fuel (S (Z.to_nat (Z.log2 (- n)))) (- n)%Z EmptyString)
  else str_of_pos_fuel (S (Z.to_nat (Z.log2 n))) n EmptyString.

(** ["%02d" % n]: zero-padded to width 2 (for [n >= 0]). *)
Definition str_of_int_02 (n : Z) : string :=
  let s := str_of_int n in
  if (String.length s <? 2)%nat && (0 <=? n)%Z then String "0" s else s.

End PyStr.

(** ** Regular expressions

    [re.match] is modelled by a matcher on Brzozowski derivatives, so that
    a pattern of the source is written as a term that can be compared with
    it symbol by symbol. *)

Module Regex.

Inductive regex : Type :=
| Void
| Eps
| Sym (p : ascii -> bool)
| Seq (r1 r2 : regex)
| Alt (r1 r2 : regex)
| Star (r : regex).

Definition Plus (r : regex) : regex := Seq r (Star r).
Definition Opt (r : regex) : regex := Alt r Eps.
Definition Chr (c : ascii) : regex := Sym (Ascii.eqb c).

Fixpoint nullable (r : regex) : bool :=
  match r with
  | Void => false
  | Eps => true
  | Sym _ => false
  | Seq r1 r2 => nullable r1 && nullable r2
  | Alt r1 r2 => nullable r1 || nullable r2
  | Star _ => true
  end.

Fixpoint deriv (c : ascii) (r : regex) : regex :=
  match r with
  | Void => Void
  | Eps => Void
  | Sym p => if p c then Eps else Void
  | Seq r1 r2 =>
      if nullable r1
      then Alt (Seq (deriv c r1) r2) (deriv c r2)
      else Seq (deriv c r1) r2
  | Alt r1 r2 => Alt (deriv c r1) (deriv c r2)
  | Star r' => Seq (deriv c r') (Star r')
  end.

(** The whole of [s] is a word of [r]. *)
Fixpoint fullmatch (r : regex) (s : string) : bool :=
  match s with
  | EmptyString => nullable r
  | String c s' => fullmatch (deriv c r) s'
  end.

(** The words of a pattern. *)
Inductive lang : regex -> string -> Prop :=
| L_eps : lang Eps ""
| L_sym p c : p c = true -> lang (Sym p) (String c "")
| L_seq r1 r2 s1 s2 : lang r1 s1 -> lang r2 s2 -> lang (Seq r1 r2) (s1 ++ s2)
| L_alt_l r1 r2 s : lang r1 s -> lang (Alt r1 r2) s
| L_alt_r r1 r2 s : lang r2 s -> lang (Alt r1 r2) s
| L_star_nil r : lang (Star r) ""
| L_star_cons r s1 s2 : lang r s1 -> lang (Star r) s2 -> lang (Star r) (s1 ++ s2).

(** [re.match("^" r "$", s)] is not [None]: [$] matches at the end of the
    string and also just before a newline that ends the string. *)
Fixpoint chomp_newline (s : string) : option string :=
  match s with
  | EmptyString => None
  | String c EmptyString => if Ascii.eqb c "010" then Some EmptyString else None
  | String c s' =>
      match chomp_newline s' with
      | Some t => Some (String c t)
      | None => None
      end
  end.

Definition match_anchored (r : regex) (s : string) : bool :=
  fullmatch r s ||
  match chomp_newline s with
  | Some t => fullmatch r t
  | None => false
  end.

End Regex.

(** ** Python floats

    [float(s)], [-x], [x * 100], [x > 0.00] and [int(x)] on IEEE 754
    doubles, over exact integers: a finite double is its sign, its
    mantissa [m] (0, or below [2^53]) and its exponent [e], and stands for
    [m * 2^e].  Rounding is to nearest, ties to even.  Not-a-number never
    arises in the parser and is left out. *)

Module PyFloat.

Local Open Scope Z_scope.

Inductive float : Type :=
| Finite (neg : bool) (m e : Z)
| Inf (neg : bool).

(** [n / d] rounded to the nearest integer, ties to even ([n >= 0], [d > 0]). *)
Definition rne (n d : Z) : Z :=
  let q := n / d in
  let r := n mod d in
  if 2 * r <? d then q
  else if d <? 2 * r then q + 1
  else if Z.even q then q else q + 1.

(** The largest [k] with [2^k <= n / d] ([n > 0], [d > 0]). *)
Definition ilog2_ratio (n d : Z) : Z :=
  let k := Z.log2 n - Z.log2 d in
  if d * 2 ^ Z.max 0 k <=? n * 2 ^ Z.max 0 (- k) then k else k - 1.

(** The double nearest to [n / d] ([n >= 0], [d > 0]), with the given sign. *)
Definition round (neg : bool) (n d : Z) : float :=
  if n =? 0 then Finite neg 0 0
  else
    let e := Z.max (ilog2_ratio n d - 52) (-1074) in
    let m := rne (n * 2 ^ Z.max 0 (- e)) (d * 2 ^ Z.max 0 e) in
    let '(m, e) := if m =? 2 ^ 53 then (2 ^ 52, e + 1) else (m, e) in
    if 971 <? e then Inf neg
    else Finite neg m (if m =? 0 then 0 else e).

(** [- x] *)
Definition neg (x : float) : float :=
  match x with
  | Finite s m e => Finite (negb s) m e
  | Inf s => Inf (negb s)
  end.

(** [x * k] for a positive integer [k] that is a double itself. *)
Definition mul (x : float) (k : Z) : float :=
  match x with
  | Finite s m e => round s (m * k * 2 ^ Z.max 0 e) (2 ^ Z.max 0 (- e))
  | Inf s => Inf s
  end.

(** [int(x)]: truncation towards zero; infinity raises. *)
Definition to_int (x : float) : result Z :=
  match x with
  | Finite s m e =>
      let v := if 0 <=? e then m * 2 ^ e else m / 2 ^ (- e) in
      Ok (if s then - v else v)
  | Inf _ => Raise OverflowError
  end.

(** [x > 0.00] *)
Definition gt0 (x : float) : bool :=
  match x with
  | Finite false m _ => 0 <? m
  | Finite true _ _ => false
  | Inf s => negb s
  end.

(** [x < 0.00] *)
Definition lt0 (x : float) : bool := gt0 (neg x).

(** [x <= 0.00] *)
Definition le0 (x : float) : bool := negb (gt0 x).

(** [x >= 0.00] *)
Definition ge0 (x : float) : bool := negb (lt0 x).

(** [x == 0.00] *)
Definition is_zero (x : float) : bool := le0 x && ge0 x.

Fixpoint rstrip (s : string) : string :=
  match s with
  | EmptyString => EmptyString
  | String c s' =>
      match rstrip s' with
      | EmptyString => if PyStr.is_space c then EmptyString else String c EmptyString
      | t => String c t
      end
  end.

Fixpoint lstrip (s : string) : string :=
  match s with
  | EmptyString => EmptyString
  | String c s' => if PyStr.is_space c then lstrip s' else s
  end.

(** [float(s)] for the unsigned decimal literals [digits], [digits.digits],
    [digits.] and [.digits], surrounded by white space.  The other forms
    [float] reads (signs, exponents, underscores, [inf], [nan]) never reach
    the parser's call, which is guarded by the amount pattern; they are
    answered with [ValueError] here. *)
Definition of_str (s : string) : result float :=
  let bad := Raise (ValueError "could not convert string to float") in
  match PyStr.split "." (lstrip (rstrip s)) with
  | [ip] =>
      if PyStr.all_digits ip && PyStr.truthy ip
      then Ok (round false (PyStr.int_of_digits ip) 1)
      else bad
  | [ip; fp] =>
      if PyStr.all_digits ip && PyStr.all_digits fp && PyStr.truthy (ip ++ fp)
      then Ok (round false (PyStr.int_of_digits (ip ++ fp))
                 (10 ^ Z.of_nat (String.length fp)))
      else bad
  | _ => bad
  end.

End PyFloat.

(** ** Calendar dates

    [datetime.datetime] restricted to its calendar date: the parser builds
    every date at midnight, and the time zone does not change the date. *)

Module Datetime.

Local Open Scope Z_scope.

Record datetime : Type := mk_datetime { year : Z; month : Z; day : Z }.

Definition is_leap (y : Z) : bool :=
  (y mod 4 =? 0) && (negb (y mod 100 =? 0) || (y mod 400 =? 0)).

Definition days_in_month (y m : Z) : Z :=
  if m =? 2 then (if is_leap y then 29 else 28)
  else if (m =? 4) || (m =? 6) || (m =? 9) || (m =? 11) then 30
  else 31.

(** [datetime(year=y, month=m, day=d)]: [ValueError] outside the calendar. *)
Definition make (y m d : Z) : result datetime :=
  if negb ((1 <=? y) && (y <=? 9999)) then Raise (ValueError "year is out of range")
  else if negb ((1 <=? m) && (m <=? 12)) then Raise (ValueError "month must be in 1..12")
  else if negb ((1 <=? d) && (d <=? days_in_month y m))
       then Raise (ValueError "day is out of range for month")
  else Ok (mk_datetime y m d).

Definition month_of_abbrev (s : string) : option Z :=
  let u := PyStr.upper s in
  if String.eqb u "JAN" then Some 1
  else if String.eqb u "FEB" then Some 2
  else if String.eqb u "MAR" then Some 3
  else if String.eqb u "APR" then Some 4
  else if String.eqb u "MAY" then Some 5
  else if String.eqb u "JUN" then Some 6
  else if String.eqb u "JUL" then Some 7
  else if String.eqb u "AUG" then Some 8
  else if String.eqb u "SEP" then Some 9
  else if String.eqb u "OCT" then Some 10
  else if String.eqb u "NOV" then Some 11
  else if String.eqb u "DEC" then Some 12
  else None.

Fixpoint drop (n : nat) (s : string) : string :=
  match n, s with
  | O, _ => s
  | S _, EmptyString => EmptyString
  | S n', String _ s' => drop n' s'
  end.

Fixpoint take_while (p : ascii -> bool) (s : string) : string :=
  match s with
  | EmptyString => EmptyString
  | String c s' => if p c then String c (take_while p s') else EmptyString
  end.

Fixpoint drop_while (p : ascii -> bool) (s : string) : string :=
  match s with
  | EmptyString => EmptyString
  | String c s' => if p c then drop_while p s' else s
  end.

(** The day field of [%d]: [3[0-1]|[1-2]\d|0[1-9]|[1-9]]. *)
Definition day_field (ds : string) : option Z :=
  let v := PyStr.int_of_digits ds in
  match String.length ds with
  | 1%nat => if 1 <=? v then Some v else None
  | 2%nat => if (1 <=? v) && (v <=? 31) then Some v else None
  | _ => None
  end.

(** [datetime.strptime(s, '%b %d %Y')] in the C locale: an abbreviated month
    name in any case, white space, a day of one or two digits, white space,
    a year of four digits, and nothing after it.  Every failure is a
    [ValueError]. *)
Definition strptime (s : string) : result datetime :=
  let bad := Raise (ValueError "time data does not match format '%b %d %Y'") in
  match month_of_abbrev (PyStr.take 3 s) with
  | None => bad
  | Some m =>
      let r1 := drop 3 s in
      let r2 := drop_while PyStr.is_space r1 in
      let ds := take_while PyStr.is_digit r2 in
      let r3 := drop (String.length ds) r2 in
      let r4 := drop_while PyStr.is_space r3 in
      if PyStr.truthy (take_while PyStr.is_space r1)
         && PyStr.truthy (take_while PyStr.is_space r3)
      then
        match day_field ds with
        | None => bad
        | Some d =>
            if (String.length r4 =? 4)%nat && PyStr.all_digits r4
            then make (PyStr.int_of_digits r4) m d
            else bad
        end
      else bad
  end.

End Datetime.

(** ** The line buffer *)

(** [pop(lines)]: [lines.pop(0)] removes and returns the first line;
    on an empty list Python raises [IndexError]. *)
Definition pop (lines : list string) : result (string * list string) :=
  match lines with
  | [] => Raise IndexError
  | line :: rest => Ok (line, rest)
  end.

(** ** [StatementPeriodBuilder] *)

Module StatementPeriodBuilder.

(** [parse(cls, lines)]: the next line is [start-end]; both halves are read
    with [strptime(_, '%b %d %Y')].  Unpacking [line.split("-")] into two
    names raises [ValueError] unless there is exactly one hyphen. *)
Definition parse (lines : list string)
  : result (Datetime.datetime * Datetime.datetime * list string) :=
  let* (line, lines) := pop lines in
  match PyStr.split "-" line with
  | [start; end_] =>
      let* start_time := Datetime.strptime start in
      let* end_time := Datetime.strptime end_ in
      Ok (start_time, end_time, lines)
  | _ => Raise (ValueError "wrong number of values to unpack (expected 2)")
  end.

End StatementPeriodBuilder.

(** ** [StatementTransactionBuilder] *)

Inductive TrnType : Type := CREDIT | DEBIT.

(** The arguments [parse] gives to [STMTTRN(...)].  [dtposted] is kept as
    the date whose text [strftime] produces, and [trnamt] as the float
    whose text [str(amount)] is.  The checks [STMTTRN] makes on them belong
    to [ofxtools] and are left out. *)
Record STMTTRN : Type := mk_STMTTRN {
  trntype : TrnType;
  dtposted : Datetime.datetime;
  trnamt : PyFloat.float;
  fitid : string;
  name : string;
  memo : string
}.

Module StatementTransactionBuilder.

Import Regex.

(** [fitid(self, txn_date, amount)]:
    ["%d%02d%02d%05d%d%d" % (year, month, day, 0, abs(int(amount * 100)), txn_type)]. *)
Definition fitid (txn_date : Datetime.datetime) (amount : PyFloat.float)
  : result string :=
  let txn_type := 1%Z in
  let txn_type := if PyFloat.gt0 amount then 2%Z else txn_type in
  let* cents := PyFloat.to_int (PyFloat.mul amount 100) in
  Ok (PyStr.str_of_int (Datetime.year txn_date)
      ++ PyStr.str_of_int_02 (Datetime.month txn_date)
      ++ PyStr.str_of_int_02 (Datetime.day txn_date)
      ++ "00000"
      ++ PyStr.str_of_int (Z.abs cents)
      ++ PyStr.str_of_int txn_type).

Definition credit_types : list string := ["DEPOSIT"; "CREDIT"; "REFUND"].

Definition debit_types : list string :=
  ["ELECTRONIC PMT"; "PAY"; "WITHDRAW"; "DEBIT"; "FEE"; "CHARGE"; "PMT";
   "OVERDRAFT PD"].

(** [for kw in kws: if kw in trntype_hint.upper(): trntype = ty] *)
Fixpoint scan_keywords (kws : list string) (ty : TrnType)
  (trntype_hint : string) (trntype : option TrnType) : option TrnType :=
  match kws with
  | [] => trntype
  | kw :: kws' =>
      scan_keywords kws' ty trntype_hint
        (if PyStr.contains (PyStr.upper trntype_hint) kw then Some ty else trntype)
  end.

(** Lines 200 to 212: the type decided from the hint line. *)
Definition classify (trntype_hint : string) (processing_checks : bool)
  : option TrnType :=
  let trntype := None in
  let trntype := scan_keywords credit_types CREDIT trntype_hint trntype in
  let trntype := if processing_checks then Some DEBIT else trntype in
  match trntype with
  | None => scan_keywords debit_types DEBIT trntype_hint trntype
  | Some _ => trntype
  end.

Definition digit : regex := Sym PyStr.is_digit.

(** The pattern of line 233: [^\d+,?\d+\.\d{2}$]. *)
Definition amount_pattern : regex :=
  Seq (Plus digit)
    (Seq (Opt (Chr ","))
       (Seq (Plus digit)
          (Seq (Chr ".") (Seq digit digit)))).

Definition is_amount (line : string) : bool := match_anchored amount_pattern line.

(** Lines 233 to 235:
    [while not re.match(..., line): description += " " + line; line = pop(lines)]. *)
Fixpoint accumulate (description line : string) (lines : list string) {struct lines}
  : result (string * string * list string) :=
  if is_amount line then Ok (description, line, lines)
  else
    match lines with
    | [] => Raise IndexError
    | next :: rest => accumulate (description ++ " " ++ line) next rest
    end.

(** [parse(self, lines, txn_date, processing_checks)]: the transaction, or
    [None] for a check entry that is handled later, and the lines left.
    The transaction is given as the arguments with which line 249 calls
    [STMTTRN(...)]; an exception of that constructor (as on the date text
    of a year below 1000, which [strftime] writes on fewer than four
    digits) is not modelled. *)
Definition parse (lines : list string) (txn_date : Datetime.datetime)
  (processing_checks : bool) : result (option STMTTRN * list string) :=
  let* (trntype_hint, lines) := pop lines in
  match classify trntype_hint processing_checks with
  | None =>
      if negb (PyStr.startswith trntype_hint "Check #")
      then Raise (ValueError ("Unable to determine transaction type for " ++ trntype_hint))
      else
        let* (_, lines) := pop lines in
        let* (_, lines) := pop lines in
        Ok (None, lines)
  | Some trntype =>
      let description := "" in
      let description :=
        if processing_checks then "Check # " ++ trntype_hint else description in
      let* (line, lines) := pop lines in
      let* (description, line, lines) := accumulate description line lines in
      let description :=
        if negb (PyStr.truthy description) then trntype_hint else description in
      let* amount := PyFloat.of_str (PyStr.replace_comma line) in
      let amount :=
        match trntype with
        | DEBIT => PyFloat.neg amount
        | CREDIT => amount
        end in
      let* id := fitid txn_date amount in
      Ok (Some (mk_STMTTRN trntype txn_date amount id (PyStr.take 32 description) ""),
          lines)
  end.

End StatementTransactionBuilder.

(** ** [OfxBuilder] *)

Module OfxBuilder.

Local Open Scope Z_scope.

(** The attributes of [self], as [__init__] creates them. *)
Record t : Type := mk {
  statement_start_date : option Datetime.datetime;
  statement_end_date : option Datetime.datetime;
  account_number : option string;
  year : option Z;
  starting_statement_balance : option string;
  ending_statement_balance : option string
}.

(** [__init__(self)] *)
Definition init : t := mk None None None None None None.

(** The local variables of [parse]. *)
Record locals : Type := mk_locals {
  statement_transactions : list STMTTRN;
  rollover_year : bool;
  done : bool;
  processing_checks : bool
}.

Definition init_locals : locals := mk_locals [] true false false.

(** What [parse] hands to the [ofxtools] constructors: [LEDGERBAL],
    [BANKACCTFROM], [BANKTRANLIST] and [FI].  [balamt] is the string given
    to [Decimal].  The reading of that string by [Decimal], the checks the
    constructors make on their arguments, and the clock read for [dtserver]
    belong to the libraries and are left out. *)
Record OFX : Type := mk_OFX {
  balamt : string;
  dtasof : option Datetime.datetime;
  bankid : string;
  acctid : option string;
  accttype : string;
  dtstart : option Datetime.datetime;
  dtend : option Datetime.datetime;
  banktranlist : list STMTTRN;
  org : string;
  fi_fid : string
}.

Definition fi_org : string := "CommerceBank".
Definition fid : string := "1002".
Definition bankid_const : string := "0111030".

Definition set_period (self : t) (s e : Datetime.datetime) : t :=
  mk (Some s) (Some e) (account_number self) (Some (Datetime.year s))
     (starting_statement_balance self) (ending_statement_balance self).

Definition set_account_number (self : t) (a : string) : t :=
  mk (statement_start_date self) (statement_end_date self) (Some a) (year self)
     (starting_statement_balance self) (ending_statement_balance self).

Definition set_year (self : t) (y : Z) : t :=
  mk (statement_start_date self) (statement_end_date self) (account_number self)
     (Some y) (starting_statement_balance self) (ending_statement_balance self).

Definition set_starting (self : t) (b : string) : t :=
  mk (statement_start_date self) (statement_end_date self) (account_number self)
     (year self) (Some b) (ending_statement_balance self).

Definition set_ending (self : t) (b : string) : t :=
  mk (statement_start_date self) (statement_end_date self) (account_number self)
     (year self) (starting_statement_balance self) (Some b).

Definition set_processing_checks (l : locals) (b : bool) : locals :=
  mk_locals (statement_transactions l) (rollover_year l) (done l) b.

Definition set_done (l : locals) : locals :=
  mk_locals (statement_transactions l) (rollover_year l) true (processing_checks l).

Definition clear_rollover_year (l : locals) : locals :=
  mk_locals (statement_transactions l) false (done l) (processing_checks l).

Definition append_transaction (l : locals) (x : STMTTRN) : locals :=
  mk_locals (statement_transactions l ++ [x]) (rollover_year l) (done l)
    (processing_checks l).

(** Python truth value of an attribute that is [None] or a string. *)
Definition truthy (o : option string) : bool :=
  match o with
  | None => false
  | Some s => PyStr.truthy s
  end.

(** [re.search("^(\d{2})/(\d{2})", line)]: the two groups, when the line
    starts with two digits, a slash and two digits. *)
Definition date_search (line : string) : option (string * string) :=
  match line with
  | String a (String b (String s (String c (String d _)))) =>
      if PyStr.is_digit a && PyStr.is_digit b && Ascii.eqb s "/"
         && PyStr.is_digit c && PyStr.is_digit d
      then Some (String a (String b ""), String c (String d ""))%string
      else None
  | _ => None
  end.

(** Lines 99 to 117: the last branch of the loop body, for a line that is
    no header. *)
Definition transaction_line (self : t) (l : locals) (line : string)
  (lines : list string) : result (t * locals * list string) :=
  match date_search line with
  | None => Ok (self, l, lines)
  | Some (g1, g2) =>
      let month := PyStr.int_of_digits g1 in
      let day := PyStr.int_of_digits g2 in
      let* start :=
        match statement_start_date self with
        | None => Raise AttributeError
        | Some d => Ok d
        end in
      let* (self, l) :=
        if (Datetime.month start =? 12) && (month =? 1) && rollover_year l
        then
          match year self with
          | None => Raise TypeError
          | Some y => Ok (set_year self (y + 1), clear_rollover_year l)
          end
        else Ok (self, l) in
      let* y :=
        match year self with
        | None => Raise TypeError
        | Some y => Ok y
        end in
      let* txn_date := Datetime.make y month day in
      let* (statement_transaction, lines) :=
        StatementTransactionBuilder.parse lines txn_date (processing_checks l) in
      match statement_transaction with
      | Some x => Ok (self, append_transaction l x, lines)
      | None => Ok (self, l, lines)
      end
  end.

(** Lines 64 to 117: one turn of the loop, for the line just popped. *)
Definition iteration (self : t) (l : locals) (line : string) (lines : list string)
  : result (t * locals * list string) :=
  let l :=
    if PyStr.startswith line "Checks Paid" then set_processing_checks l true
    else if PyStr.startswith line "Electronic Payments" then set_processing_checks l false
    else l in
  if PyStr.startswith line "Statement Period:" then
    let* (s, e, lines) := StatementPeriodBuilder.parse lines in
    Ok (set_period self s e, l, lines)
  else if PyStr.startswith line "Primary Account #:" then
    let* (line, lines) := pop lines in
    Ok (set_account_number self line, l, lines)
  else if PyStr.startswith line "Statement Balance as of" then
    let* (line, lines) := pop lines in
    if truthy (starting_statement_balance self)
    then Ok (set_ending self (PyStr.replace_comma line), l, lines)
    else Ok (set_starting self (PyStr.replace_comma line), l, lines)
  else if PyStr.startswith line "Beginning Balance" then
    let* (line, lines) := pop lines in
    Ok (set_starting self (PyStr.replace_comma line), l, lines)
  else if PyStr.startswith line "Ending Balance" then
    let* (line, lines) := pop lines in
    Ok (set_ending self (PyStr.replace_comma line), l, lines)
  else if PyStr.startswith line "DAILY BALANCE SUMMARY"
          || PyStr.startswith line "INTEREST SUMMARY" then
    Ok (self, set_done l, lines)
  else if negb (done l) then transaction_line self l line lines
  else Ok (self, l, lines).

(** Line 63: [while len(lines) and not done].  Every turn pops a line, so
    [length lines] turns are enough; [fuel] counts them. *)
Fixpoint loop (fuel : nat) (self : t) (l : locals) (lines : list string)
  : result (t * locals * list string) :=
  match fuel, lines with
  | S fuel', line :: rest =>
      if done l then Ok (self, l, lines)
      else
        let* (self, l, lines) := iteration self l line rest in
        loop fuel' self l lines
  | _, _ => Ok (self, l, lines)
  end.

(** The loop of [parse] from a given state. *)
Definition scan (self : t) (l : locals) (lines : list string)
  : result (t * locals * list string) :=
  loop (length lines) self l lines.

(** Lines 119 to 138: the two [print]s concatenate the balances to a string
    ([TypeError] on [None]); then the document is put together. *)
Definition assemble (self : t) (l : locals) : result OFX :=
  match starting_statement_balance self, ending_statement_balance self with
  | Some _, Some ending =>
      Ok (mk_OFX ending (statement_end_date self) bankid_const (account_number self)
            "CHECKING" (statement_start_date self) (statement_end_date self)
            (statement_transactions l) fi_org fid)
  | _, _ => Raise TypeError
  end.

(** [parse(self, lines)]: the builder after the run and [self.ofx]. *)
Definition parse (self : t) (lines : list string) : result (t * OFX) :=
  let* (self, l, _) := scan self init_locals lines in
  let* ofx := assemble self l in
  Ok (self, ofx).

End OfxBuilder.

(** ** [reader/readers.py] *)

(** [tokenize_pdf_statement(file_path)], from the texts [page.getText()]
    of the pages of the document, which the [fitz] library supplies:
    the texts are concatenated, split at the newlines, and the empty
    pieces are dropped ([list(filter(None, text.split('\n')))]). *)
Definition tokenize_pdf_statement (pages : list string) : list string :=
  let text := fold_left String.append pages "" in
  filter PyStr.truthy (PyStr.split "010" text).

(** ** [pdf2qbo.py] *)

(** [s.replace(old, new)] for a non-empty [old]: the occurrences of [old]
    are replaced from left to right, without overlap.  [skip] counts the
    characters of an occurrence still to pass over. *)
Fixpoint str_replace_from (old new : string) (skip : nat) (s : string) : string :=
  match s with
  | EmptyString => EmptyString
  | String c s' =>
      match skip with
      | S k => str_replace_from old new k s'
      | O =>
          if String.prefix old s
          then new ++ str_replace_from old new (String.length old - 1) s'
          else String c (str_replace_from old new 0 s')
      end
  end.

Definition str_replace (old new s : string) : string := str_replace_from old new 0 s.

(** Line 36: the name of the output file, from the name of the input file:
    [import_file_name.replace('.pdf', '.qbo')]. *)
Definition output_file_name (import_file_name : string) : string :=
  str_replace ".pdf" ".qbo" import_file_name.

(** * Inputs and statements of the properties *)

(** A builder whose statement period is established: the state after the
    lines [Statement Period:] and [Mar 01 2021-Mar 31 2021]. *)
Definition established : OfxBuilder.t :=
  OfxBuilder.set_period OfxBuilder.init
    (Datetime.mk_datetime 2021 3 1) (Datetime.mk_datetime 2021 3 31).

(** The multi-line description example. *)
Definition multi_line_entry : list string :=
  ["03/14"; "DEBIT CARD PURCHASE"; "AMAZON.COM"; "SEATTLE WA"; "45.99"].

(** The transaction the reassembler builds from [multi_line_entry]. *)
Definition multi_line_transaction (txn_date : Datetime.datetime) : STMTTRN :=
  mk_STMTTRN DEBIT txn_date (PyFloat.neg (PyFloat.round false 4599 100))
    (PyStr.str_of_int (Datetime.year txn_date)
     ++ PyStr.str_of_int_02 (Datetime.month txn_date)
     ++ PyStr.str_of_int_02 (Datetime.day txn_date) ++ "0000045991")
    " AMAZON.COM SEATTLE WA" "".


(** The transaction the reassembler builds from the check entry. *)
Definition check_transaction (txn_date : Datetime.datetime) : STMTTRN :=
  mk_STMTTRN DEBIT txn_date (PyFloat.neg (PyFloat.round false 12000 100))
    (PyStr.str_of_int (Datetime.year txn_date)
     ++ PyStr.str_of_int_02 (Datetime.month txn_date)
     ++ PyStr.str_of_int_02 (Datetime.day txn_date) ++ "00000120001")
    "Check # 103" "".

(** The keyword [kw] occurs in [hint] when the case of letters is ignored. *)
Definition occurs_ignoring_case (kw hint : string) : Prop :=
  exists pre mid post,
    hint = pre ++ mid ++ post /\ PyStr.upper mid = PyStr.upper kw.

(** Some keyword of the list occurs in the hint line. *)
Definition has_keyword (kws : list string) (hint : string) : Prop :=
  exists kw, In kw kws /\ occurs_ignoring_case kw hint.

Definition matches_any (kws : list string) (hint : string) : bool :=
  existsb (fun kw => PyStr.contains (PyStr.upper hint) kw) kws.

(** A non-empty string of decimal digits. *)
Definition digits (s : string) : Prop :=
  PyStr.all_digits s = true /\ s <> "".

(** The words of the pattern of line 233, spelled out: digits, at most one
    comma, digits, a point and two digits. *)
Definition amount_shape (s : string) : Prop :=
  exists a sep b f1 f2,
    s = a ++ sep ++ b ++ String "." (String f1 (String f2 "")) /\
    digits a /\ (sep = "" \/ sep = ",") /\ digits b /\
    PyStr.is_digit f1 = true /\ PyStr.is_digit f2 = true.

(** An entry with a one-digit amount, followed by the next entry. *)
Definition small_fee_lines : list string :=
  ["FEE"; "5.00"; "03/15"; "DEPOSIT"; "12.00"].

(** A deposit of nothing. *)
Definition zero_deposit_lines : list string := ["DEPOSIT"; "00.00"].




(** The line starts with one of the three balance headers. *)
Definition balance_header (line : string) : bool :=
  PyStr.startswith line "Statement Balance as of"
  || PyStr.startswith line "Beginning Balance"
  || PyStr.startswith line "Ending Balance".

(** A run in which both styles of balance header occur. *)
Definition mixed_style_lines : list string :=
  ["Beginning Balance"; "500.00";
   "Statement Balance as of"; "1,234.56"; "Statement Balance as of"; "2,345.67"].

(** A statement from December to January whose period header comes twice,
    as on the second page of a statement. *)
Definition repeated_period_lines : list string :=
  ["Statement Period:"; "Dec 15 2020-Jan 14 2021"; "01/02"; "DEPOSIT"; "10.00";
   "Statement Period:"; "Dec 15 2020-Jan 14 2021"; "01/03"; "DEPOSIT"; "20.00"].

(** The year a transaction must carry in a statement that starts at
    [start] with the year [y]: before the roll-over the year [y], and no
    January entry in a December statement; after it the year [y + 1]. *)
Definition year_ok (start : Datetime.datetime) (y : Z) (rolled : bool) (t : STMTTRN) : Prop :=
  if rolled
  then Datetime.year (dtposted t) = (y + 1)%Z
  else Datetime.year (dtposted t) = y /\
       (Datetime.month start = 12%Z -> Datetime.month (dtposted t) <> 1%Z).

(** The state of a run under one statement period, [new] being the
    transactions added so far: either the year was not rolled over yet, or
    the statement starts in December and the year was rolled over once. *)
Definition run_years (start : Datetime.datetime) (y : Z) (base : list STMTTRN)
  (self : OfxBuilder.t) (l : OfxBuilder.locals) : Prop :=
  OfxBuilder.statement_start_date self = Some start /\
  exists new,
    OfxBuilder.statement_transactions l = (base ++ new)%list /\
    (((Datetime.month start = 12%Z -> OfxBuilder.rollover_year l = true) /\
      OfxBuilder.year self = Some y /\
      Forall (year_ok start y false) new)
     \/
     (Datetime.month start = 12%Z /\ OfxBuilder.rollover_year l = false /\
      OfxBuilder.year self = Some (y + 1)%Z /\
      Forall (fun t => year_ok start y false t \/ year_ok start y true t) new)).

(** The description lines as the loop of line 233 appends them: each one
    after a space. *)
Definition join_description (ds : list string) : string :=
  fold_right (fun line acc => " " ++ line ++ acc) "" ds.

(** The description of an entry with the hint [hint] and the description
    lines [ds], before it is cut to 32 characters. *)
Definition description_of (processing_checks : bool) (hint : string)
  (ds : list string) : string :=
  if processing_checks then "Check # " ++ hint ++ join_description ds
  else match ds with
       | [] => hint
       | _ :: _ => join_description ds
       end.

(** The line starts with a header whose value is the line after it. *)
Definition needs_value (line : string) : bool :=
  PyStr.startswith line "Statement Period:"
  || PyStr.startswith line "Primary Account #:"
  || PyStr.startswith line "Statement Balance as of"
  || PyStr.startswith line "Beginning Balance"
  || PyStr.startswith line "Ending Balance".

(** The line starts with one of the two headers that end the scan. *)
Definition terminator (line : string) : bool :=
  PyStr.startswith line "DAILY BALANCE SUMMARY"
  || PyStr.startswith line "INTEREST SUMMARY".

(** A date of the calendar, in the years of [datetime]. *)
Definition valid_date (d : Datetime.datetime) : Prop :=
  (1 <= Datetime.year d <= 9999)%Z /\
  (1 <= Datetime.month d <= 12)%Z /\
  (1 <= Datetime.day d <= Datetime.days_in_month (Datetime.year d) (Datetime.month d))%Z.

(** The running year follows the statement period: it is unset with it,
    and else the year of the start date, or the year after it once a
    December statement was rolled over. *)
Definition year_follows_period (self : OfxBuilder.t) (l : OfxBuilder.locals) : Prop :=
  match OfxBuilder.statement_start_date self, OfxBuilder.year self with
  | None, None => True
  | Some start, Some y =>
      y = Datetime.year start \/
      (y = (Datetime.year start + 1)%Z /\ Datetime.month start = 12%Z /\
       OfxBuilder.rollover_year l = false)
  | _, _ => False
  end.

(** The number of occurrences of a character. *)
Fixpoint count_char (c : ascii) (s : string) : nat :=
  match s with
  | EmptyString => O
  | String d s' => (if Ascii.eqb d c then 1 else 0) + count_char c s'
  end.

(** A two-page document: the text of each page ends with a newline. *)
Definition two_pages : list string :=
  [String.append "Statement Period:" (String "010" (String.append "Mar 01 2021-Mar 31 2021" (String "010" "")));
   String.append "03/14" (String "010" (String "010" (String.append "DEPOSIT" (String "010" (String.append "45.99" (String "010" ""))))))].

(** * Properties *)

(** ** Strings *)

Section StringFacts.

Lemma prefix_nil (s : string) : String.prefix "" s = true.
Proof. now destruct s. Qed.

Lemma prefix_app (p s : string) :
  String.prefix p s = true <-> exists r, s = p ++ r.
Proof.
  revert s; induction p as [|c p IH]; intros s.
  - rewrite prefix_nil. split; [intros _; now exists s | reflexivity].
  - destruct s as [|d s]; simpl.
    + split; [discriminate | intros [r H]; discriminate].
    + destruct (ascii_dec c d) as [->|Hne].
      * rewrite IH. split; intros [r H]; exists r.
        -- now rewrite H.
        -- now injection H.
      * split; [discriminate | intros [r H]; injection H; congruence].
Qed.

Lemma prefix_exclusive (p q s : string) :
  String.prefix p s = true -> String.prefix q s = true ->
  String.prefix p q = true \/ String.prefix q p = true.
Proof.
  rewrite !prefix_app. revert q s; induction p as [|c p IH]; intros q s.
  - intros _ _. left. now exists q.
  - intros [r ->] [r' H]. destruct q as [|e q].
    + right. now exists (String c p).
    + simpl in H. injection H as -> H.
      destruct (IH q (p ++ r)) as [[x ->] | [x ->]].
      * now exists r.
      * now exists r'.
      * left. now exists x.
      * right. now exists x.
Qed.

(** Two headers of which neither starts the other never start the same line. *)
Lemma startswith_other (line h1 h2 : string) :
  String.prefix h1 h2 = false -> String.prefix h2 h1 = false ->
  PyStr.startswith line h1 = true -> PyStr.startswith line h2 = false.
Proof.
  unfold PyStr.startswith. intros H12 H21 H1.
  destruct (String.prefix h2 line) eqn:H2; [|reflexivity].
  destruct (prefix_exclusive _ _ _ H1 H2); congruence.
Qed.

Lemma length_app_str (a b : string) :
  String.length (a ++ b) = (String.length a + String.length b)%nat.
Proof. induction a; simpl; congruence. Qed.

Lemma upper_app (a b : string) :
  PyStr.upper (a ++ b) = PyStr.upper a ++ PyStr.upper b.
Proof. induction a; simpl; congruence. Qed.

(** A split of [upper s] comes from a split of [s]. *)
Lemma upper_split (s a b : string) :
  PyStr.upper s = a ++ b ->
  exists a' b', s = a' ++ b' /\ PyStr.upper a' = a /\ PyStr.upper b' = b.
Proof.
  revert s; induction a as [|c a IH]; intros s H; simpl in H.
  - exists "", s. auto.
  - destruct s as [|d s]; simpl in H; [discriminate|].
    injection H as Hc Hs. destruct (IH _ Hs) as (a' & b' & -> & Ha & Hb).
    exists (String d a'), b'. simpl. repeat split; congruence.
Qed.

(** [sub in s] holds exactly when [sub] occurs in [s]. *)
Lemma contains_spec (s sub : string) :
  PyStr.contains s sub = true <-> exists pre post, s = pre ++ sub ++ post.
Proof.
  induction s as [|c s IH]; cbn [PyStr.contains].
  - rewrite orb_false_r, prefix_app. split.
    + intros [r H]. now exists "", r.
    + intros (pre & post & H). exists post.
      destruct pre; [exact H | discriminate].
  - rewrite orb_true_iff, prefix_app, IH. split.
    + intros [[r H] | (pre & post & H)].
      * now exists "", r.
      * exists (String c pre), post. simpl. now rewrite H.
    + intros (pre & post & H). destruct pre as [|d pre]; simpl in H.
      * left. now exists post.
      * right. injection H as _ H. now exists pre, post.
Qed.

End StringFacts.

(** ** The matcher decides the words of a pattern *)

Section RegexFacts.

Import Regex.

Lemma app_nil_inv (a b : string) : a ++ b = "" -> a = "" /\ b = "".
Proof. destruct a; simpl; [auto | discriminate]. Qed.

Lemma nullable_lang (r : regex) : nullable r = true <-> lang r "".
Proof.
  split.
  - induction r; simpl; intros H; try discriminate.
    + constructor.
    + apply andb_true_iff in H. destruct H as [H1 H2].
      change "" with ("" ++ ""). constructor; auto.
    + apply orb_true_iff in H. destruct H; [apply L_alt_l | apply L_alt_r]; auto.
    + constructor.
  - intros H. remember "" as s eqn:Es.
    induction H; simpl; try reflexivity; try discriminate.
    + apply app_nil_inv in Es. destruct Es. rewrite IHlang1, IHlang2; auto.
    + rewrite IHlang; auto.
    + rewrite IHlang; auto. apply orb_true_r.
Qed.

Lemma deriv_sound (c : ascii) (r : regex) :
  forall s, lang (deriv c r) s -> lang r (String c s).
Proof.
  induction r; simpl; intros s H.
  - inversion H.
  - inversion H.
  - destruct (p c) eqn:E; inversion H; subst. now constructor.
  - assert (Hseq : forall s, lang (Seq (deriv c r1) r2) s -> lang (Seq r1 r2) (String c s)).
    { intros s0 H0. inversion H0; subst.
      change (String c (s1 ++ s2)) with (String c s1 ++ s2). constructor; auto. }
    destruct (nullable r1) eqn:E; [|auto].
    inversion H; subst; [auto|].
    change (String c s) with ("" ++ String c s).
    constructor; [now apply nullable_lang | auto].
  - inversion H; subst; [apply L_alt_l | apply L_alt_r]; auto.
  - inversion H; subst.
    change (String c (s1 ++ s2)) with (String c s1 ++ s2). constructor; auto.
Qed.

Lemma deriv_complete (c : ascii) (r : regex) (w : string) :
  lang r w -> forall s, w = String c s -> lang (deriv c r) s.
Proof.
  induction 1 as [ | p d Hp | r1 r2 s1 s2 H1 IH1 H2 IH2 | r1 r2 s0 H0 IH0
                 | r1 r2 s0 H0 IH0 | r0 | r0 s1 s2 H1 IH1 H2 IH2 ];
    intros s E; simpl.
  - discriminate.
  - injection E as -> <-. rewrite Hp. constructor.
  - destruct s1 as [|d s1]; simpl in E.
    + apply nullable_lang in H1. rewrite H1. apply L_alt_r. auto.
    + injection E as -> <-.
      assert (lang (Seq (deriv c r1) r2) (s1 ++ s2)) by (constructor; auto).
      destruct (nullable r1); [now apply L_alt_l | assumption].
  - apply L_alt_l; auto.
  - apply L_alt_r; auto.
  - discriminate.
  - destruct s1 as [|d s1]; simpl in E.
    + apply (IH2 _ E).
    + injection E as -> <-. constructor; auto.
Qed.

Lemma fullmatch_lang (s : string) :
  forall r, fullmatch r s = true <-> lang r s.
Proof.
  induction s as [|c s IH]; intros r; simpl.
  - apply nullable_lang.
  - rewrite IH. split; [apply deriv_sound | intros H; now apply deriv_complete with (String c s)].
Qed.

End RegexFacts.

(** ** The buffer is drained from the front *)

Section Draining.

Import StatementTransactionBuilder.

Lemma accumulate_suffix (lines : list string) :
  forall description line d a rest,
    accumulate description line lines = Ok (d, a, rest) ->
    exists used, lines = (used ++ rest)%list.
Proof.
  induction lines as [|next lines IH]; intros description line d a rest; simpl.
  - destruct (is_amount line); [|discriminate].
    intros H; injection H as <- <- <-. now exists [].
  - destruct (is_amount line).
    + intros H; injection H as <- <- <-. now exists [].
    + intros H. destruct (IH _ _ _ _ _ H) as [used ->]. now exists (next :: used).
Qed.

Lemma accumulate_app (lines more : list string) :
  forall description line d a rest,
    accumulate description line lines = Ok (d, a, rest) ->
    accumulate description line (lines ++ more) = Ok (d, a, (rest ++ more)%list).
Proof.
  induction lines as [|next lines IH]; intros description line d a rest; simpl.
  - destruct (is_amount line) eqn:E; [|discriminate].
    intros H; injection H as <- <- <-.
    destruct more; simpl; now rewrite E.
  - destruct (is_amount line).
    + intros H; injection H as <- <- <-. reflexivity.
    + apply IH.
Qed.

(** The result of the loop is an amount line. *)
Lemma accumulate_amount (lines : list string) :
  forall description line d a rest,
    accumulate description line lines = Ok (d, a, rest) -> is_amount a = true.
Proof.
  induction lines as [|next lines IH]; intros description line d a rest; simpl.
  - destruct (is_amount line) eqn:E; [|discriminate]. congruence.
  - destruct (is_amount line) eqn:E; [congruence | apply IH].
Qed.

Lemma transaction_parse_suffix (lines : list string) txn_date pc r rest :
  parse lines txn_date pc = Ok (r, rest) ->
  exists used, lines = (used ++ rest)%list /\ used <> [].
Proof.
  unfold parse. destruct lines as [|hint lines]; cbn [pop bind]; [discriminate|].
  destruct (classify hint pc).
  - destruct lines as [|line lines]; cbn [pop bind]; [discriminate|].
    destruct (accumulate _ line lines) as [[[d a] rest']|] eqn:E;
      cbn [bind]; [|discriminate].
    destruct (PyFloat.of_str _); cbn [bind]; [|discriminate].
    destruct (fitid _ _); cbn [bind]; [|discriminate].
    intros H; injection H as _ <-.
    destruct (accumulate_suffix _ _ _ _ _ _ E) as [used ->].
    exists (hint :: line :: used). split; [reflexivity | discriminate].
  - destruct (negb _); [discriminate|].
    destruct lines as [|a [|b lines]]; cbn [pop bind]; try discriminate.
    intros H; injection H as _ <-.
    exists [hint; a; b]. split; [reflexivity | discriminate].
Qed.

Lemma transaction_parse_app (lines more : list string) txn_date pc r rest :
  parse lines txn_date pc = Ok (r, rest) ->
  parse (lines ++ more) txn_date pc = Ok (r, (rest ++ more)%list).
Proof.
  unfold parse. destruct lines as [|hint lines]; cbn [pop bind app]; [discriminate|].
  destruct (classify hint pc).
  - destruct lines as [|line lines]; cbn [pop bind app]; [discriminate|].
    destruct (accumulate _ line lines) as [[[d a] rest']|] eqn:E;
      cbn [bind]; [|discriminate].
    rewrite (accumulate_app _ more _ _ _ _ _ E). cbn [bind].
    destruct (PyFloat.of_str _); cbn [bind]; [|discriminate].
    destruct (fitid _ _); cbn [bind]; [|discriminate].
    intros H; injection H as <- <-. reflexivity.
  - destruct (negb _); [discriminate|].
    destruct lines as [|a [|b lines]]; cbn [pop bind app]; try discriminate.
    intros H; injection H as <- <-. reflexivity.
Qed.

Lemma period_parse_suffix (lines : list string) s e rest :
  StatementPeriodBuilder.parse lines = Ok (s, e, rest) ->
  exists line, lines = line :: rest.
Proof.
  unfold StatementPeriodBuilder.parse.
  destruct lines as [|line lines]; cbn [pop bind]; [discriminate|].
  destruct (PyStr.split _ line) as [|a [|b [|c ws]]]; try discriminate.
  destruct (Datetime.strptime a); cbn [bind]; [|discriminate].
  destruct (Datetime.strptime b); cbn [bind]; [|discriminate].
  intros H; injection H as _ _ <-. now exists line.
Qed.

Lemma period_parse_app (lines more : list string) s e rest :
  StatementPeriodBuilder.parse lines = Ok (s, e, rest) ->
  StatementPeriodBuilder.parse (lines ++ more) = Ok (s, e, (rest ++ more)%list).
Proof.
  unfold StatementPeriodBuilder.parse.
  destruct lines as [|line lines]; cbn [pop bind app]; [discriminate|].
  destruct (PyStr.split _ line) as [|a [|b [|c ws]]]; try discriminate.
  destruct (Datetime.strptime a); cbn [bind]; [|discriminate].
  destruct (Datetime.strptime b); cbn [bind]; [|discriminate].
  intros H; injection H as <- <- <-. reflexivity.
Qed.

End Draining.

(** ** The loop of the scanner *)

Section Scanner.

Import OfxBuilder.

(** What a turn on a dated line does, when it returns. *)
Lemma transaction_line_ok self l line lines self' l' rest :
  transaction_line self l line lines = Ok (self', l', rest) ->
  (date_search line = None /\ self' = self /\ l' = l /\ rest = lines) \/
  (exists g1 g2 start y txn_date r,
      date_search line = Some (g1, g2) /\
      statement_start_date self = Some start /\
      year self = Some y /\
      let roll := ((Datetime.month start =? 12) && (PyStr.int_of_digits g1 =? 1)
                   && rollover_year l)%Z in
      let l1 := if roll then clear_rollover_year l else l in
      self' = (if roll then set_year self (y + 1) else self) /\
      Datetime.make (if roll then y + 1 else y)%Z
        (PyStr.int_of_digits g1) (PyStr.int_of_digits g2) = Ok txn_date /\
      StatementTransactionBuilder.parse lines txn_date (processing_checks l)
        = Ok (r, rest) /\
      l' = match r with
           | Some x => append_transaction l1 x
           | None => l1
           end).
Proof.
  unfold transaction_line.
  destruct (date_search line) as [[g1 g2]|].
  2:{ intros H; injection H as <- <- <-. now left. }
  destruct (statement_start_date self) as [start|] eqn:Es; cbn [bind]; [|discriminate].
  intros H. right. exists g1, g2, start.
  destruct ((Datetime.month start =? 12) && (PyStr.int_of_digits g1 =? 1)
            && rollover_year l)%Z eqn:Er.
  - destruct (year self) as [y|] eqn:Ey; cbn [bind year set_year] in H; [|discriminate].
    destruct (Datetime.make _ _ _) as [d|] eqn:Ed; cbn [bind] in H; [|discriminate].
    destruct (StatementTransactionBuilder.parse _ _ _) as [[r rest']|] eqn:Ep;
      cbn [bind] in H; [|discriminate].
    exists y, d, r. cbn zeta.
    destruct r; injection H as <- <- <-; repeat split; assumption.
  - cbn [bind] in H.
    destruct (year self) as [y|] eqn:Ey; cbn [bind] in H; [|discriminate].
    destruct (Datetime.make _ _ _) as [d|] eqn:Ed; cbn [bind] in H; [|discriminate].
    destruct (StatementTransactionBuilder.parse _ _ _) as [[r rest']|] eqn:Ep;
      cbn [bind] in H; [|discriminate].
    exists y, d, r. cbn zeta.
    destruct r; injection H as <- <- <-; repeat split; assumption.
Qed.

Ltac header_cases :=
  unfold iteration;
  repeat match goal with
    | |- context [if PyStr.startswith ?x ?h then _ else _] =>
        destruct (PyStr.startswith x h) eqn:?
    | |- context [if PyStr.startswith ?x ?h || _ then _ else _] =>
        destruct (PyStr.startswith x h) eqn:?; cbn [orb]
    end.

Ltac pop_cases lines :=
  destruct lines as [|? ?]; cbn [pop bind app]; [discriminate|].

Lemma iteration_suffix self l line (lines : list string) self' l' rest :
  iteration self l line lines = Ok (self', l', rest) ->
  exists used, lines = (used ++ rest)%list.
Proof.
  header_cases;
    try (pop_cases lines;
         try destruct (truthy _);
         intros H; injection H as _ _ <-;
         match goal with |- exists _, ?x :: _ = _ => now exists [x] end);
    try (intros H; injection H as _ _ <-; now exists []).
  all: try (destruct (StatementPeriodBuilder.parse lines) as [[[s e] r]|] eqn:E;
            cbn [bind]; [|discriminate];
            intros H; injection H as _ _ <-;
            destruct (period_parse_suffix _ _ _ _ E) as [x ->]; now exists [x]).
  all: destruct (negb (done _)); [|intros H; injection H as _ _ <-; now exists []].
  all: intros H; apply transaction_line_ok in H;
    destruct H as [(_ & _ & _ & ->) | (g1 & g2 & st & y & d & r & _ & _ & _ & H)];
    [now exists [] |].
  all: cbn zeta in H; destruct H as (_ & _ & H & _);
    destruct (transaction_parse_suffix _ _ _ _ _ H) as (used & -> & _);
    now exists used.
Qed.

Lemma transaction_line_app self l line (lines more : list string) self' l' rest :
  transaction_line self l line lines = Ok (self', l', rest) ->
  transaction_line self l line (lines ++ more) = Ok (self', l', (rest ++ more)%list).
Proof.
  unfold transaction_line.
  destruct (date_search line) as [[g1 g2]|];
    [|intros H; injection H as <- <- <-; reflexivity].
  destruct (statement_start_date self) as [start|]; cbn [bind]; [|discriminate].
  destruct ((Datetime.month start =? 12) && (PyStr.int_of_digits g1 =? 1)
            && rollover_year l)%Z;
    cbn [bind];
    destruct (year self) as [y|] eqn:Ey; cbn [bind year set_year]; try discriminate;
    (destruct (Datetime.make _ _ _) as [d|]; cbn [bind]; [|discriminate]);
    (destruct (StatementTransactionBuilder.parse lines _ _) as [[r rest']|] eqn:E;
     cbn [bind]; [|discriminate]);
    rewrite (transaction_parse_app _ more _ _ _ _ E); cbn [bind];
    destruct r; intros H; injection H as <- <- <-; reflexivity.
Qed.

Lemma iteration_app self l line (lines more : list string) self' l' rest :
  iteration self l line lines = Ok (self', l', rest) ->
  iteration self l line (lines ++ more) = Ok (self', l', (rest ++ more)%list).
Proof.
  header_cases;
    try (pop_cases lines; try destruct (truthy _);
         intros H; injection H as <- <- <-; reflexivity);
    try (intros H; injection H as <- <- <-; reflexivity).
  all: try (destruct (StatementPeriodBuilder.parse lines) as [[[s e] r]|] eqn:E;
            cbn [bind]; [|discriminate];
            rewrite (period_parse_app _ more _ _ _ E); cbn [bind];
            intros H; injection H as <- <- <-; reflexivity).
  all: destruct (negb (done _)); [|intros H; injection H as <- <- <-; reflexivity].
  all: apply transaction_line_app.
Qed.

(** A turn never lengthens the buffer, so the fuel of [scan] is enough. *)
Lemma iteration_length self l line (lines : list string) self' l' rest :
  iteration self l line lines = Ok (self', l', rest) ->
  (length rest <= length lines)%nat.
Proof.
  intros H. destruct (iteration_suffix _ _ _ _ _ _ _ H) as [used ->].
  rewrite length_app. lia.
Qed.

Lemma loop_fuel (fuel fuel' : nat) :
  forall self l (lines : list string),
    (length lines <= fuel)%nat -> (length lines <= fuel')%nat ->
    loop fuel self l lines = loop fuel' self l lines.
Proof.
  revert fuel'; induction fuel as [|fuel IH]; intros fuel' self l lines Hf Hf'.
  - destruct lines; [|simpl in Hf; lia]. now destruct fuel'.
  - destruct lines as [|line rest]; [now destruct fuel'|].
    destruct fuel' as [|fuel']; [simpl in Hf'; lia|].
    cbn [loop]. destruct (done l); [reflexivity|].
    destruct (iteration self l line rest) as [[[s1 l1] r1]|] eqn:E;
      cbn [bind]; [|reflexivity].
    apply iteration_length in E. simpl in Hf, Hf'. apply IH; lia.
Qed.

(** The loop stops on [done] or on an empty buffer only. *)
Lemma loop_stops (fuel : nat) :
  forall self l (lines : list string) self' l' rest,
    (length lines <= fuel)%nat ->
    loop fuel self l lines = Ok (self', l', rest) ->
    done l' = true \/ rest = [].
Proof.
  induction fuel as [|fuel IH]; intros self l lines self' l' rest Hf.
  - destruct lines; [|simpl in Hf; lia].
    cbn [loop]. intros H; injection H as _ _ <-. now right.
  - destruct lines as [|line lines]; cbn [loop].
    + intros H; injection H as _ _ <-. now right.
    + destruct (done l) eqn:Ed.
      * intros H; injection H as _ <- _. now left.
      * destruct (iteration self l line lines) as [[[s1 l1] r1]|] eqn:E;
          cbn [bind]; [|discriminate].
        apply iteration_length in E. simpl in Hf. apply IH. lia.
Qed.

(** A run that drains [lines] without reaching a terminator header goes on,
    in a longer buffer, with the lines that follow. *)
Lemma loop_app (fuel : nat) :
  forall self l (lines more : list string) self' l' fuel',
    (length lines <= fuel)%nat ->
    loop fuel self l lines = Ok (self', l', []) ->
    done l' = false ->
    (length (lines ++ more) <= fuel')%nat ->
    loop fuel' self l (lines ++ more) = loop (length more) self' l' more.
Proof.
  induction fuel as [|fuel IH]; intros self l lines more self' l' fuel' Hf H Hd Hf'.
  - destruct lines; [|simpl in Hf; lia].
    cbn [loop] in H. injection H as <- <-. now apply loop_fuel.
  - destruct lines as [|line lines]; cbn [loop] in H.
    + injection H as <- <-. now apply loop_fuel.
    + destruct (done l) eqn:Ed; [discriminate|].
      destruct (iteration self l line lines) as [[[s1 l1] r1]|] eqn:E;
        cbn [bind] in H; [|discriminate].
      destruct fuel' as [|fuel']; [simpl in Hf'; lia|].
      cbn [loop app]. rewrite Ed.
      rewrite (iteration_app _ _ _ _ more _ _ _ E). cbn [bind].
      pose proof (iteration_length _ _ _ _ _ _ _ E) as Hl.
      simpl in Hf, Hf'. rewrite length_app in Hf'.
      apply IH with (fuel' := fuel') (more := more) in H;
        [exact H | lia | exact Hd | rewrite length_app; lia].
Qed.

Lemma scan_app self l (lines more : list string) self' l' :
  scan self l lines = Ok (self', l', []) ->
  done l' = false ->
  scan self l (lines ++ more) = scan self' l' more.
Proof.
  unfold scan. intros H Hd.
  now apply loop_app with (fuel := length lines).
Qed.

Lemma scan_cons self l line (lines : list string) :
  done l = false ->
  scan self l (line :: lines) =
  let* (self, l, lines) := iteration self l line lines in scan self l lines.
Proof.
  intros Hd. unfold scan. cbn [loop length]. rewrite Hd.
  destruct (iteration self l line lines) as [[[s1 l1] r1]|] eqn:E;
    cbn [bind]; [|reflexivity].
  apply iteration_length in E. apply loop_fuel; lia.
Qed.

End Scanner.

(** ** Turns of the loop on the kinds of line *)


Section Turns.

Import OfxBuilder.

(** A line that starts with a digit starts with no header. *)
Lemma digit_line_no_header (a : ascii) (line h : string) :
  PyStr.is_digit a = true ->
  match h with
  | EmptyString => False
  | String c _ => PyStr.is_digit c = false
  end ->
  PyStr.startswith (String a line) h = false.
Proof.
  intros Ha Hh. destruct h as [|c h]; [contradiction|].
  unfold PyStr.startswith. cbn [String.prefix].
  destruct (ascii_dec c a) as [->|]; [congruence | reflexivity].
Qed.

Lemma date_search_digit (line g1 g2 : string) :
  date_search line = Some (g1, g2) ->
  exists a rest, line = String a rest /\ PyStr.is_digit a = true.
Proof.
  unfold date_search.
  destruct line as [|a [|b [|s [|c [|d rest]]]]]; try discriminate.
  destruct (PyStr.is_digit a) eqn:Ha; [|discriminate].
  intros _. now exists a, (String b (String s (String c (String d rest)))).
Qed.

(** On a dated line the turn is the transaction branch. *)
Lemma iteration_date_line self l (line g1 g2 : string) (lines : list string) :
  date_search line = Some (g1, g2) ->
  done l = false ->
  iteration self l line lines = transaction_line self l line lines.
Proof.
  intros Hs Hd. destruct (date_search_digit _ _ _ Hs) as (a & rest & -> & Ha).
  unfold iteration.
  rewrite !(digit_line_no_header a rest) by (exact Ha || reflexivity).
  cbn [orb]. now rewrite Hd.
Qed.




End Turns.

(** ** Classification of the hint line *)

Section Classification.

Import StatementTransactionBuilder.

Lemma scan_keywords_spec (kws : list string) ty hint :
  forall init,
    scan_keywords kws ty hint init =
    if matches_any kws hint then Some ty else init.
Proof.
  induction kws as [|kw kws IH]; intros init; cbn [scan_keywords matches_any existsb].
  - reflexivity.
  - rewrite IH. fold (matches_any kws hint).
    destruct (PyStr.contains (PyStr.upper hint) kw);
      destruct (matches_any kws hint); reflexivity.
Qed.

Lemma contains_upper_occurs (kw hint : string) :
  PyStr.upper kw = kw ->
  PyStr.contains (PyStr.upper hint) kw = true <-> occurs_ignoring_case kw hint.
Proof.
  intros Hk. rewrite contains_spec. unfold occurs_ignoring_case. split.
  - intros (pre & post & H).
    apply upper_split in H. destruct H as (a & r & -> & <- & Hr).
    apply upper_split in Hr. destruct Hr as (m & p & -> & Hm & <-).
    exists a, m, p. split; [reflexivity | congruence].
  - intros (pre & mid & post & -> & Hm).
    exists (PyStr.upper pre), (PyStr.upper post).
    rewrite !upper_app. congruence.
Qed.

Lemma matches_any_spec (kws : list string) (hint : string) :
  Forall (fun kw => PyStr.upper kw = kw) kws ->
  matches_any kws hint = true <-> has_keyword kws hint.
Proof.
  intros Hu. unfold matches_any, has_keyword. rewrite existsb_exists.
  rewrite Forall_forall in Hu.
  split; intros (kw & Hin & H); exists kw; split; try exact Hin;
    now apply (contains_upper_occurs kw hint (Hu kw Hin)).
Qed.

Lemma credit_types_upper : Forall (fun kw => PyStr.upper kw = kw) credit_types.
Proof. repeat constructor. Qed.

Lemma debit_types_upper : Forall (fun kw => PyStr.upper kw = kw) debit_types.
Proof. repeat constructor. Qed.

(** Outside the checks section the type is decided by the keywords alone,
    the credit keywords first. *)
Lemma classify_spec (hint : string) :
  classify hint false =
  if matches_any credit_types hint then Some CREDIT
  else if matches_any debit_types hint then Some DEBIT
  else None.
Proof.
  unfold classify. rewrite !scan_keywords_spec.
  destruct (matches_any credit_types hint); reflexivity.
Qed.

Lemma classify_none (hint : string) :
  classify hint false = None <->
  ~ has_keyword credit_types hint /\ ~ has_keyword debit_types hint.
Proof.
  rewrite classify_spec.
  rewrite <- (matches_any_spec _ hint credit_types_upper).
  rewrite <- (matches_any_spec _ hint debit_types_upper).
  destruct (matches_any credit_types hint), (matches_any debit_types hint);
    split; intros H; try discriminate;
    try (destruct H; congruence); split; discriminate.
Qed.

(** In the checks section the type is [DEBIT], whatever the hint. *)
Lemma classify_checks (hint : string) : classify hint true = Some DEBIT.
Proof.
  unfold classify. now destruct (scan_keywords credit_types CREDIT hint None).
Qed.

(** A returned transaction has the type decided from its hint. *)
Lemma parse_trntype (hint : string) (lines : list string) date pc t rest :
  parse (hint :: lines) date pc = Ok (Some t, rest) ->
  classify hint pc = Some (trntype t).
Proof.
  unfold parse. cbn [pop bind].
  destruct (classify hint pc) as [ty|].
  - destruct lines as [|line lines]; cbn [pop bind]; [discriminate|].
    destruct (accumulate _ line lines) as [[[d a] r]|]; cbn [bind]; [|discriminate].
    destruct (PyFloat.of_str _); cbn [bind]; [|discriminate].
    destruct (fitid _ _); cbn [bind]; [|discriminate].
    intros H; injection H as <- _. reflexivity.
  - destruct (negb _); [discriminate|].
    destruct lines as [|a [|b lines]]; cbn [pop bind]; discriminate.
Qed.

End Classification.

(** C8: outside the checks section the hint line is classified by looking
    for the keywords in it with the case of letters ignored, the credit
    keywords before the debit keywords: a hint with a credit keyword is
    [CREDIT] (also when it has a debit keyword too), a hint with a debit
    keyword and no credit keyword is [DEBIT], a hint with neither has no
    type, and a transaction that is returned carries that type. *)
Theorem C8_credit_keywords_first (hint : string) :
  (has_keyword StatementTransactionBuilder.credit_types hint ->
   StatementTransactionBuilder.classify hint false = Some CREDIT) /\
  (~ has_keyword StatementTransactionBuilder.credit_types hint ->
   has_keyword StatementTransactionBuilder.debit_types hint ->
   StatementTransactionBuilder.classify hint false = Some DEBIT) /\
  (~ has_keyword StatementTransactionBuilder.credit_types hint ->
   ~ has_keyword StatementTransactionBuilder.debit_types hint ->
   StatementTransactionBuilder.classify hint false = None) /\
  (forall lines txn_date t rest,
      StatementTransactionBuilder.parse (hint :: lines) txn_date false
        = Ok (Some t, rest) ->
      StatementTransactionBuilder.classify hint false = Some (trntype t)).
Proof.
  rewrite classify_spec.
  rewrite <- (matches_any_spec _ hint credit_types_upper).
  rewrite <- (matches_any_spec _ hint debit_types_upper).
  repeat split.
  - now intros ->.
  - intros Hc ->. now destruct (matches_any _ hint).
  - intros Hc Hd.
    destruct (matches_any StatementTransactionBuilder.credit_types hint); [congruence|].
    destruct (matches_any StatementTransactionBuilder.debit_types hint); congruence.
  - intros lines txn_date t rest H. rewrite <- classify_spec.
    exact (parse_trntype _ _ _ _ _ _ H).
Qed.

(** A hint with the credit keyword REFUND and the debit keyword DEBIT,
    in mixed case, is a credit. *)
Lemma C8_credit_keywords_first_witness :
  has_keyword StatementTransactionBuilder.credit_types "Debit card Refund" /\
  has_keyword StatementTransactionBuilder.debit_types "Debit card Refund" /\
  StatementTransactionBuilder.classify "Debit card Refund" false = Some CREDIT.
Proof.
  assert (Hc : has_keyword StatementTransactionBuilder.credit_types "Debit card Refund").
  { exists "REFUND". split; [simpl; tauto|].
    exists "Debit card ", "Refund", "". split; reflexivity. }
  split; [exact Hc|]. split.
  - exists "DEBIT". split; [simpl; tauto|].
    exists "", "Debit", " card Refund". split; reflexivity.
  - exact (proj1 (C8_credit_keywords_first "Debit card Refund") Hc).
Defined.

(** ** The reassembler on a hint without keyword *)

(** C7: outside the checks section, a hint line with no credit keyword and
    no debit keyword that does not begin with [Check #] makes the
    reassembler raise the [ValueError] of line 217, whatever follows; and a
    run of [OfxBuilder.parse] in which the scanner reaches such an entry
    ends with an exception, so it returns no transaction and no document. *)
Theorem C7_unrecognised_hint_is_fatal (hint : string) :
  ~ has_keyword StatementTransactionBuilder.credit_types hint ->
  ~ has_keyword StatementTransactionBuilder.debit_types hint ->
  PyStr.startswith hint "Check #" = false ->
  (forall lines txn_date,
      StatementTransactionBuilder.parse (hint :: lines) txn_date false
      = Raise (ValueError ("Unable to determine transaction type for " ++ hint))) /\
  (forall self pre line g1 g2 rest self' l',
      OfxBuilder.scan self OfxBuilder.init_locals pre = Ok (self', l', []) ->
      OfxBuilder.done l' = false ->
      OfxBuilder.processing_checks l' = false ->
      OfxBuilder.date_search line = Some (g1, g2) ->
      raises (OfxBuilder.parse self (pre ++ line :: hint :: rest)%list)).
Proof.
  intros Hc Hd Hk.
  assert (Hcl : StatementTransactionBuilder.classify hint false = None)
    by (apply classify_none; now split).
  assert (Hp : forall lines txn_date,
      StatementTransactionBuilder.parse (hint :: lines) txn_date false
      = Raise (ValueError ("Unable to determine transaction type for " ++ hint))).
  { intros lines txn_date. unfold StatementTransactionBuilder.parse.
    cbn [pop bind]. rewrite Hcl, Hk. reflexivity. }
  split; [exact Hp|].
  intros self pre line g1 g2 rest self' l' Hpre Hdone Hchecks Hdate.
  unfold OfxBuilder.parse.
  rewrite (scan_app _ _ _ _ _ _ Hpre Hdone).
  rewrite scan_cons by exact Hdone.
  rewrite (iteration_date_line _ _ _ _ _ _ Hdate Hdone).
  unfold OfxBuilder.transaction_line. rewrite Hdate.
  destruct (OfxBuilder.statement_start_date self') as [start|]; cbn [bind];
    [|eexists; reflexivity].
  destruct ((Datetime.month start =? 12) && (PyStr.int_of_digits g1 =? 1)
            && OfxBuilder.rollover_year l')%Z; cbn [bind];
    (destruct (OfxBuilder.year self') as [y|];
     cbn [bind OfxBuilder.year OfxBuilder.set_year]; [|eexists; reflexivity]);
    (destruct (Datetime.make _ _ _) as [d|]; cbn [bind]; [|eexists; reflexivity]);
    cbn [OfxBuilder.processing_checks OfxBuilder.clear_rollover_year];
    rewrite Hchecks, Hp; cbn [bind]; eexists; reflexivity.
Qed.

(** The example of the spec, after the statement period: the run raises the
    classification error. *)
Lemma C7_unrecognised_hint_is_fatal_witness :
  StatementTransactionBuilder.parse ["MYSTERY ENTRY"; "10.00"]
    (Datetime.mk_datetime 2021 5 1) false
  = Raise (ValueError "Unable to determine transaction type for MYSTERY ENTRY") /\
  raises (OfxBuilder.parse OfxBuilder.init
            (["Statement Period:"; "Mar 01 2021-Mar 31 2021"]
             ++ ["05/01"; "MYSTERY ENTRY"; "10.00"])%list).
Proof.
  assert (Hn : StatementTransactionBuilder.classify "MYSTERY ENTRY" false = None)
    by reflexivity.
  apply classify_none in Hn. destruct Hn as [Hc Hd].
  destruct (C7_unrecognised_hint_is_fatal "MYSTERY ENTRY" Hc Hd eq_refl) as [H1 H2].
  split.
  - exact (H1 ["10.00"] (Datetime.mk_datetime 2021 5 1)).
  - exact (H2 OfxBuilder.init ["Statement Period:"; "Mar 01 2021-Mar 31 2021"]
             "05/01" "05" "01" ["10.00"] _ _ eq_refl eq_refl eq_refl eq_refl).
Defined.

(** C10: outside the checks section, a hint line with no keyword that
    begins with [Check #] makes the reassembler pop the next two lines,
    whatever they are, and return [None] with the lines after them; the
    turn of the scanner on such an entry leaves the balances, the period,
    the account number, the transactions and the section flags as they
    were. *)
Theorem C10_deferred_check_frame (hint a b : string) (rest : list string) :
  ~ has_keyword StatementTransactionBuilder.credit_types hint ->
  ~ has_keyword StatementTransactionBuilder.debit_types hint ->
  PyStr.startswith hint "Check #" = true ->
  (forall txn_date,
      StatementTransactionBuilder.parse (hint :: a :: b :: rest) txn_date false
      = Ok (None, rest)) /\
  (forall self l line g1 g2 self' l' rest',
      OfxBuilder.done l = false ->
      OfxBuilder.processing_checks l = false ->
      OfxBuilder.date_search line = Some (g1, g2) ->
      OfxBuilder.iteration self l line (hint :: a :: b :: rest) = Ok (self', l', rest') ->
      rest' = rest /\
      OfxBuilder.statement_transactions l' = OfxBuilder.statement_transactions l /\
      OfxBuilder.starting_statement_balance self'
        = OfxBuilder.starting_statement_balance self /\
      OfxBuilder.ending_statement_balance self'
        = OfxBuilder.ending_statement_balance self /\
      OfxBuilder.statement_start_date self' = OfxBuilder.statement_start_date self /\
      OfxBuilder.statement_end_date self' = OfxBuilder.statement_end_date self /\
      OfxBuilder.account_number self' = OfxBuilder.account_number self /\
      OfxBuilder.processing_checks l' = false /\
      OfxBuilder.done l' = false).
Proof.
  intros Hc Hd Hk.
  assert (Hcl : StatementTransactionBuilder.classify hint false = None)
    by (apply classify_none; now split).
  assert (Hp : forall txn_date,
      StatementTransactionBuilder.parse (hint :: a :: b :: rest) txn_date false
      = Ok (None, rest)).
  { intros txn_date. unfold StatementTransactionBuilder.parse.
    cbn [pop bind]. rewrite Hcl, Hk. reflexivity. }
  split; [exact Hp|].
  intros self l line g1 g2 self' l' rest' Hdone Hchecks Hdate H.
  rewrite (iteration_date_line _ _ _ _ _ _ Hdate Hdone) in H.
  apply transaction_line_ok in H.
  destruct H as [(Hn & _) | (h1 & h2 & start & y & d & r & _ & _ & _ & H)];
    [congruence|].
  cbn zeta in H. destruct H as (-> & _ & Hr & ->).
  rewrite Hchecks, Hp in Hr. injection Hr as <- <-.
  destruct ((Datetime.month start =? 12) && (PyStr.int_of_digits h1 =? 1)
            && OfxBuilder.rollover_year l)%Z; cbn; auto 10.
Qed.

(** The deferred entry of the spec's example, met after the statement
    period: the reassembler returns [None], the turn returns, and only the
    buffer has moved. *)
Lemma C10_deferred_check_frame_witness :
  StatementTransactionBuilder.parse
    ["Check # 103"; "some bank note"; "120.00"; "Checks Paid"]
    (Datetime.mk_datetime 2021 1 5) false
  = Ok (None, ["Checks Paid"]) /\
  OfxBuilder.iteration established OfxBuilder.init_locals "01/05"
    ["Check # 103"; "some bank note"; "120.00"; "Checks Paid"]
  = Ok (established, OfxBuilder.init_locals, ["Checks Paid"]) /\
  OfxBuilder.statement_transactions OfxBuilder.init_locals = [] /\
  OfxBuilder.starting_statement_balance established = None.
Proof.
  assert (Hn : StatementTransactionBuilder.classify "Check # 103" false = None)
    by reflexivity.
  apply classify_none in Hn. destruct Hn as [Hc Hd].
  destruct (C10_deferred_check_frame "Check # 103" "some bank note" "120.00"
              ["Checks Paid"] Hc Hd eq_refl) as [H1 H2].
  split; [exact (H1 (Datetime.mk_datetime 2021 1 5))|].
  split; [reflexivity|].
  destruct (H2 established OfxBuilder.init_locals "01/05" "01" "05"
              established OfxBuilder.init_locals ["Checks Paid"]
              eq_refl eq_refl eq_refl eq_refl) as (_ & Ht & Hs & _).
  split; [exact Ht | exact Hs].
Defined.

(** ** The amount pattern *)

Section AmountPattern.

Import Regex StatementTransactionBuilder.

Lemma lang_digit (s : string) :
  lang digit s <-> exists c, s = String c "" /\ PyStr.is_digit c = true.
Proof.
  split.
  - intros H. inversion H; subst. eauto.
  - intros (c & -> & Hc). now constructor.
Qed.

Lemma lang_star_digit (s : string) :
  lang (Star digit) s <-> PyStr.all_digits s = true.
Proof.
  split.
  - intros H. remember (Star digit) as r eqn:Er.
    induction H; try discriminate; injection Er as ->; [reflexivity|].
    apply lang_digit in H. destruct H as (c & -> & Hc).
    simpl. rewrite Hc. now apply IHlang2.
  - induction s as [|c s IH]; simpl; intros H.
    + constructor.
    + apply andb_true_iff in H. destruct H as [Hc Hs].
      change (String c s) with (String c "" ++ s).
      constructor; [now constructor | auto].
Qed.

Lemma lang_plus_digit (s : string) : lang (Plus digit) s <-> digits s.
Proof.
  unfold Plus, digits. split.
  - intros H. inversion H; subst.
    apply lang_digit in H2. destruct H2 as (c & -> & Hc).
    apply lang_star_digit in H4. simpl. rewrite Hc. split; [exact H4 | discriminate].
  - intros [Hd Hne]. destruct s as [|c s]; [congruence|].
    simpl in Hd. apply andb_true_iff in Hd. destruct Hd as [Hc Hs].
    change (String c s) with (String c "" ++ s).
    constructor; [now constructor | now apply lang_star_digit].
Qed.

(** The words of [amount_pattern]. *)
Lemma amount_pattern_shape (s : string) :
  lang amount_pattern s <-> amount_shape s.
Proof.
  unfold amount_pattern, amount_shape. split.
  - intros H.
    inversion H as [ | | ? ? a r1 Ha H1 | | | | ]; subst; clear H.
    inversion H1 as [ | | ? ? sep r2 Hsep H2 | | | | ]; subst; clear H1.
    inversion H2 as [ | | ? ? b r3 Hb H3 | | | | ]; subst; clear H2.
    inversion H3 as [ | | ? ? pt r4 Hpt H4 | | | | ]; subst; clear H3.
    inversion H4 as [ | | ? ? d1 d2 Hd1 Hd2 | | | | ]; subst; clear H4.
    apply lang_plus_digit in Ha, Hb.
    apply lang_digit in Hd1, Hd2.
    destruct Hd1 as (f1 & -> & Hf1), Hd2 as (f2 & -> & Hf2).
    inversion Hpt as [ | p c Hc | | | | | ]; subst.
    apply Ascii.eqb_eq in Hc. subst c.
    assert (Hs : sep = "" \/ sep = ",").
    { inversion Hsep as [ | | | ? ? ? Hcomma | ? ? ? Heps | | ]; subst.
      - inversion Hcomma as [ | p c Hc | | | | | ]; subst.
        apply Ascii.eqb_eq in Hc. subst c. now right.
      - inversion Heps. now left. }
    exists a, sep, b, f1, f2. tauto.
  - intros (a & sep & b & f1 & f2 & -> & Ha & Hsep & Hb & Hf1 & Hf2).
    constructor; [now apply lang_plus_digit|].
    constructor.
    { destruct Hsep as [-> | ->].
      - apply L_alt_r. constructor.
      - apply L_alt_l. constructor. apply Ascii.eqb_refl. }
    constructor; [now apply lang_plus_digit|].
    change (String "." (String f1 (String f2 "")))
      with (String "." "" ++ (String f1 "" ++ String f2 "")).
    constructor; [constructor; apply Ascii.eqb_refl|].
    constructor; now constructor.
Qed.

Lemma chomp_newline_spec (s t : string) :
  chomp_newline s = Some t <-> s = t ++ String "010" "".
Proof.
  revert t; induction s as [|c s IH]; intros t.
  - split; [discriminate | destruct t; discriminate].
  - cbn [chomp_newline]. destruct s as [|d s].
    + destruct (Ascii.eqb c "010") eqn:E.
      * apply Ascii.eqb_eq in E. subst c. split.
        -- intros H; injection H as <-. reflexivity.
        -- destruct t as [|e [|? ?]]; simpl; intros H; try discriminate; reflexivity.
      * split; [discriminate|].
        destruct t as [|e [|? ?]]; simpl; intros H; try discriminate.
        injection H as ->. now rewrite Ascii.eqb_refl in E.
    + case_eq (chomp_newline (String d s)); [intros u E | intros E].
      * apply IH in E. split.
        -- intros H; injection H as <-. simpl. now rewrite E.
        -- destruct t as [|e t]; simpl; intros H; [discriminate|].
           injection H as <- H. rewrite E in H.
           f_equal. f_equal. revert H. clear. revert t.
           induction u as [|x u IHu]; intros [|y t]; simpl; intros H;
             try reflexivity; try discriminate.
           ++ destruct t; discriminate.
           ++ destruct u; discriminate.
           ++ injection H as -> H. f_equal. auto.
      * split; [discriminate|].
        destruct t as [|e t]; simpl; intros H; [discriminate|].
        injection H as <- H. apply IH in H. congruence.
Qed.

(** The test of line 233, spelled out: the line is an amount word, or an
    amount word followed by one newline. *)
Lemma is_amount_spec (line : string) :
  is_amount line = true <->
  amount_shape line \/ exists t, line = t ++ String "010" "" /\ amount_shape t.
Proof.
  unfold is_amount, match_anchored.
  rewrite orb_true_iff, fullmatch_lang, amount_pattern_shape.
  split; (intros [H | H]; [now left | right]).
  - destruct (chomp_newline line) as [t|] eqn:E; [|discriminate].
    apply chomp_newline_spec in E. apply fullmatch_lang, amount_pattern_shape in H.
    now exists t.
  - destruct H as (t & Ht & H). apply chomp_newline_spec in Ht. rewrite Ht.
    now apply fullmatch_lang, amount_pattern_shape.
Qed.

End AmountPattern.

(** ** The description loop *)

Section DescriptionLoop.

Lemma amount_shape_length (s : string) :
  amount_shape s -> (5 <= String.length s)%nat.
Proof.
  intros (a & sep & b & f1 & f2 & -> & [_ Ha] & _ & [_ Hb] & _).
  rewrite !length_app_str. simpl.
  destruct a; [congruence|]. destruct b; [congruence|]. simpl. lia.
Qed.

(** A line of fewer than five characters is no amount: the pattern asks
    for two digits at least before the point. *)
Lemma short_line_not_amount (line : string) :
  (String.length line < 5)%nat -> StatementTransactionBuilder.is_amount line = false.
Proof.
  intros Hl. destruct (StatementTransactionBuilder.is_amount line) eqn:E; [|reflexivity].
  apply is_amount_spec in E. destruct E as [H | (t & -> & H)];
    apply amount_shape_length in H.
  - lia.
  - rewrite length_app_str in Hl. lia.
Qed.

(** The loop stops on a line exactly when [is_amount] accepts it. *)
Lemma accumulate_stops (description line : string) (lines : list string) :
  StatementTransactionBuilder.is_amount line = true ->
  StatementTransactionBuilder.accumulate description line lines = Ok (description, line, lines).
Proof. intros H. destruct lines; simpl; now rewrite H. Qed.

Lemma accumulate_appends (description line next : string) (rest : list string) :
  StatementTransactionBuilder.is_amount line = false ->
  StatementTransactionBuilder.accumulate description line (next :: rest)
  = StatementTransactionBuilder.accumulate (description ++ " " ++ line) next rest.
Proof. intros H. cbn [StatementTransactionBuilder.accumulate]. now rewrite H. Qed.

(** An amount with one digit before the point, such as [5.00], does not
    end the description: it is appended, and the loop reads on. *)
Lemma single_digit_amount_not_recognised (d f1 f2 : ascii)
  (description next : string) (rest : list string) :
  let line := String d (String "." (String f1 (String f2 ""))) in
  StatementTransactionBuilder.is_amount line = false /\
  StatementTransactionBuilder.accumulate description line (next :: rest)
  = StatementTransactionBuilder.accumulate (description ++ " " ++ line) next rest.
Proof.
  cbn zeta.
  assert (H : StatementTransactionBuilder.is_amount (String d (String "." (String f1 (String f2 "")))) = false)
    by (apply short_line_not_amount; simpl; lia).
  split; [exact H | now apply accumulate_appends].
Qed.

(** What a returned transaction is made of. *)
Lemma parse_ok_inv (lines : list string) txn_date pc t rest :
  StatementTransactionBuilder.parse lines txn_date pc = Ok (Some t, rest) ->
  exists hint line tail description amount_line amount,
    lines = hint :: line :: tail /\
    StatementTransactionBuilder.classify hint pc = Some (trntype t) /\
    StatementTransactionBuilder.accumulate (if pc then "Check # " ++ hint else "") line tail
      = Ok (description, amount_line, rest) /\
    PyFloat.of_str (PyStr.replace_comma amount_line) = Ok amount /\
    trnamt t = match trntype t with
               | DEBIT => PyFloat.neg amount
               | CREDIT => amount
               end /\
    name t = PyStr.take 32
               (if negb (PyStr.truthy description) then hint else description) /\
    dtposted t = txn_date /\
    StatementTransactionBuilder.fitid txn_date (trnamt t) = Ok (fitid t) /\
    memo t = "".
Proof.
  unfold StatementTransactionBuilder.parse.
  destruct lines as [|hint lines]; cbn [pop bind]; [discriminate|].
  destruct (StatementTransactionBuilder.classify hint pc) as [ty|] eqn:Ec.
  - destruct lines as [|line tail]; cbn [pop bind]; [discriminate|].
    destruct (StatementTransactionBuilder.accumulate _ line tail)
      as [[[d a] r]|] eqn:Ea; cbn [bind]; [|discriminate].
    destruct (PyFloat.of_str _) as [amount|] eqn:Ef; cbn [bind]; [|discriminate].
    destruct (StatementTransactionBuilder.fitid _ _) as [id|] eqn:Ei;
      cbn [bind]; [|discriminate].
    intros H; injection H as <- <-.
    exists hint, line, tail, d, a, amount. cbn.
    repeat split; try assumption; reflexivity.
  - destruct (negb _); [discriminate|].
    destruct lines as [|a [|b lines]]; cbn [pop bind]; discriminate.
Qed.

End DescriptionLoop.

(** C4, at the failing input: the line [5.00] is not taken as the amount of
    the FEE entry.  It goes into the description with the two lines after
    it, and the entry ends on the amount of the next one. *)
Theorem C4_single_digit_amount_is_appended :
  StatementTransactionBuilder.is_amount "5.00" = false /\
  StatementTransactionBuilder.accumulate "" "5.00" ["03/15"; "DEPOSIT"; "12.00"]
  = Ok (" 5.00 03/15 DEPOSIT", "12.00", []) /\
  StatementTransactionBuilder.parse small_fee_lines (Datetime.mk_datetime 2021 3 14) false
  = Ok (Some (mk_STMTTRN DEBIT (Datetime.mk_datetime 2021 3 14)
                (PyFloat.neg (PyFloat.round false 1200 100))
                "202103140000012001" " 5.00 03/15 DEPOSIT" ""), []).
Proof. repeat split; vm_compute; reflexivity. Qed.

(** ** The sign of the amount *)

Section Sign.

Lemma round_sign (s : bool) (n d : Z) :
  (exists m e, PyFloat.round s n d = PyFloat.Finite s m e)
  \/ PyFloat.round s n d = PyFloat.Inf s.
Proof.
  unfold PyFloat.round.
  destruct (n =? 0)%Z; [left; eauto|].
  destruct (PyFloat.rne _ _ =? 2 ^ 53)%Z;
    match goal with |- context [(971 <? ?e)%Z] => destruct (971 <? e)%Z end;
    eauto.
Qed.

(** [float] of an unsigned literal is not negative. *)
Lemma of_str_sign (s : string) (x : PyFloat.float) :
  PyFloat.of_str s = Ok x ->
  (exists m e, x = PyFloat.Finite false m e) \/ x = PyFloat.Inf false.
Proof.
  unfold PyFloat.of_str.
  destruct (PyStr.split _ _) as [|ip [|fp [|? ?]]]; try discriminate.
  - destruct (_ && _); [|discriminate]. intros H; injection H as <-. apply round_sign.
  - destruct (_ && _); [|discriminate]. intros H; injection H as <-. apply round_sign.
Qed.

End Sign.

(** C2, amended: the type of a returned transaction fixes the sign of its
    amount, a debit is never above zero and a credit never below; and when
    the amount is not zero, the type is DEBIT exactly when the amount is
    [<= 0] and CREDIT exactly when it is [> 0]. *)
Theorem C2_sign_follows_type (lines : list string) txn_date pc t rest :
  StatementTransactionBuilder.parse lines txn_date pc = Ok (Some t, rest) ->
  (trntype t = DEBIT -> PyFloat.le0 (trnamt t) = true) /\
  (trntype t = CREDIT -> PyFloat.ge0 (trnamt t) = true) /\
  (PyFloat.is_zero (trnamt t) = false ->
   (trntype t = DEBIT <-> PyFloat.le0 (trnamt t) = true) /\
   (trntype t = CREDIT <-> PyFloat.gt0 (trnamt t) = true)).
Proof.
  intros H. apply parse_ok_inv in H.
  destruct H as (hint & line & tail & d & al & x & _ & _ & _ & Hx & Ht & _).
  apply of_str_sign in Hx. rewrite Ht.
  destruct Hx as [(m & e & ->) | ->]; destruct (trntype t);
    unfold PyFloat.is_zero, PyFloat.le0, PyFloat.ge0, PyFloat.lt0;
    cbn [PyFloat.neg PyFloat.gt0 negb andb];
    try (destruct (0 <? m)%Z); cbn [negb andb];
    repeat split; intros; try reflexivity; try discriminate; try congruence.
Qed.

(** The entry of the multi-line example is a debit below zero. *)
Lemma C2_sign_follows_type_witness :
  PyFloat.le0 (trnamt (multi_line_transaction (Datetime.mk_datetime 2021 3 14))) = true /\
  PyFloat.gt0 (trnamt (multi_line_transaction (Datetime.mk_datetime 2021 3 14))) = false.
Proof.
  assert (H : StatementTransactionBuilder.parse (tl multi_line_entry)
                (Datetime.mk_datetime 2021 3 14) false
              = Ok (Some (multi_line_transaction (Datetime.mk_datetime 2021 3 14)), []))
    by (vm_compute; reflexivity).
  destruct (C2_sign_follows_type _ _ _ _ _ H) as (Hd & _ & _).
  split; [exact (Hd eq_refl) | reflexivity].
Defined.

(** C2 as stated fails on a credit of zero: the hint DEPOSIT makes the
    entry a CREDIT, and its amount [00.00] is not above zero. *)
Lemma C2_counterexample :
  exists t,
    StatementTransactionBuilder.parse zero_deposit_lines
      (Datetime.mk_datetime 2021 3 14) false = Ok (Some t, []) /\
    trntype t = CREDIT /\
    PyFloat.gt0 (trnamt t) = false /\
    PyFloat.le0 (trnamt t) = true.
Proof.
  eexists. split; [vm_compute; reflexivity|]. repeat split.
Qed.

(** ** The balance headers *)

Section Balances.

Import OfxBuilder.

(** The turn on a [Statement Balance as of] header. *)
Lemma iteration_statement_balance self l (line next : string) (lines : list string) :
  PyStr.startswith line "Statement Balance as of" = true ->
  iteration self l line (next :: lines) =
  if truthy (starting_statement_balance self)
  then Ok (set_ending self (PyStr.replace_comma next), l, lines)
  else Ok (set_starting self (PyStr.replace_comma next), l, lines).
Proof.
  intros Hh. unfold iteration. rewrite Hh.
  rewrite !(startswith_other line "Statement Balance as of")
    by (exact Hh || reflexivity).
  reflexivity.
Qed.

End Balances.




(** ** The examples of the spec *)

Section Examples.

Import OfxBuilder.



End Examples.




Section DeferredCheck.

Import OfxBuilder.

Lemma parse_deferred_check (hint a b : string) (rest : list string) txn_date :
  StatementTransactionBuilder.classify hint false = None ->
  PyStr.startswith hint "Check #" = true ->
  StatementTransactionBuilder.parse (hint :: a :: b :: rest) txn_date false
  = Ok (None, rest).
Proof.
  intros Hc Hk. unfold StatementTransactionBuilder.parse.
  cbn [pop bind]. now rewrite Hc, Hk.
Qed.

End DeferredCheck.



(** ** Balances are touched by the balance headers only *)

Section BalanceFrame.

Import OfxBuilder.

Lemma iteration_keeps_balances self l (line : string) (lines : list string)
  self' l' rest :
  balance_header line = false ->
  iteration self l line lines = Ok (self', l', rest) ->
  starting_statement_balance self' = starting_statement_balance self /\
  ending_statement_balance self' = ending_statement_balance self.
Proof.
  unfold balance_header. intros Hb.
  apply orb_false_iff in Hb. destruct Hb as [Hb He].
  apply orb_false_iff in Hb. destruct Hb as [Hs Hb].
  unfold iteration. rewrite Hs, Hb, He.
  destruct (PyStr.startswith line "Statement Period:").
  { destruct (StatementPeriodBuilder.parse lines) as [[[s e] r]|];
      cbn [bind]; [|discriminate].
    intros H; injection H as <- _ _. now split. }
  destruct (PyStr.startswith line "Primary Account #:").
  { destruct lines; cbn [pop bind]; [discriminate|].
    intros H; injection H as <- _ _. now split. }
  destruct (_ || _).
  { intros H; injection H as <- _ _. now split. }
  destruct (negb _).
  2:{ intros H; injection H as <- _ _. now split. }
  intros H. apply transaction_line_ok in H.
  destruct H as [(_ & -> & _) | (g1 & g2 & st & y & d & r & _ & _ & _ & H)];
    [now split|].
  cbn zeta in H. destruct H as (-> & _).
  destruct (_ && _); now split.
Qed.

Lemma loop_keeps_balances (fuel : nat) :
  forall self l (lines : list string) self' l' rest,
    Forall (fun line => balance_header line = false) lines ->
    loop fuel self l lines = Ok (self', l', rest) ->
    starting_statement_balance self' = starting_statement_balance self /\
    ending_statement_balance self' = ending_statement_balance self.
Proof.
  induction fuel as [|fuel IH]; intros self l lines self' l' rest Hall.
  - cbn [loop]. destruct lines; intros H; injection H as <- _ _; now split.
  - destruct lines as [|line lines]; cbn [loop].
    + intros H; injection H as <- _ _. now split.
    + destruct (done l).
      * intros H; injection H as <- _ _. now split.
      * destruct (iteration self l line lines) as [[[s1 l1] r1]|] eqn:E;
          cbn [bind]; [|discriminate].
        intros H. inversion Hall as [|? ? Hline Hrest]; subst.
        destruct (iteration_keeps_balances _ _ _ _ _ _ _ Hline E) as [<- <-].
        destruct (iteration_suffix _ _ _ _ _ _ _ E) as [used ->].
        apply Forall_app in Hrest. destruct Hrest as [_ Hrest].
        exact (IH _ _ _ _ _ _ Hrest H).
Qed.

Lemma scan_keeps_balances self l (lines : list string) self' l' rest :
  Forall (fun line => balance_header line = false) lines ->
  scan self l lines = Ok (self', l', rest) ->
  starting_statement_balance self' = starting_statement_balance self /\
  ending_statement_balance self' = ending_statement_balance self.
Proof. apply loop_keeps_balances. Qed.

End BalanceFrame.

(** C6, amended: take a run in which the scanner reaches two lines that
    start with [Statement Balance as of] as headers, with the starting
    balance still unset at the first one, no other line before, between or
    after them that starts with a balance header, and a first balance line
    that is not empty once its commas are removed.  Then, if the run ends
    without exception, the starting balance is the line after the first
    header and the ending balance the line after the second, both with the
    commas removed. *)
Theorem C6_statement_balance_twice
  self l (pre mid post : list string) (h1 b1 h2 b2 : string)
  self1 l1 self2 l2 final lf rest :
  OfxBuilder.truthy (OfxBuilder.starting_statement_balance self) = false ->
  Forall (fun line => balance_header line = false) pre ->
  Forall (fun line => balance_header line = false) mid ->
  Forall (fun line => balance_header line = false) post ->
  PyStr.startswith h1 "Statement Balance as of" = true ->
  PyStr.startswith h2 "Statement Balance as of" = true ->
  PyStr.truthy (PyStr.replace_comma b1) = true ->
  OfxBuilder.scan self l pre = Ok (self1, l1, []) ->
  OfxBuilder.done l1 = false ->
  OfxBuilder.scan (OfxBuilder.set_starting self1 (PyStr.replace_comma b1)) l1 mid
  = Ok (self2, l2, []) ->
  OfxBuilder.done l2 = false ->
  OfxBuilder.scan self l (pre ++ h1 :: b1 :: mid ++ h2 :: b2 :: post)%list
  = Ok (final, lf, rest) ->
  OfxBuilder.starting_statement_balance final = Some (PyStr.replace_comma b1) /\
  OfxBuilder.ending_statement_balance final = Some (PyStr.replace_comma b2).
Proof.
  intros Hs Hpre Hmid Hpost Hh1 Hh2 Hb1 Hscan1 Hd1 Hscan2 Hd2 Hrun.
  rewrite (scan_app _ _ _ _ _ _ Hscan1 Hd1) in Hrun.
  rewrite scan_cons in Hrun by exact Hd1.
  rewrite (iteration_statement_balance _ _ _ _ _ Hh1) in Hrun.
  destruct (scan_keeps_balances _ _ _ _ _ _ Hpre Hscan1) as [Hs1 _].
  rewrite Hs1, Hs in Hrun. cbn [bind] in Hrun.
  rewrite (scan_app _ _ _ _ _ _ Hscan2 Hd2) in Hrun.
  rewrite scan_cons in Hrun by exact Hd2.
  rewrite (iteration_statement_balance _ _ _ _ _ Hh2) in Hrun.
  destruct (scan_keeps_balances _ _ _ _ _ _ Hmid Hscan2) as [Hs2 _].
  cbn [OfxBuilder.starting_statement_balance OfxBuilder.set_starting] in Hs2.
  rewrite Hs2 in Hrun. cbn [OfxBuilder.truthy] in Hrun.
  rewrite Hb1 in Hrun. cbn [bind] in Hrun.
  destruct (scan_keeps_balances _ _ _ _ _ _ Hpost Hrun) as [Hs3 He3].
  rewrite Hs3, He3. cbn. now rewrite Hs2.
Qed.

(** Style A as in the spec's example, with the statement period before the
    first header and a transaction between the two. *)
Lemma C6_statement_balance_twice_witness :
  exists final lf,
    OfxBuilder.scan OfxBuilder.init OfxBuilder.init_locals
      (["Statement Period:"; "Mar 01 2021-Mar 31 2021"]
       ++ "Statement Balance as of" :: "1,234.56"
       :: ["03/14"; "DEBIT CARD PURCHASE"; "AMAZON.COM"; "SEATTLE WA"; "45.99"]
       ++ "Statement Balance as of" :: "2,345.67" :: ["DAILY BALANCE SUMMARY"])%list
    = Ok (final, lf, []) /\
    OfxBuilder.starting_statement_balance final = Some "1234.56" /\
    OfxBuilder.ending_statement_balance final = Some "2345.67".
Proof.
  assert (H1 : OfxBuilder.scan OfxBuilder.init OfxBuilder.init_locals
                 ["Statement Period:"; "Mar 01 2021-Mar 31 2021"]
               = Ok (established, OfxBuilder.init_locals, []))
    by (vm_compute; reflexivity).
  assert (H2 : OfxBuilder.scan
                 (OfxBuilder.set_starting established (PyStr.replace_comma "1,234.56"))
                 OfxBuilder.init_locals multi_line_entry
               = Ok (OfxBuilder.set_starting established "1234.56",
                     OfxBuilder.append_transaction OfxBuilder.init_locals
                       (multi_line_transaction (Datetime.mk_datetime 2021 3 14)),
                     []))
    by (vm_compute; reflexivity).
  eexists. eexists. split; [vm_compute; reflexivity|].
  eapply C6_statement_balance_twice with
    (self := OfxBuilder.init) (l := OfxBuilder.init_locals)
    (pre := ["Statement Period:"; "Mar 01 2021-Mar 31 2021"])
    (mid := multi_line_entry) (post := ["DAILY BALANCE SUMMARY"])
    (h1 := "Statement Balance as of") (h2 := "Statement Balance as of")
    (b1 := "1,234.56") (b2 := "2,345.67")
    (self1 := established) (l1 := OfxBuilder.init_locals)
    (self2 := OfxBuilder.set_starting established "1234.56")
    (l2 := OfxBuilder.append_transaction OfxBuilder.init_locals
             (multi_line_transaction (Datetime.mk_datetime 2021 3 14))).
  - reflexivity.
  - repeat constructor.
  - repeat constructor.
  - repeat constructor.
  - reflexivity.
  - reflexivity.
  - reflexivity.
  - exact H1.
  - reflexivity.
  - exact H2.
  - reflexivity.
  - vm_compute; reflexivity.
Defined.

(** C6 as stated fails when a [Beginning Balance] header comes first: the
    run has exactly two lines that start with [Statement Balance as of],
    and the starting balance is not the line after the first of them. *)
Lemma C6_counterexample :
  length (filter (fun line => PyStr.startswith line "Statement Balance as of")
            mixed_style_lines) = 2%nat /\
  exists final,
    OfxBuilder.scan OfxBuilder.init OfxBuilder.init_locals mixed_style_lines
    = Ok (final, OfxBuilder.init_locals, []) /\
    OfxBuilder.starting_statement_balance final = Some "500.00" /\
    OfxBuilder.starting_statement_balance final <> Some "1234.56" /\
    OfxBuilder.ending_statement_balance final = Some "2345.67".
Proof.
  split; [reflexivity|]. eexists. split; [vm_compute; reflexivity|].
  cbn. repeat split. discriminate.
Qed.

(** ** The running year *)

Section Rollover.

Import OfxBuilder.

Lemma make_fields (y m d : Z) (x : Datetime.datetime) :
  Datetime.make y m d = Ok x -> x = Datetime.mk_datetime y m d.
Proof.
  unfold Datetime.make.
  repeat match goal with |- context [if ?c then _ else _] => destruct c end;
    try discriminate.
  intros H; now injection H.
Qed.

Lemma transaction_parse_date (lines : list string) txn_date pc t rest :
  StatementTransactionBuilder.parse lines txn_date pc = Ok (Some t, rest) ->
  dtposted t = txn_date.
Proof.
  intros H. apply parse_ok_inv in H.
  destruct H as (? & ? & ? & ? & ? & ? & _ & _ & _ & _ & _ & _ & H & _). exact H.
Qed.

(** What a turn that is not on a period header does to the running year. *)
Lemma iteration_year self l (line : string) (lines : list string) self' l' rest
  start y :
  PyStr.startswith line "Statement Period:" = false ->
  statement_start_date self = Some start ->
  year self = Some y ->
  iteration self l line lines = Ok (self', l', rest) ->
  statement_start_date self' = Some start /\
  exists new,
    statement_transactions l' = (statement_transactions l ++ new)%list /\
    ((year self' = Some y /\ rollover_year l' = rollover_year l /\
      (rollover_year l = true -> Forall (year_ok start y false) new) /\
      Forall (fun t => Datetime.year (dtposted t) = y) new)
     \/
     (Datetime.month start = 12%Z /\ rollover_year l = true /\
      rollover_year l' = false /\ year self' = Some (y + 1)%Z /\
      Forall (year_ok start y true) new)).
Proof.
  intros Hp Hs Hy. unfold iteration. rewrite Hp.
  set (l0 := if PyStr.startswith line "Checks Paid" then set_processing_checks l true
             else if PyStr.startswith line "Electronic Payments"
                  then set_processing_checks l false else l).
  assert (Ht0 : statement_transactions l0 = statement_transactions l)
    by (unfold l0; repeat destruct (PyStr.startswith _ _); reflexivity).
  assert (Hr0 : rollover_year l0 = rollover_year l)
    by (unfold l0; repeat destruct (PyStr.startswith _ _); reflexivity).
  clearbody l0.
  assert (Hsame : forall s1 l1,
    statement_start_date s1 = Some start -> year s1 = Some y ->
    statement_transactions l1 = statement_transactions l ->
    rollover_year l1 = rollover_year l ->
    statement_start_date s1 = Some start /\
    exists new,
      statement_transactions l1 = (statement_transactions l ++ new)%list /\
      ((year s1 = Some y /\ rollover_year l1 = rollover_year l /\
        (rollover_year l = true -> Forall (year_ok start y false) new) /\
        Forall (fun t => Datetime.year (dtposted t) = y) new)
       \/
       (Datetime.month start = 12%Z /\ rollover_year l = true /\
        rollover_year l1 = false /\ year s1 = Some (y + 1)%Z /\
        Forall (year_ok start y true) new))).
  { intros s1 l1 H1 H2 H3 H4. split; [exact H1|]. exists [].
    rewrite app_nil_r. split; [exact H3|]. left. repeat split; auto. }
  destruct (PyStr.startswith line "Primary Account #:").
  { destruct lines; cbn [pop bind]; [discriminate|].
    intros H; injection H as <- <- _. now apply Hsame. }
  destruct (PyStr.startswith line "Statement Balance as of").
  { destruct lines; cbn [pop bind]; [discriminate|].
    destruct (truthy _); intros H; injection H as <- <- _; now apply Hsame. }
  destruct (PyStr.startswith line "Beginning Balance").
  { destruct lines; cbn [pop bind]; [discriminate|].
    intros H; injection H as <- <- _. now apply Hsame. }
  destruct (PyStr.startswith line "Ending Balance").
  { destruct lines; cbn [pop bind]; [discriminate|].
    intros H; injection H as <- <- _. now apply Hsame. }
  destruct (_ || _).
  { intros H; injection H as <- <- _. now apply Hsame. }
  destruct (negb _).
  2:{ intros H; injection H as <- <- _. now apply Hsame. }
  intros H. apply transaction_line_ok in H.
  destruct H as [(_ & -> & -> & _) | (g1 & g2 & st & y0 & d & r & _ & Hst & Hy0 & H)];
    [now apply Hsame|].
  rewrite Hs in Hst. injection Hst as <-. rewrite Hy in Hy0. injection Hy0 as <-.
  cbn zeta in H. rewrite Hr0 in H. destruct H as (-> & Hd & Hparse & ->).
  apply make_fields in Hd.
  destruct ((Datetime.month start =? 12) && (PyStr.int_of_digits g1 =? 1)
            && rollover_year l)%Z eqn:Eroll.
  - apply andb_true_iff in Eroll. destruct Eroll as [Eroll Er].
    apply andb_true_iff in Eroll. destruct Eroll as [Em _].
    apply Z.eqb_eq in Em.
    split; [exact Hs|].
    destruct r as [t|].
    + exists [t]. split; [cbn; now rewrite Ht0|]. right.
      apply transaction_parse_date in Hparse.
      repeat split; auto. constructor; [|constructor].
      unfold year_ok. rewrite Hparse, Hd. reflexivity.
    + exists []. rewrite app_nil_r. split; [cbn; exact Ht0|]. right.
      repeat split; auto.
  - split; [exact Hs|].
    destruct r as [t|].
    + exists [t]. split; [cbn; now rewrite Ht0|]. left.
      apply transaction_parse_date in Hparse.
      repeat split; auto.
      * intros Hr. constructor; [|constructor].
        unfold year_ok. rewrite Hparse, Hd. cbn. split; [reflexivity|].
        intros Hm H1. rewrite Hm, H1, Hr in Eroll. discriminate.
      * constructor; [|constructor]. rewrite Hparse, Hd. reflexivity.
    + exists []. rewrite app_nil_r. split; [exact Ht0|]. left. repeat split; auto.
Qed.


Lemma loop_years (start : Datetime.datetime) (y : Z) (base : list STMTTRN)
  (fuel : nat) :
  forall self l (lines : list string) self' l' rest,
    Forall (fun line => PyStr.startswith line "Statement Period:" = false) lines ->
    run_years start y base self l ->
    loop fuel self l lines = Ok (self', l', rest) ->
    run_years start y base self' l'.
Proof.
  induction fuel as [|fuel IH]; intros self l lines self' l' rest Hall Hinv.
  - cbn [loop]. destruct lines; intros H; injection H as <- <- _; exact Hinv.
  - destruct lines as [|line lines]; cbn [loop].
    + intros H; injection H as <- <- _; exact Hinv.
    + destruct (done l).
      * intros H; injection H as <- <- _; exact Hinv.
      * destruct (iteration self l line lines) as [[[s1 l1] r1]|] eqn:E;
          cbn [bind]; [|discriminate].
        intros H. inversion Hall as [|? ? Hline Hrest]; subst.
        destruct (iteration_suffix _ _ _ _ _ _ _ E) as [used ->].
        apply Forall_app in Hrest. destruct Hrest as [_ Hrest].
        refine (IH _ _ _ _ _ _ Hrest _ H). clear IH H Hrest Hall.
        destruct Hinv as (Hs & new & Ht & [(Hr & Hy & Hn) | (Hm & Hr & Hy & Hn)]).
        -- destruct (iteration_year _ _ _ _ _ _ _ _ _ Hline Hs Hy E)
             as (Hs1 & more & Ht1 & [(Hy1 & Hr1 & Hok & Hyy) | (Hm & Hr0 & Hr1 & Hy1 & Hok)]).
           ++ split; [exact Hs1|]. exists (new ++ more)%list.
              split; [rewrite Ht1, Ht; symmetry; apply app_assoc|].
              left. repeat split.
              ** intros Hm. rewrite Hr1. auto.
              ** exact Hy1.
              ** apply Forall_app. split; [exact Hn|].
                 destruct (Z.eq_dec (Datetime.month start) 12) as [Hm | Hm].
                 --- auto.
                 --- apply Forall_impl with (2 := Hyy). intros t Hty.
                     split; [exact Hty | intros; contradiction].
           ++ split; [exact Hs1|]. exists (new ++ more)%list.
              split; [rewrite Ht1, Ht; symmetry; apply app_assoc|].
              right. repeat split; auto.
              apply Forall_app. split.
              ** apply Forall_impl with (2 := Hn). intros t Hty. now left.
              ** apply Forall_impl with (2 := Hok). intros t Hty. now right.
        -- destruct (iteration_year _ _ _ _ _ _ _ _ _ Hline Hs Hy E)
             as (Hs1 & more & Ht1 & [(Hy1 & Hr1 & _ & Hyy) | (_ & Hr0 & _)]);
             [|congruence].
           split; [exact Hs1|]. exists (new ++ more)%list.
           split; [rewrite Ht1, Ht; symmetry; apply app_assoc|].
           right. repeat split; auto; [congruence|].
           apply Forall_app. split; [exact Hn|].
           apply Forall_impl with (2 := Hyy). intros t Hty. now right.
Qed.

(** A run under one statement period: the lines hold no further period
    header.  The year of a statement that does not start in December is
    never touched; the year of a December statement goes up once at most,
    and every January entry is dated in the next year. *)
Theorem one_period_run_years self l (lines : list string) self' l' rest start y :
  Forall (fun line => PyStr.startswith line "Statement Period:" = false) lines ->
  statement_start_date self = Some start ->
  year self = Some y ->
  (Datetime.month start = 12%Z -> rollover_year l = true) ->
  scan self l lines = Ok (self', l', rest) ->
  exists new,
    statement_transactions l' = (statement_transactions l ++ new)%list /\
    (Datetime.month start <> 12%Z ->
     year self' = Some y /\
     Forall (fun t => Datetime.year (dtposted t) = y) new) /\
    (Datetime.month start = 12%Z ->
     (year self' = Some y \/ year self' = Some (y + 1)%Z) /\
     Forall (fun t =>
               (Datetime.month (dtposted t) = 1%Z ->
                Datetime.year (dtposted t) = (y + 1)%Z) /\
               (Datetime.year (dtposted t) = y \/
                Datetime.year (dtposted t) = (y + 1)%Z)) new).
Proof.
  intros Hall Hs Hy Hr Hscan.
  assert (Hinv : run_years start y (statement_transactions l) self l).
  { split; [exact Hs|]. exists []. rewrite app_nil_r. split; [reflexivity|].
    left. repeat split; auto. }
  destruct (loop_years _ _ _ _ _ _ _ _ _ _ Hall Hinv Hscan)
    as (_ & new & Ht & [(_ & Hy1 & Hn) | (Hm & _ & Hy1 & Hn)]);
    exists new; (split; [exact Ht|]); split.
  - intros _. split; [exact Hy1|].
    apply Forall_impl with (2 := Hn). now intros t [Hty _].
  - intros Hm. split; [now left|].
    apply Forall_impl with (2 := Hn). intros t [Hty Hmt]. split; [|now left].
    intros H1. now destruct (Hmt Hm).
  - intros Hne. contradiction.
  - intros _. split; [now right|].
    apply Forall_impl with (2 := Hn). unfold year_ok.
    intros t [[Hty Hmt] | Hty]; split; auto.
    intros H1. now destruct (Hmt Hm).
Qed.

End Rollover.

(** C3, at the failing input: the statement starts in December and its
    period header comes a second time after the first January entry.  The
    header sets the running year back to 2020 while the roll-over is used
    up, so the entry of 01/03 is dated 2020, not 2021. *)
Theorem C3_repeated_period_header_loses_rollover :
  exists self l t1 t2,
    OfxBuilder.scan OfxBuilder.init OfxBuilder.init_locals repeated_period_lines
    = Ok (self, l, []) /\
    OfxBuilder.statement_start_date self = Some (Datetime.mk_datetime 2020 12 15) /\
    OfxBuilder.statement_transactions l = [t1; t2] /\
    dtposted t1 = Datetime.mk_datetime 2021 1 2 /\
    dtposted t2 = Datetime.mk_datetime 2020 1 3 /\
    OfxBuilder.year self = Some 2020%Z /\
    OfxBuilder.rollover_year l = false.
Proof.
  do 4 eexists. split; [vm_compute; reflexivity|]. cbn. repeat split.
Qed.

(** * Further properties of the parser *)

(** ** The description loop, in full *)

Section DescriptionLoopSpec.

Import StatementTransactionBuilder.

Lemma str_app_assoc (a b c : string) : (a ++ b) ++ c = a ++ (b ++ c).
Proof. induction a; simpl; congruence. Qed.

Lemma str_app_nil_r (a : string) : a ++ "" = a.
Proof. induction a; simpl; congruence. Qed.

(** The loop returns exactly when some line from the current one on is
    an amount: the lines before the first such line are the description
    lines, appended after a space each, that line is the amount line, and
    the lines after it are left in the buffer. *)
Lemma accumulate_spec (lines : list string) :
  forall description line d a rest,
    accumulate description line lines = Ok (d, a, rest) <->
    exists ds,
      line :: lines = (ds ++ a :: rest)%list /\
      Forall (fun x => is_amount x = false) ds /\
      is_amount a = true /\
      d = description ++ join_description ds.
Proof.
  induction lines as [|next lines IH]; intros description line d a rest.
  - cbn [accumulate]. destruct (is_amount line) eqn:E; split.
    + intros H; injection H as <- <- <-. exists []. cbn.
      now rewrite str_app_nil_r.
    + intros (ds & Hl & Hds & Ha & ->).
      destruct ds as [|x ds]; cbn in Hl.
      * injection Hl as <- <-. cbn. now rewrite str_app_nil_r.
      * injection Hl as <- Hl. inversion Hds; congruence.
    + discriminate.
    + intros (ds & Hl & Hds & Ha & ->).
      destruct ds as [|x ds]; cbn in Hl.
      * injection Hl as <- <-. congruence.
      * injection Hl as <- Hl. destruct ds; discriminate.
  - cbn [accumulate]. destruct (is_amount line) eqn:E; split.
    + intros H; injection H as <- <- <-. exists []. cbn.
      now rewrite str_app_nil_r.
    + intros (ds & Hl & Hds & Ha & ->).
      destruct ds as [|x ds]; cbn in Hl.
      * injection Hl as <- <-. cbn. now rewrite str_app_nil_r.
      * injection Hl as <- Hl. inversion Hds; congruence.
    + intros H. apply IH in H. destruct H as (ds & Hl & Hds & Ha & ->).
      exists (line :: ds). cbn. rewrite Hl. repeat split; auto.
      now rewrite str_app_assoc.
    + intros (ds & Hl & Hds & Ha & ->).
      destruct ds as [|x ds]; cbn in Hl.
      * injection Hl as <- _. congruence.
      * injection Hl as <- Hl. inversion Hds; subst.
        apply IH. exists ds. repeat split; auto.
        cbn. now rewrite str_app_assoc.
Qed.

Lemma accumulate_raises_index (lines : list string) :
  forall description line e,
    accumulate description line lines = Raise e -> e = IndexError.
Proof.
  induction lines as [|next lines IH]; intros description line e;
    cbn [accumulate]; destruct (is_amount line).
  - discriminate.
  - intros H; now injection H.
  - discriminate.
  - apply IH.
Qed.

(** The loop fails exactly when no line from the current one on is an
    amount; the failure is the [IndexError] of [pop] on the emptied buffer,
    and the loop raises nothing else. *)
Theorem accumulate_exhausted (lines : list string) :
  forall description line,
    (accumulate description line lines = Raise IndexError <->
     Forall (fun x => is_amount x = false) (line :: lines)) /\
    (forall e, accumulate description line lines = Raise e -> e = IndexError).
Proof.
  intros description line. split; [|apply accumulate_raises_index].
  revert description line.
  induction lines as [|next lines IH]; intros description line;
    cbn [accumulate]; destruct (is_amount line) eqn:E; split.
  - discriminate.
  - intros H. inversion H; congruence.
  - intros _. repeat constructor. exact E.
  - reflexivity.
  - discriminate.
  - intros H. inversion H; congruence.
  - intros H. apply IH in H. now constructor.
  - intros H. inversion H; subst. now apply IH.
Qed.

End DescriptionLoopSpec.

(** ** The amount line always converts *)

Section AmountConversion.

Import StatementTransactionBuilder.

Lemma digit_not_comma (c : ascii) :
  PyStr.is_digit c = true -> Ascii.eqb c "," = false.
Proof.
  intros H. destruct (Ascii.eqb c ",") eqn:E; [|reflexivity].
  apply Ascii.eqb_eq in E. subst c. discriminate.
Qed.

Lemma digit_not_point (c : ascii) :
  PyStr.is_digit c = true -> Ascii.eqb c "." = false.
Proof.
  intros H. destruct (Ascii.eqb c ".") eqn:E; [|reflexivity].
  apply Ascii.eqb_eq in E. subst c. discriminate.
Qed.

Lemma digit_not_space (c : ascii) :
  PyStr.is_digit c = true -> PyStr.is_space c = false.
Proof.
  unfold PyStr.is_digit, PyStr.is_space. intros H.
  apply andb_true_iff in H. destruct H as [H1 H2].
  apply Nat.leb_le in H1, H2.
  destruct (9 <=? nat_of_ascii c)%nat eqn:E1, (nat_of_ascii c <=? 13)%nat eqn:E2,
    (28 <=? nat_of_ascii c)%nat eqn:E3, (nat_of_ascii c <=? 32)%nat eqn:E4;
    try reflexivity;
    repeat match goal with
      | H : (_ <=? _)%nat = true |- _ => apply Nat.leb_le in H
      end; lia.
Qed.

Lemma replace_comma_app (a b : string) :
  PyStr.replace_comma (a ++ b) = PyStr.replace_comma a ++ PyStr.replace_comma b.
Proof.
  induction a as [|c a IH]; simpl; [reflexivity|].
  destruct (Ascii.eqb c ","); simpl; congruence.
Qed.

Lemma replace_comma_digits (a : string) :
  PyStr.all_digits a = true -> PyStr.replace_comma a = a.
Proof.
  induction a as [|c a IH]; simpl; [reflexivity|].
  intros H. apply andb_true_iff in H. destruct H as [Hc Ha].
  rewrite (digit_not_comma _ Hc). now rewrite IH.
Qed.

Lemma all_digits_app (a b : string) :
  PyStr.all_digits (a ++ b) = PyStr.all_digits a && PyStr.all_digits b.
Proof.
  induction a as [|c a IH]; simpl; [reflexivity|].
  rewrite IH. now rewrite andb_assoc.
Qed.

Lemma rstrip_snoc (s : string) (c : ascii) :
  PyFloat.rstrip (s ++ String c "") =
  if PyStr.is_space c then PyFloat.rstrip s else s ++ String c "".
Proof.
  induction s as [|d s IH]; cbn [PyFloat.rstrip append].
  - now destruct (PyStr.is_space c).
  - rewrite IH. destruct (PyStr.is_space c) eqn:E; [reflexivity|].
    destruct (s ++ String c "") eqn:Es; [destruct s; discriminate | reflexivity].
Qed.

Lemma lstrip_digit (c : ascii) (s : string) :
  PyStr.is_digit c = true -> PyFloat.lstrip (String c s) = String c s.
Proof. intros H. cbn. now rewrite (digit_not_space _ H). Qed.

Lemma split_point_digits (a : string) :
  PyStr.all_digits a = true -> PyStr.split "." a = [a].
Proof.
  induction a as [|c a IH]; simpl; [reflexivity|].
  intros H. apply andb_true_iff in H. destruct H as [Hc Ha].
  rewrite (digit_not_point _ Hc). now rewrite IH.
Qed.

Lemma split_point_app (a r : string) :
  PyStr.all_digits a = true ->
  PyStr.split "." (a ++ String "." r) = a :: PyStr.split "." r.
Proof.
  induction a as [|c a IH]; simpl; [reflexivity|].
  intros H. apply andb_true_iff in H. destruct H as [Hc Ha].
  rewrite (digit_not_point _ Hc). now rewrite IH.
Qed.

(** [float] on a decimal literal with two fraction digits. *)
Lemma of_str_decimal (ip : string) (f1 f2 : ascii) :
  PyStr.all_digits ip = true -> ip <> "" ->
  PyStr.is_digit f1 = true -> PyStr.is_digit f2 = true ->
  let literal := ip ++ String "." (String f1 (String f2 "")) in
  let value :=
    PyFloat.round false (PyStr.int_of_digits (ip ++ String f1 (String f2 ""))) 100 in
  PyFloat.of_str literal = Ok value /\
  PyFloat.of_str (literal ++ String "010" "") = Ok value.
Proof.
  intros Hip Hne H1 H2. cbn zeta.
  assert (Hr : PyFloat.rstrip (ip ++ String "." (String f1 (String f2 "")))
               = ip ++ String "." (String f1 (String f2 ""))).
  { change (ip ++ String "." (String f1 (String f2 "")))
      with (ip ++ (String "." (String f1 "") ++ String f2 "")).
    rewrite <- str_app_assoc, rstrip_snoc. now rewrite (digit_not_space _ H2). }
  assert (Hl : PyFloat.lstrip (ip ++ String "." (String f1 (String f2 "")))
               = ip ++ String "." (String f1 (String f2 ""))).
  { destruct ip as [|c ip]; [congruence|].
    simpl in Hip. apply andb_true_iff in Hip. destruct Hip as [Hc _].
    exact (lstrip_digit c _ Hc). }
  assert (Hv : PyFloat.of_str (ip ++ String "." (String f1 (String f2 "")))
               = Ok (PyFloat.round false
                       (PyStr.int_of_digits (ip ++ String f1 (String f2 ""))) 100)).
  { unfold PyFloat.of_str. rewrite Hr, Hl.
    rewrite (split_point_app _ _ Hip).
    rewrite split_point_digits by (simpl; now rewrite H1, H2).
    rewrite Hip. cbn [PyStr.all_digits andb]. rewrite H1, H2. cbn [andb].
    destruct ip; [congruence|]. reflexivity. }
  split; [exact Hv|].
  unfold PyFloat.of_str. rewrite rstrip_snoc. cbn [PyStr.is_space].
  replace (PyStr.is_space "010") with true by reflexivity.
  unfold PyFloat.of_str in Hv. exact Hv.
Qed.

(** The line the description loop stops on always converts: commas
    removed, it is a decimal literal with two digits at least before the
    point and two after it (and at most a newline behind), and [float]
    reads it as the double nearest to its hundredths over 100. *)
Lemma amount_line_converts (line : string) :
  is_amount line = true ->
  exists ip f1 f2,
    PyStr.all_digits ip = true /\ (2 <= String.length ip)%nat /\
    PyStr.is_digit f1 = true /\ PyStr.is_digit f2 = true /\
    (PyStr.replace_comma line = ip ++ String "." (String f1 (String f2 "")) \/
     PyStr.replace_comma line
     = (ip ++ String "." (String f1 (String f2 ""))) ++ String "010" "") /\
    PyFloat.of_str (PyStr.replace_comma line)
    = Ok (PyFloat.round false
            (PyStr.int_of_digits (ip ++ String f1 (String f2 ""))) 100).
Proof.
  intros H. apply is_amount_spec in H.
  assert (Hshape : forall w, amount_shape w ->
    exists ip f1 f2,
      PyStr.all_digits ip = true /\ (2 <= String.length ip)%nat /\
      PyStr.is_digit f1 = true /\ PyStr.is_digit f2 = true /\
      PyStr.replace_comma w = ip ++ String "." (String f1 (String f2 ""))).
  { intros w (a & sep & b & f1 & f2 & -> & [Ha Hane] & Hsep & [Hb Hbne] & H1 & H2).
    exists (a ++ b), f1, f2. repeat split; auto.
    - rewrite all_digits_app, Ha, Hb. reflexivity.
    - rewrite length_app_str. destruct a; [congruence|]. destruct b; [congruence|].
      simpl. lia.
    - rewrite !replace_comma_app. rewrite (replace_comma_digits _ Ha).
      rewrite (replace_comma_digits _ Hb).
      cbn [PyStr.replace_comma].
      replace (Ascii.eqb "." ",") with false by reflexivity.
      rewrite (digit_not_comma _ H1), (digit_not_comma _ H2).
      destruct Hsep as [-> | ->]; cbn; now rewrite str_app_assoc. }
  destruct H as [H | (t & -> & H)];
    destruct (Hshape _ H) as (ip & f1 & f2 & Hip & Hlen & H1 & H2 & Hw);
    exists ip, f1, f2; repeat split; auto.
  - rewrite Hw.
    apply (of_str_decimal ip f1 f2); auto. destruct ip; simpl in Hlen; [lia | discriminate].
  - right. rewrite replace_comma_app, Hw. reflexivity.
  - rewrite replace_comma_app, Hw. cbn [PyStr.replace_comma].
    replace (Ascii.eqb "010" ",") with false by reflexivity.
    apply (of_str_decimal ip f1 f2); auto. destruct ip; simpl in Hlen; [lia | discriminate].
Qed.

End AmountConversion.

(** ** What the reassembler returns and how it fails *)

Section Reassembler.

Lemma take_length (n : nat) (s : string) :
  (String.length (PyStr.take n s) <= n)%nat.
Proof.
  revert s; induction n as [|n IH]; intros s; [simpl; lia|].
  destruct s as [|c s]; simpl; [lia|]. specialize (IH s). lia.
Qed.

Lemma join_description_nil (ds : list string) :
  join_description ds = "" -> ds = [].
Proof. destruct ds; [reflexivity | discriminate]. Qed.

(** A returned transaction, read off the buffer: the lines taken are the
    hint, the description lines (none of them an amount) and the amount
    line; the name is the description cut to 32 characters, where the
    description is the hint when no description line follows it, the
    description lines otherwise, and in the checks section [Check # ], the
    hint and the description lines; the date is the one passed in. *)
Lemma transaction_parse_spec (lines : list string) txn_date pc t rest :
  StatementTransactionBuilder.parse lines txn_date pc = Ok (Some t, rest) ->
  exists hint ds a,
    lines = (hint :: ds ++ a :: rest)%list /\
    Forall (fun x => StatementTransactionBuilder.is_amount x = false) ds /\
    StatementTransactionBuilder.is_amount a = true /\
    StatementTransactionBuilder.classify hint pc = Some (trntype t) /\
    name t = PyStr.take 32 (description_of pc hint ds) /\
    (String.length (name t) <= 32)%nat /\
    dtposted t = txn_date /\
    memo t = "".
Proof.
  intros H. apply parse_ok_inv in H.
  destruct H as (hint & line & tail & d & a & x & -> & Hc & Ha & _ & _ & Hn & Hd & _ & Hm).
  apply accumulate_spec in Ha. destruct Ha as (ds & Hl & Hds & Hamt & ->).
  exists hint, ds, a. rewrite Hl.
  assert (Hname : name t = PyStr.take 32 (description_of pc hint ds)).
  { rewrite Hn. unfold description_of. destruct pc.
    - rewrite str_app_assoc. reflexivity.
    - cbn [append]. destruct ds; reflexivity. }
  repeat split; auto. rewrite Hname. apply take_length.
Qed.

Lemma fitid_raises (txn_date : Datetime.datetime) (x : PyFloat.float) (e : exn) :
  StatementTransactionBuilder.fitid txn_date x = Raise e -> e = OverflowError.
Proof.
  unfold StatementTransactionBuilder.fitid.
  destruct (PyFloat.mul x 100) as [s m ex | s]; cbn [PyFloat.to_int bind].
  - discriminate.
  - intros H; now injection H.
Qed.

(** Lines 199 to 246, before the reassembler hands its result to the
    constructor of line 249, raise three exceptions only: [IndexError]
    when the buffer runs out, [OverflowError] when the amount is too large
    for [int(amount * 100)], and, outside the checks section, the
    [ValueError] of line 217 for a hint that has no keyword and is no
    check.  What the constructor of [ofxtools] may raise on the arguments
    it is given is not part of this statement. *)
Theorem transaction_parse_errors (lines : list string) txn_date pc e :
  StatementTransactionBuilder.parse lines txn_date pc = Raise e ->
  e = IndexError \/ e = OverflowError \/
  (pc = false /\
   exists hint tail,
     lines = hint :: tail /\
     StatementTransactionBuilder.classify hint false = None /\
     PyStr.startswith hint "Check #" = false /\
     e = ValueError ("Unable to determine transaction type for " ++ hint)).
Proof.
  unfold StatementTransactionBuilder.parse.
  destruct lines as [|hint lines]; cbn [pop bind].
  { intros H; injection H as <-. now left. }
  destruct (StatementTransactionBuilder.classify hint pc) as [ty|] eqn:Ec.
  - destruct lines as [|line tail]; cbn [pop bind].
    { intros H; injection H as <-. now left. }
    destruct (StatementTransactionBuilder.accumulate _ line tail)
      as [[[d a] r]|] eqn:Ea; cbn [bind].
    + apply accumulate_amount in Ea.
      destruct (amount_line_converts _ Ea) as (ip & f1 & f2 & _ & _ & _ & _ & _ & ->).
      cbn [bind].
      destruct (StatementTransactionBuilder.fitid _ _) eqn:Ef; cbn [bind];
        [discriminate|].
      intros H; injection H as <-. apply fitid_raises in Ef. auto.
    + intros H; injection H as <-. apply accumulate_raises_index in Ea. auto.
  - destruct pc; [rewrite classify_checks in Ec; discriminate|].
    destruct (PyStr.startswith hint "Check #") eqn:Ek; cbn [negb].
    + destruct lines as [|a [|b tail]]; cbn [pop bind];
        intros H; try discriminate; injection H as <-; now left.
    + intros H; injection H as <-. right. right. split; [reflexivity|].
      exists hint, lines. auto.
Qed.

(** In the checks section the reassembler never defers and never refuses a
    hint: when it returns, it has read the hint, the description lines
    [ds] (none of them an amount) and the amount line, and it returns a
    DEBIT, not above zero, whose description is the first 32 characters of
    [Check # ], the hint and the lines [ds], each after a space, whatever
    keyword the hint holds. *)
Theorem checks_section_forces_debit (hint : string) (lines : list string)
  txn_date r rest :
  StatementTransactionBuilder.parse (hint :: lines) txn_date true = Ok (r, rest) ->
  exists t ds a,
    r = Some t /\
    lines = (ds ++ a :: rest)%list /\
    Forall (fun x => StatementTransactionBuilder.is_amount x = false) ds /\
    StatementTransactionBuilder.is_amount a = true /\
    trntype t = DEBIT /\
    PyFloat.le0 (trnamt t) = true /\
    name t = PyStr.take 32 ("Check # " ++ hint ++ join_description ds).
Proof.
  intros H. destruct r as [t|].
  - pose proof (parse_ok_inv _ _ _ _ _ H)
      as (_ & _ & _ & _ & al & x & _ & _ & _ & Hx & Ht & _).
    apply transaction_parse_spec in H.
    destruct H as (h & ds & a & Hl & Hds & Ha & Hc & Hn & _).
    injection Hl as <- ->. rewrite classify_checks in Hc. injection Hc as Hc.
    exists t, ds, a. repeat split; auto.
    rewrite Ht, <- Hc. apply of_str_sign in Hx.
    destruct Hx as [(m & e & ->) | ->]; reflexivity.
  - exfalso. revert H. unfold StatementTransactionBuilder.parse.
    cbn [pop bind]. rewrite classify_checks.
    destruct lines as [|line tail]; cbn [pop bind]; [discriminate|].
    destruct (StatementTransactionBuilder.accumulate _ line tail)
      as [[[d a] r]|]; cbn [bind]; [|discriminate].
    destruct (PyFloat.of_str _); cbn [bind]; [|discriminate].
    destruct (StatementTransactionBuilder.fitid _ _); cbn [bind]; discriminate.
Qed.

End Reassembler.

(** ** Invariants of the scan *)

Section ScanInvariants.

Import OfxBuilder.

(** What every turn keeps, a run keeps. *)
Lemma loop_invariant (I : t -> locals -> Prop) (ok : string -> Prop) :
  (forall self l line lines self' l' rest,
      ok line -> done l = false -> I self l ->
      iteration self l line lines = Ok (self', l', rest) -> I self' l') ->
  forall fuel self l (lines : list string) self' l' rest,
    Forall ok lines -> I self l ->
    loop fuel self l lines = Ok (self', l', rest) -> I self' l'.
Proof.
  intros Hstep. induction fuel as [|fuel IH]; intros self l lines self' l' rest Hall Hi.
  - cbn [loop]. destruct lines; intros H; injection H as <- <- _; exact Hi.
  - destruct lines as [|line lines]; cbn [loop].
    + intros H; injection H as <- <- _; exact Hi.
    + destruct (done l) eqn:Ed.
      * intros H; injection H as <- <- _; exact Hi.
      * destruct (iteration self l line lines) as [[[s1 l1] r1]|] eqn:E;
          cbn [bind]; [|discriminate].
        intros H. inversion Hall as [|? ? Hline Hrest]; subst.
        destruct (iteration_suffix _ _ _ _ _ _ _ E) as [used ->].
        apply Forall_app in Hrest. destruct Hrest as [_ Hrest].
        exact (IH _ _ _ _ _ _ Hrest (Hstep _ _ _ _ _ _ _ Hline Ed Hi E) H).
Qed.

Lemma iteration_keeps_account self l (line : string) (lines : list string)
  self' l' rest :
  PyStr.startswith line "Primary Account #:" = false ->
  iteration self l line lines = Ok (self', l', rest) ->
  account_number self' = account_number self.
Proof.
  intros Ha. unfold iteration. rewrite Ha.
  destruct (PyStr.startswith line "Statement Period:").
  { destruct (StatementPeriodBuilder.parse lines) as [[[s e] r]|];
      cbn [bind]; [|discriminate].
    intros H; injection H as <- _ _. reflexivity. }
  destruct (PyStr.startswith line "Statement Balance as of").
  { destruct lines; cbn [pop bind]; [discriminate|].
    destruct (truthy _); intros H; injection H as <- _ _; reflexivity. }
  destruct (PyStr.startswith line "Beginning Balance").
  { destruct lines; cbn [pop bind]; [discriminate|].
    intros H; injection H as <- _ _. reflexivity. }
  destruct (PyStr.startswith line "Ending Balance").
  { destruct lines; cbn [pop bind]; [discriminate|].
    intros H; injection H as <- _ _. reflexivity. }
  destruct (_ || _).
  { intros H; injection H as <- _ _. reflexivity. }
  destruct (negb _).
  2:{ intros H; injection H as <- _ _. reflexivity. }
  intros H. apply transaction_line_ok in H.
  destruct H as [(_ & -> & _) | (g1 & g2 & st & y & d & r & _ & _ & _ & H)];
    [reflexivity|].
  cbn zeta in H. destruct H as (-> & _).
  destruct (_ && _); reflexivity.
Qed.

Lemma iteration_keeps_period self l (line : string) (lines : list string)
  self' l' rest :
  PyStr.startswith line "Statement Period:" = false ->
  iteration self l line lines = Ok (self', l', rest) ->
  statement_start_date self' = statement_start_date self /\
  statement_end_date self' = statement_end_date self.
Proof.
  intros Hp. unfold iteration. rewrite Hp.
  destruct (PyStr.startswith line "Primary Account #:").
  { destruct lines; cbn [pop bind]; [discriminate|].
    intros H; injection H as <- _ _. now split. }
  destruct (PyStr.startswith line "Statement Balance as of").
  { destruct lines; cbn [pop bind]; [discriminate|].
    destruct (truthy _); intros H; injection H as <- _ _; now split. }
  destruct (PyStr.startswith line "Beginning Balance").
  { destruct lines; cbn [pop bind]; [discriminate|].
    intros H; injection H as <- _ _. now split. }
  destruct (PyStr.startswith line "Ending Balance").
  { destruct lines; cbn [pop bind]; [discriminate|].
    intros H; injection H as <- _ _. now split. }
  destruct (_ || _).
  { intros H; injection H as <- _ _. now split. }
  destruct (negb _).
  2:{ intros H; injection H as <- _ _. now split. }
  intros H. apply transaction_line_ok in H.
  destruct H as [(_ & -> & _) | (g1 & g2 & st & y & d & r & _ & _ & _ & H)];
    [now split|].
  cbn zeta in H. destruct H as (-> & _).
  destruct (_ && _); now split.
Qed.

(** The account number is written by the [Primary Account #:] header
    only: a run over lines of which none starts with it keeps the account
    number. *)
Theorem scan_keeps_account_number self l (lines : list string) self' l' rest :
  Forall (fun line => PyStr.startswith line "Primary Account #:" = false) lines ->
  scan self l lines = Ok (self', l', rest) ->
  account_number self' = account_number self.
Proof.
  intros Hall H.
  refine (loop_invariant (fun s _ => account_number s = account_number self) _ _
            _ _ _ _ _ _ _ Hall eq_refl H).
  intros s0 l0 line lines0 s1 l1 r1 Hline _ Hi E.
  rewrite (iteration_keeps_account _ _ _ _ _ _ _ Hline E). exact Hi.
Qed.

(** The statement period is written by the [Statement Period:] header
    only. *)
Lemma scan_keeps_period self l (lines : list string) self' l' rest :
  Forall (fun line => PyStr.startswith line "Statement Period:" = false) lines ->
  scan self l lines = Ok (self', l', rest) ->
  statement_start_date self' = statement_start_date self /\
  statement_end_date self' = statement_end_date self.
Proof.
  intros Hall H.
  refine (loop_invariant
            (fun s _ => statement_start_date s = statement_start_date self /\
                        statement_end_date s = statement_end_date self) _ _
            _ _ _ _ _ _ _ Hall (conj eq_refl eq_refl) H).
  intros s0 l0 line lines0 s1 l1 r1 Hline _ [Hi1 Hi2] E.
  destruct (iteration_keeps_period _ _ _ _ _ _ _ Hline E) as [-> ->]. now split.
Qed.

Lemma iteration_year_follows_period self l (line : string) (lines : list string)
  self' l' rest :
  year_follows_period self l ->
  iteration self l line lines = Ok (self', l', rest) ->
  year_follows_period self' l'.
Proof.
  intros Hi. unfold iteration.
  set (l0 := if PyStr.startswith line "Checks Paid" then set_processing_checks l true
             else if PyStr.startswith line "Electronic Payments"
                  then set_processing_checks l false else l).
  assert (Hr0 : rollover_year l0 = rollover_year l)
    by (unfold l0; repeat destruct (PyStr.startswith _ _); reflexivity).
  assert (Hi0 : year_follows_period self l0)
    by (unfold year_follows_period in *; now rewrite Hr0).
  clearbody l0. clear Hi Hr0.
  destruct (PyStr.startswith line "Statement Period:").
  { destruct (StatementPeriodBuilder.parse lines) as [[[s e] r]|];
      cbn [bind]; [|discriminate].
    intros H; injection H as <- <- _. unfold year_follows_period. cbn. now left. }
  destruct (PyStr.startswith line "Primary Account #:").
  { destruct lines; cbn [pop bind]; [discriminate|].
    intros H; injection H as <- <- _. exact Hi0. }
  destruct (PyStr.startswith line "Statement Balance as of").
  { destruct lines; cbn [pop bind]; [discriminate|].
    destruct (truthy _); intros H; injection H as <- <- _; exact Hi0. }
  destruct (PyStr.startswith line "Beginning Balance").
  { destruct lines; cbn [pop bind]; [discriminate|].
    intros H; injection H as <- <- _. exact Hi0. }
  destruct (PyStr.startswith line "Ending Balance").
  { destruct lines; cbn [pop bind]; [discriminate|].
    intros H; injection H as <- <- _. exact Hi0. }
  destruct (_ || _).
  { intros H; injection H as <- <- _. exact Hi0. }
  destruct (negb _).
  2:{ intros H; injection H as <- <- _. exact Hi0. }
  intros H. apply transaction_line_ok in H.
  destruct H as [(_ & -> & -> & _) | (g1 & g2 & st & y & d & r & _ & Hs & Hy & H)];
    [exact Hi0|].
  cbn zeta in H. destruct H as (-> & _ & _ & ->).
  unfold year_follows_period in *. rewrite Hs, Hy in Hi0.
  destruct ((Datetime.month st =? 12) && (PyStr.int_of_digits g1 =? 1)
            && rollover_year l0)%Z eqn:Eroll.
  - apply andb_true_iff in Eroll. destruct Eroll as [Eroll Er].
    apply andb_true_iff in Eroll. destruct Eroll as [Em _].
    apply Z.eqb_eq in Em.
    cbn [statement_start_date year set_year]. rewrite Hs.
    right. destruct Hi0 as [-> | (_ & _ & Hf)]; [|congruence].
    destruct r; cbn; auto.
  - rewrite Hs, Hy. destruct r; cbn; exact Hi0.
Qed.

(** In every run of [parse] the running year follows the statement
    period: after the scan it is unset together with the period, or it is
    the year of the start date, or that year plus one for a December
    statement whose roll-over is used up.  It is never raised twice. *)
Theorem scan_year_follows_period (lines : list string) self' l' rest :
  scan init init_locals lines = Ok (self', l', rest) ->
  year_follows_period self' l'.
Proof.
  intros H.
  refine (loop_invariant year_follows_period (fun _ => True) _ _
            _ _ _ _ _ _ _ (I : year_follows_period init init_locals) H).
  - intros s0 l0 line lines0 s1 l1 r1 _ _ Hi E.
    exact (iteration_year_follows_period _ _ _ _ _ _ _ Hi E).
  - apply Forall_forall. auto.
Qed.

End ScanInvariants.

(** ** What a run adds, and where it stops *)

Section ScanProgress.

Import OfxBuilder.

Lemma make_valid (y m d : Z) (x : Datetime.datetime) :
  Datetime.make y m d = Ok x -> x = Datetime.mk_datetime y m d /\ valid_date x.
Proof.
  unfold Datetime.make, valid_date.
  destruct ((1 <=? y) && (y <=? 9999))%Z eqn:Ey; cbn [negb]; [|discriminate].
  destruct ((1 <=? m) && (m <=? 12))%Z eqn:Em; cbn [negb]; [|discriminate].
  destruct ((1 <=? d) && (d <=? Datetime.days_in_month y m))%Z eqn:Ed;
    cbn [negb]; [|discriminate].
  intros H; injection H as <-. cbn.
  apply andb_true_iff in Ey, Em, Ed.
  destruct Ey as [Ey1 Ey2], Em as [Em1 Em2], Ed as [Ed1 Ed2].
  apply Z.leb_le in Ey1, Ey2, Em1, Em2, Ed1, Ed2. auto.
Qed.

(** The reassembler takes two lines at least for a transaction, and
    three lines exactly for a deferred check. *)
Lemma transaction_parse_consumes (lines : list string) txn_date pc r rest :
  StatementTransactionBuilder.parse lines txn_date pc = Ok (r, rest) ->
  match r with
  | Some _ => (length rest + 2 <= length lines)%nat
  | None => length lines = (length rest + 3)%nat
  end.
Proof.
  destruct r as [t|].
  - intros H. apply transaction_parse_spec in H.
    destruct H as (hint & ds & a & -> & _). cbn. rewrite length_app. cbn. lia.
  - unfold StatementTransactionBuilder.parse.
    destruct lines as [|hint lines]; cbn [pop bind]; [discriminate|].
    destruct (StatementTransactionBuilder.classify hint pc).
    + destruct lines as [|line tail]; cbn [pop bind]; [discriminate|].
      destruct (StatementTransactionBuilder.accumulate _ line tail)
        as [[[d a] r]|]; cbn [bind]; [|discriminate].
      destruct (PyFloat.of_str _); cbn [bind]; [|discriminate].
      destruct (StatementTransactionBuilder.fitid _ _); cbn [bind]; discriminate.
    + destruct (negb _); [discriminate|].
      destruct lines as [|a [|b tail]]; cbn [pop bind]; try discriminate.
      intros H; injection H as <-. cbn. lia.
Qed.

(** What a turn does to the transactions and to [done]. *)
Lemma iteration_progress self l (line : string) (lines : list string) self' l' rest :
  iteration self l line lines = Ok (self', l', rest) ->
  (statement_transactions l' = statement_transactions l \/
   exists x,
     statement_transactions l' = (statement_transactions l ++ [x])%list /\
     (length rest + 2 <= length lines)%nat /\
     valid_date (dtposted x)) /\
  (done l' = done l \/
   (terminator line = true /\ done l' = true /\ rest = lines /\
    statement_transactions l' = statement_transactions l)).
Proof.
  unfold iteration, terminator.
  set (l0 := if PyStr.startswith line "Checks Paid" then set_processing_checks l true
             else if PyStr.startswith line "Electronic Payments"
                  then set_processing_checks l false else l).
  assert (Ht0 : statement_transactions l0 = statement_transactions l)
    by (unfold l0; repeat destruct (PyStr.startswith _ _); reflexivity).
  assert (Hd0 : done l0 = done l)
    by (unfold l0; repeat destruct (PyStr.startswith _ _); reflexivity).
  clearbody l0.
  destruct (PyStr.startswith line "Statement Period:").
  { destruct (StatementPeriodBuilder.parse lines) as [[[s e] r]|];
      cbn [bind]; [|discriminate].
    intros H; injection H as _ <- _. auto. }
  destruct (PyStr.startswith line "Primary Account #:").
  { destruct lines; cbn [pop bind]; [discriminate|].
    intros H; injection H as _ <- _. auto. }
  destruct (PyStr.startswith line "Statement Balance as of").
  { destruct lines; cbn [pop bind]; [discriminate|].
    destruct (truthy _); intros H; injection H as _ <- _; auto. }
  destruct (PyStr.startswith line "Beginning Balance").
  { destruct lines; cbn [pop bind]; [discriminate|].
    intros H; injection H as _ <- _. auto. }
  destruct (PyStr.startswith line "Ending Balance").
  { destruct lines; cbn [pop bind]; [discriminate|].
    intros H; injection H as _ <- _. auto. }
  destruct (_ || _).
  { intros H; injection H as _ <- <-. cbn. split; [now left|]. right. auto. }
  destruct (negb _).
  2:{ intros H; injection H as _ <- _. auto. }
  intros H. apply transaction_line_ok in H.
  destruct H as [(_ & _ & -> & _) | (g1 & g2 & st & y & d & r & _ & _ & _ & H)];
    [auto|].
  cbn zeta in H. destruct H as (_ & Hd & Hp & ->).
  apply make_valid in Hd. destruct Hd as [_ Hd].
  pose proof (transaction_parse_consumes _ _ _ _ _ Hp) as Hc.
  destruct r as [x|].
  - apply transaction_parse_spec in Hp.
    destruct Hp as (_ & _ & _ & _ & _ & _ & _ & _ & _ & Hdate & _).
    split.
    + right. exists x. rewrite Hdate.
      destruct (_ && _); cbn; rewrite Ht0; auto.
    + left. destruct (_ && _); cbn; exact Hd0.
  - split; left; destruct (_ && _); cbn; auto.
Qed.

Lemma loop_transactions_grow (fuel : nat) :
  forall self l (lines : list string) self' l' rest,
    loop fuel self l lines = Ok (self', l', rest) ->
    exists new,
      statement_transactions l' = (statement_transactions l ++ new)%list /\
      (3 * length new + length rest <= length lines)%nat /\
      Forall (fun x => valid_date (dtposted x)) new.
Proof.
  induction fuel as [|fuel IH]; intros self l lines self' l' rest.
  - cbn [loop]. intros H.
    assert (E : l' = l /\ rest = lines)
      by (destruct lines; injection H as _ <- <-; auto).
    destruct E as [-> ->]. exists []. rewrite app_nil_r. cbn. auto.
  - destruct lines as [|line lines]; cbn [loop].
    + intros H; injection H as _ <- <-. exists []. rewrite app_nil_r. cbn. auto.
    + destruct (done l).
      * intros H; injection H as _ <- <-. exists []. rewrite app_nil_r. cbn. auto.
      * destruct (iteration self l line lines) as [[[s1 l1] r1]|] eqn:E;
          cbn [bind]; [|discriminate].
        intros H. destruct (IH _ _ _ _ _ _ H) as (new & Ht & Hlen & Hv).
        pose proof (iteration_length _ _ _ _ _ _ _ E) as Hl.
        destruct (iteration_progress _ _ _ _ _ _ _ E)
          as [[Hs | (x & Hs & Hx & Hvx)] _].
        -- exists new. rewrite Ht, Hs. cbn [length]. repeat split; auto; lia.
        -- exists (x :: new). rewrite Ht, Hs, <- app_assoc. cbn [app length].
           repeat split; auto; lia.
Qed.

(** The transactions only grow, in the order of the lines: a run appends
    to the list it starts from.  Every transaction it appends stands for
    three lines at least of those it read, and is dated on a day of the
    calendar. *)
Theorem scan_transactions_grow self l (lines : list string) self' l' rest :
  scan self l lines = Ok (self', l', rest) ->
  exists new,
    statement_transactions l' = (statement_transactions l ++ new)%list /\
    (3 * length new + length rest <= length lines)%nat /\
    Forall (fun x => valid_date (dtposted x)) new.
Proof. apply loop_transactions_grow. Qed.

Lemma scan_done self l (lines : list string) :
  done l = true -> scan self l lines = Ok (self, l, lines).
Proof.
  intros Hd. unfold scan. destruct lines; cbn [loop length]; [reflexivity|].
  now rewrite Hd.
Qed.

Lemma loop_halts (fuel : nat) :
  forall self l (lines : list string) self' l' rest,
    (length lines <= fuel)%nat ->
    done l = false ->
    loop fuel self l lines = Ok (self', l', rest) ->
    (done l' = false /\ rest = []) \/
    (done l' = true /\
     exists before h,
       lines = (before ++ h :: rest)%list /\ terminator h = true).
Proof.
  induction fuel as [|fuel IH]; intros self l lines self' l' rest Hf Hd.
  - destruct lines; [|simpl in Hf; lia].
    cbn [loop]. intros H; injection H as _ <- <-. now left.
  - destruct lines as [|line lines]; cbn [loop].
    + intros H; injection H as _ <- <-. now left.
    + rewrite Hd.
      destruct (iteration self l line lines) as [[[s1 l1] r1]|] eqn:E;
        cbn [bind]; [|discriminate].
      intros H.
      pose proof (iteration_length _ _ _ _ _ _ _ E) as Hl.
      destruct (iteration_suffix _ _ _ _ _ _ _ E) as [used Hused].
      simpl in Hf.
      assert (Hf1 : (length r1 <= fuel)%nat) by lia.
      destruct (iteration_progress _ _ _ _ _ _ _ E)
        as [_ [Hsame | (Hterm & Hd1 & Hr1 & _)]].
      * rewrite Hd in Hsame.
        destruct (IH _ _ _ _ _ _ Hf1 Hsame H)
          as [Hleft | (Hd' & before & h & Hb & Hh)]; [now left|].
        right. split; [exact Hd'|].
        exists (line :: used ++ before)%list, h. split; [|exact Hh].
        rewrite Hused, Hb. cbn. now rewrite <- app_assoc.
      * subst r1. right.
        assert (E2 : loop fuel s1 l1 lines = Ok (s1, l1, lines))
          by (destruct fuel, lines; cbn [loop]; try reflexivity; now rewrite Hd1).
        rewrite E2 in H. injection H as _ <- <-.
        split; [exact Hd1|]. exists [], line. auto.
Qed.

(** The scan stops in two ways only: with the buffer drained, or at a
    terminator header, with the lines after that header left unread. *)
Theorem scan_halts self l (lines : list string) self' l' rest :
  done l = false ->
  scan self l lines = Ok (self', l', rest) ->
  (done l' = false /\ rest = []) \/
  (done l' = true /\
   exists before h,
     lines = (before ++ h :: rest)%list /\ terminator h = true).
Proof. apply loop_halts. apply le_n. Qed.

Lemma iteration_terminator self l (line : string) (lines : list string) :
  terminator line = true ->
  iteration self l line lines = Ok (self, set_done l, lines).
Proof.
  unfold terminator. intros H. apply orb_true_iff in H.
  unfold iteration. destruct H as [H | H]; rewrite H.
  - rewrite !(startswith_other line "DAILY BALANCE SUMMARY")
      by (exact H || reflexivity).
    reflexivity.
  - rewrite !(startswith_other line "INTEREST SUMMARY")
      by (exact H || reflexivity).
    rewrite orb_true_r. reflexivity.
Qed.

(** A terminator header ends the scan where it stands: nothing after it
    is read, so the result of [parse] does not depend on the lines that
    follow it. *)
Theorem terminator_ends_scan self l (h : string) (rest : list string) :
  terminator h = true ->
  done l = false ->
  scan self l (h :: rest) = Ok (self, set_done l, rest) /\
  (forall self0 pre,
      scan self0 init_locals pre = Ok (self, l, []) ->
      parse self0 (pre ++ h :: rest) = parse self0 (pre ++ [h])).
Proof.
  intros Ht Hd.
  assert (Hs : forall rest0, scan self l (h :: rest0) = Ok (self, set_done l, rest0)).
  { intros rest0. rewrite scan_cons by exact Hd.
    rewrite (iteration_terminator _ _ _ _ Ht). cbn [bind].
    now apply scan_done. }
  split; [apply Hs|].
  intros self0 pre Hpre. unfold parse.
  rewrite !(scan_app _ _ _ _ _ _ Hpre Hd). now rewrite !Hs.
Qed.

End ScanProgress.

(** ** Headers and their values *)

Section Headers.

Import OfxBuilder.

Lemma iteration_beginning_balance self l (line next : string) (lines : list string) :
  PyStr.startswith line "Beginning Balance" = true ->
  iteration self l line (next :: lines)
  = Ok (set_starting self (PyStr.replace_comma next), l, lines).
Proof.
  intros Hh. unfold iteration. rewrite Hh.
  rewrite !(startswith_other line "Beginning Balance") by (exact Hh || reflexivity).
  reflexivity.
Qed.

Lemma iteration_ending_balance self l (line next : string) (lines : list string) :
  PyStr.startswith line "Ending Balance" = true ->
  iteration self l line (next :: lines)
  = Ok (set_ending self (PyStr.replace_comma next), l, lines).
Proof.
  intros Hh. unfold iteration. rewrite Hh.
  rewrite !(startswith_other line "Ending Balance") by (exact Hh || reflexivity).
  reflexivity.
Qed.

(** The headers [Beginning Balance] and [Ending Balance] each set their
    own balance from the next line, commas removed, over whatever was
    there; met one after the other, in either order, they leave the same
    builder. *)
Theorem beginning_and_ending_balance
  self l (hb a he b : string) (rest : list string) :
  PyStr.startswith hb "Beginning Balance" = true ->
  PyStr.startswith he "Ending Balance" = true ->
  done l = false ->
  let self' :=
    mk (statement_start_date self) (statement_end_date self) (account_number self)
       (year self) (Some (PyStr.replace_comma a)) (Some (PyStr.replace_comma b)) in
  scan self l (hb :: a :: he :: b :: rest) = scan self' l rest /\
  scan self l (he :: b :: hb :: a :: rest) = scan self' l rest.
Proof.
  intros Hb He Hd. cbn zeta. split.
  - rewrite scan_cons by exact Hd.
    rewrite (iteration_beginning_balance _ _ _ _ _ Hb). cbn [bind].
    rewrite scan_cons by exact Hd.
    rewrite (iteration_ending_balance _ _ _ _ _ He). reflexivity.
  - rewrite scan_cons by exact Hd.
    rewrite (iteration_ending_balance _ _ _ _ _ He). cbn [bind].
    rewrite scan_cons by exact Hd.
    rewrite (iteration_beginning_balance _ _ _ _ _ Hb). reflexivity.
Qed.

(** A header that takes its value from the next line raises [IndexError]
    when it is the last line of the buffer. *)
Theorem header_without_value_raises self l (h : string) :
  needs_value h = true ->
  done l = false ->
  iteration self l h [] = Raise IndexError /\
  scan self l [h] = Raise IndexError.
Proof.
  intros Hn Hd.
  assert (Hi : iteration self l h [] = Raise IndexError).
  { unfold needs_value in Hn. unfold iteration.
    destruct (PyStr.startswith h "Statement Period:") eqn:E1; [reflexivity|].
    destruct (PyStr.startswith h "Primary Account #:") eqn:E2; [reflexivity|].
    destruct (PyStr.startswith h "Statement Balance as of") eqn:E3; [reflexivity|].
    destruct (PyStr.startswith h "Beginning Balance") eqn:E4; [reflexivity|].
    destruct (PyStr.startswith h "Ending Balance") eqn:E5; [reflexivity|].
    discriminate. }
  split; [exact Hi|].
  rewrite scan_cons by exact Hd. now rewrite Hi.
Qed.


(** [parse] hands over a document only with both balances set, and the
    document carries the ending balance, the account number, the period
    and the transactions of the builder; a run from a new builder over
    lines of which none starts with a balance header ends with an
    exception. *)
Theorem parse_needs_balances (lines : list string) :
  (forall self self' ofx,
      parse self lines = Ok (self', ofx) ->
      exists l' rest starting ending,
        scan self init_locals lines = Ok (self', l', rest) /\
        starting_statement_balance self' = Some starting /\
        ending_statement_balance self' = Some ending /\
        balamt ofx = ending /\
        acctid ofx = account_number self' /\
        dtstart ofx = statement_start_date self' /\
        dtend ofx = statement_end_date self' /\
        dtasof ofx = statement_end_date self' /\
        banktranlist ofx = statement_transactions l') /\
  (Forall (fun line => balance_header line = false) lines ->
   raises (parse init lines)).
Proof.
  split.
  - intros self self' ofx. unfold parse.
    destruct (scan self init_locals lines) as [[[s1 l1] r1]|]; cbn [bind];
      [|discriminate].
    unfold assemble.
    destruct (starting_statement_balance s1) as [sb|] eqn:Es;
      [|discriminate].
    destruct (ending_statement_balance s1) as [eb|] eqn:Ee;
      cbn [bind]; [|discriminate].
    intros H; injection H as <- <-.
    exists l1, r1, sb, eb. cbn. repeat split; auto.
  - intros Hall. unfold parse, raises.
    destruct (scan init init_locals lines) as [[[s1 l1] r1]|] eqn:E; cbn [bind];
      [|eexists; reflexivity].
    destruct (scan_keeps_balances _ _ _ _ _ _ Hall E) as [Hs _].
    unfold assemble. rewrite Hs. cbn. eexists; reflexivity.
Qed.

End Headers.

(** ** The statement period line *)

Section PeriodLine.

Lemma split_length (sep : ascii) (s : string) :
  length (PyStr.split sep s) = S (count_char sep s).
Proof.
  induction s as [|c s IH]; cbn [PyStr.split count_char]; [reflexivity|].
  destruct (Ascii.eqb c sep); cbn [length]; [now rewrite IH|].
  destruct (PyStr.split sep s) as [|w ws]; cbn in *; lia.
Qed.

Lemma split_one (sep : ascii) (s b : string) :
  PyStr.split sep s = [b] <-> s = b /\ count_char sep s = 0%nat.
Proof.
  split.
  - revert b. induction s as [|c s IH]; intros b; cbn [PyStr.split count_char].
    + intros H; injection H as <-. auto.
    + destruct (Ascii.eqb c sep).
      * intros H. injection H as _ H.
        pose proof (split_length sep s) as Hl. rewrite H in Hl. discriminate.
      * destruct (PyStr.split sep s) as [|w ws] eqn:E.
        -- pose proof (split_length sep s) as Hl. rewrite E in Hl. discriminate.
        -- intros H. injection H as <- ->.
           destruct (IH w eq_refl) as [-> Hc]. auto.
  - intros [<- Hc]. pose proof (split_length sep s) as Hl. rewrite Hc in Hl.
    clear Hc. induction s as [|c s IH]; [reflexivity|].
    cbn [PyStr.split] in *. destruct (Ascii.eqb c sep).
    + cbn in Hl. pose proof (split_length sep s). lia.
    + destruct (PyStr.split sep s) as [|w ws] eqn:E.
      * pose proof (split_length sep s) as Hl'. rewrite E in Hl'. discriminate.
      * cbn in Hl. destruct ws; [|discriminate].
        specialize (IH eq_refl). injection IH as ->. reflexivity.
Qed.

Lemma split_two (sep : ascii) (s a b : string) :
  PyStr.split sep s = [a; b] <->
  s = a ++ String sep b /\ count_char sep a = 0%nat /\ count_char sep b = 0%nat.
Proof.
  revert a. induction s as [|c s IH]; intros a; cbn [PyStr.split].
  - split; [discriminate|]. intros [H _]. destruct a; discriminate.
  - destruct (Ascii.eqb c sep) eqn:Ec.
    + apply Ascii.eqb_eq in Ec. subst c. split.
      * intros H. injection H as <- H. apply split_one in H.
        destruct H as [-> Hc]. auto.
      * intros (H & Ha & Hb). destruct a as [|d a]; cbn in H.
        -- injection H as ->. f_equal. apply split_one. auto.
        -- injection H as <- _. cbn in Ha. rewrite Ascii.eqb_refl in Ha. discriminate.
    + destruct (PyStr.split sep s) as [|w ws] eqn:E.
      * pose proof (split_length sep s) as Hl. rewrite E in Hl. discriminate.
      * split.
        -- intros H. injection H as <- ->.
           destruct (proj1 (IH w) eq_refl) as (-> & Hw & Hb).
           cbn. rewrite Ec. auto.
        -- intros (H & Ha & Hb). destruct a as [|d a]; cbn in H.
           ++ injection H as -> _. now rewrite Ascii.eqb_refl in Ec.
           ++ injection H as <- H. cbn in Ha. rewrite Ec in Ha. cbn in Ha.
              assert (Hs : w :: ws = [a; b]) by (apply IH; auto).
              now injection Hs as -> ->.
Qed.

(** [strptime] only returns days of the calendar. *)
Lemma strptime_valid (s : string) (d : Datetime.datetime) :
  Datetime.strptime s = Ok d -> valid_date d.
Proof.
  unfold Datetime.strptime.
  destruct (Datetime.month_of_abbrev _); [|discriminate].
  destruct (_ && _); [|discriminate].
  destruct (Datetime.day_field _); [|discriminate].
  destruct (_ && _); [|discriminate].
  intros H. now apply make_valid in H.
Qed.

(** The period parser returns exactly when the next line has one hyphen
    and [strptime] reads the text before it and the text after it; it takes
    that one line, and the two dates are days of the calendar.  Nothing
    asks for the second date to follow the first. *)
Theorem period_parse_spec (lines : list string) s e rest :
  StatementPeriodBuilder.parse lines = Ok (s, e, rest) <->
  exists a b,
    lines = (a ++ String "-" b) :: rest /\
    count_char "-" a = 0%nat /\ count_char "-" b = 0%nat /\
    Datetime.strptime a = Ok s /\ Datetime.strptime b = Ok e /\
    valid_date s /\ valid_date e.
Proof.
  unfold StatementPeriodBuilder.parse. split.
  - destruct lines as [|line lines]; cbn [pop bind]; [discriminate|].
    destruct (PyStr.split "-" line) as [|a [|b [|c ws]]] eqn:E; try discriminate.
    apply split_two in E. destruct E as (-> & Ha & Hb).
    destruct (Datetime.strptime a) as [s0|] eqn:Es; cbn [bind]; [|discriminate].
    destruct (Datetime.strptime b) as [e0|] eqn:Ee; cbn [bind]; [|discriminate].
    intros H; injection H as <- <- <-.
    exists a, b. repeat split; auto; eapply strptime_valid; eauto.
  - intros (a & b & -> & Ha & Hb & Hs & He & _). cbn [pop bind].
    rewrite (proj2 (split_two "-" _ a b)) by auto.
    rewrite Hs, He. reflexivity.
Qed.

(** A period line with no hyphen, or with more than one, is refused with
    a [ValueError]. *)
Theorem period_line_hyphens (line : string) (rest : list string) :
  count_char "-" line <> 1%nat ->
  exists msg, StatementPeriodBuilder.parse (line :: rest) = Raise (ValueError msg).
Proof.
  intros Hc. unfold StatementPeriodBuilder.parse. cbn [pop bind].
  pose proof (split_length "-" line) as Hl.
  destruct (PyStr.split "-" line) as [|a [|b [|c ws]]]; cbn in Hl;
    try (eexists; reflexivity).
  lia.
Qed.

End PeriodLine.

(** ** The tokenizer *)

Section Tokenizer.

Lemma count_char_app (c : ascii) (a b : string) :
  count_char c (a ++ b) = (count_char c a + count_char c b)%nat.
Proof. induction a as [|d a IH]; cbn; [reflexivity | rewrite IH; lia]. Qed.

Lemma split_pieces (sep : ascii) (s w : string) :
  In w (PyStr.split sep s) -> count_char sep w = 0%nat.
Proof.
  revert w. induction s as [|c s IH]; intros w; cbn [PyStr.split].
  - intros [<- | []]. reflexivity.
  - destruct (Ascii.eqb c sep) eqn:Ec.
    + intros [<- | H]; [reflexivity | now apply IH].
    + destruct (PyStr.split sep s) as [|x xs].
      * intros [<- | []]. cbn. now rewrite Ec.
      * intros [<- | H].
        -- cbn. rewrite Ec. apply IH. now left.
        -- apply IH. now right.
Qed.

Lemma split_app_sep (sep : ascii) (a b : string) :
  PyStr.split sep (a ++ String sep b)
  = (PyStr.split sep a ++ PyStr.split sep b)%list.
Proof.
  induction a as [|c a IH]; cbn [append PyStr.split].
  - now rewrite Ascii.eqb_refl.
  - rewrite IH. destruct (Ascii.eqb c sep); [reflexivity|].
    destruct (PyStr.split sep a) as [|w ws] eqn:E; [|reflexivity].
    pose proof (split_length sep a) as Hl. rewrite E in Hl. discriminate.
Qed.

Lemma fold_append_acc (pages : list string) :
  forall acc, fold_left String.append pages acc
              = acc ++ fold_left String.append pages "".
Proof.
  induction pages as [|p pages IH]; intros acc; cbn [fold_left].
  - now rewrite str_app_nil_r.
  - rewrite IH. rewrite (IH ("" ++ p)). cbn [append]. now rewrite str_app_assoc.
Qed.

Lemma fold_append_app (pages1 pages2 : list string) :
  fold_left String.append (pages1 ++ pages2) ""
  = fold_left String.append pages1 "" ++ fold_left String.append pages2 "".
Proof. rewrite fold_left_app. apply fold_append_acc. Qed.

(** The lines the tokenizer hands to the parser are never empty and hold
    no newline; on such a line the amount test of line 233 is the plain
    pattern: digits, at most one comma, digits, a point and two digits. *)
Theorem tokenized_lines (pages : list string) (line : string) :
  In line (tokenize_pdf_statement pages) ->
  line <> "" /\
  count_char "010" line = 0%nat /\
  (StatementTransactionBuilder.is_amount line = true <-> amount_shape line).
Proof.
  unfold tokenize_pdf_statement. intros H. apply filter_In in H.
  destruct H as [Hin Ht]. apply split_pieces in Hin.
  split; [destruct line; [discriminate | discriminate]|].
  split; [exact Hin|].
  rewrite is_amount_spec. split; [|now left].
  intros [H | (t & -> & _)]; [exact H|].
  rewrite count_char_app in Hin. cbn in Hin. lia.
Qed.

(** Pages are tokenized one by one when the text before a page break ends
    with a newline: the lines of the document are then the lines of the
    pages, in order. *)
Theorem tokenize_pages_app (pages1 pages2 : list string) (t : string) :
  fold_left String.append pages1 "" = t ++ String "010" "" ->
  tokenize_pdf_statement (pages1 ++ pages2)
  = (tokenize_pdf_statement pages1 ++ tokenize_pdf_statement pages2)%list.
Proof.
  intros Ht. unfold tokenize_pdf_statement.
  rewrite fold_append_app, Ht, str_app_assoc. cbn [append].
  rewrite !split_app_sep, !filter_app. cbn [PyStr.split filter PyStr.truthy].
  now rewrite app_nil_r.
Qed.

End Tokenizer.

(** * The further properties, each with an instance *)

(** ** [StatementTransactionBuilder.parse]: the description loop *)

(** The description loop returns exactly when some line from the current
    one on is an amount: the lines before the first such line are the
    description lines, appended after a space each, that line is the
    amount line, and the lines after it stay in the buffer. *)
Theorem description_loop_spec (description line : string) (lines : list string)
  d a rest :
  StatementTransactionBuilder.accumulate description line lines = Ok (d, a, rest) <->
  exists ds,
    line :: lines = (ds ++ a :: rest)%list /\
    Forall (fun x => StatementTransactionBuilder.is_amount x = false) ds /\
    StatementTransactionBuilder.is_amount a = true /\
    d = description ++ join_description ds.
Proof. apply accumulate_spec. Qed.

Lemma description_loop_spec_witness :
  StatementTransactionBuilder.accumulate "" "AMAZON.COM" ["SEATTLE WA"; "45.99"; "03/15"]
  = Ok (" AMAZON.COM SEATTLE WA", "45.99", ["03/15"]).
Proof.
  apply (proj2 (description_loop_spec "" "AMAZON.COM" ["SEATTLE WA"; "45.99"; "03/15"]
                  " AMAZON.COM SEATTLE WA" "45.99" ["03/15"])).
  exists ["AMAZON.COM"; "SEATTLE WA"].
  split; [reflexivity|]. split; [repeat constructor|]. split; reflexivity.
Defined.

Lemma accumulate_exhausted_witness :
  StatementTransactionBuilder.accumulate "" "AMAZON.COM" ["SEATTLE WA"; "5.00"]
  = Raise IndexError.
Proof.
  apply (proj1 (accumulate_exhausted ["SEATTLE WA"; "5.00"] "" "AMAZON.COM")).
  repeat constructor.
Defined.

(** The test of line 233 accepts a line exactly when it is made of digits,
    at most one comma, digits, a point and two digits, or is such a word
    followed by one newline. *)
Theorem amount_test_shape (line : string) :
  StatementTransactionBuilder.is_amount line = true <->
  amount_shape line \/ exists t, line = t ++ String "010" "" /\ amount_shape t.
Proof. apply is_amount_spec. Qed.

Lemma amount_test_shape_witness :
  amount_shape "1,234.56" \/
  exists t, "1,234.56" = t ++ String "010" "" /\ amount_shape t.
Proof. exact (proj1 (amount_test_shape "1,234.56") eq_refl). Defined.



(** ** [StatementTransactionBuilder.parse]: results and failures *)

(** A returned transaction, read off the buffer: the lines taken are the
    hint, the description lines (none of them an amount) and the amount
    line; the name is the description cut to 32 characters, where the
    description is the hint when no description line follows it, the
    description lines otherwise, and in the checks section [Check # ], the
    hint and the description lines; the date is the one passed in. *)
Theorem returned_transaction_spec (lines : list string) txn_date pc t rest :
  StatementTransactionBuilder.parse lines txn_date pc = Ok (Some t, rest) ->
  exists hint ds a,
    lines = (hint :: ds ++ a :: rest)%list /\
    Forall (fun x => StatementTransactionBuilder.is_amount x = false) ds /\
    StatementTransactionBuilder.is_amount a = true /\
    StatementTransactionBuilder.classify hint pc = Some (trntype t) /\
    name t = PyStr.take 32 (description_of pc hint ds) /\
    (String.length (name t) <= 32)%nat /\
    dtposted t = txn_date /\
    memo t = "".
Proof. apply transaction_parse_spec. Qed.

Lemma returned_transaction_spec_witness :
  exists hint ds a,
    tl multi_line_entry = (hint :: ds ++ a :: [])%list /\
    Forall (fun x => StatementTransactionBuilder.is_amount x = false) ds /\
    StatementTransactionBuilder.is_amount a = true /\
    StatementTransactionBuilder.classify hint false = Some DEBIT /\
    " AMAZON.COM SEATTLE WA" = PyStr.take 32 (description_of false hint ds) /\
    (22 <= 32)%nat /\
    Datetime.mk_datetime 2021 3 14 = Datetime.mk_datetime 2021 3 14 /\
    "" = "".
Proof.
  assert (H : StatementTransactionBuilder.parse (tl multi_line_entry)
                (Datetime.mk_datetime 2021 3 14) false
              = Ok (Some (multi_line_transaction (Datetime.mk_datetime 2021 3 14)), []))
    by (vm_compute; reflexivity).
  exact (returned_transaction_spec _ _ _ _ _ H).
Defined.

Lemma transaction_parse_errors_witness :
  IndexError = IndexError \/ IndexError = OverflowError \/
  (false = false /\
   exists hint tail,
     ["FEE"] = hint :: tail /\
     StatementTransactionBuilder.classify hint false = None /\
     PyStr.startswith hint "Check #" = false /\
     IndexError = ValueError ("Unable to determine transaction type for " ++ hint)).
Proof.
  exact (transaction_parse_errors ["FEE"] (Datetime.mk_datetime 2021 3 14) false
           IndexError eq_refl).
Defined.

Lemma checks_section_forces_debit_witness :
  exists t ds a,
    Some (mk_STMTTRN DEBIT (Datetime.mk_datetime 2021 1 5)
            (PyFloat.neg (PyFloat.round false 12000 100))
            "2021010500000120001" "Check # 103 REFUND TO PAYEE" "")
    = Some t /\
    ["TO PAYEE"; "120.00"; "01/06"] = (ds ++ a :: ["01/06"])%list /\
    Forall (fun x => StatementTransactionBuilder.is_amount x = false) ds /\
    StatementTransactionBuilder.is_amount a = true /\
    trntype t = DEBIT /\
    PyFloat.le0 (trnamt t) = true /\
    name t = PyStr.take 32 ("Check # " ++ "103 REFUND" ++ join_description ds).
Proof.
  assert (H : StatementTransactionBuilder.parse
                ["103 REFUND"; "TO PAYEE"; "120.00"; "01/06"]
                (Datetime.mk_datetime 2021 1 5) true
              = Ok (Some (mk_STMTTRN DEBIT (Datetime.mk_datetime 2021 1 5)
                            (PyFloat.neg (PyFloat.round false 12000 100))
                            "2021010500000120001" "Check # 103 REFUND TO PAYEE" ""),
                    ["01/06"]))
    by (vm_compute; reflexivity).
  exact (checks_section_forces_debit _ _ _ _ _ H).
Defined.

(** ** [OfxBuilder.parse]: what a run keeps *)

(** The balances are written by the balance headers only: a run over
    lines of which none starts with [Statement Balance as of],
    [Beginning Balance] or [Ending Balance] keeps both balances. *)
Theorem balances_only_by_headers self l (lines : list string) self' l' rest :
  Forall (fun line => balance_header line = false) lines ->
  OfxBuilder.scan self l lines = Ok (self', l', rest) ->
  OfxBuilder.starting_statement_balance self'
    = OfxBuilder.starting_statement_balance self /\
  OfxBuilder.ending_statement_balance self'
    = OfxBuilder.ending_statement_balance self.
Proof. apply scan_keeps_balances. Qed.

Lemma balances_only_by_headers_witness :
  OfxBuilder.starting_statement_balance
    (OfxBuilder.set_year (OfxBuilder.set_starting established "1234.56") 2021)
  = Some "1234.56" /\
  OfxBuilder.ending_statement_balance
    (OfxBuilder.set_year (OfxBuilder.set_starting established "1234.56") 2021)
  = None.
Proof.
  refine (balances_only_by_headers
            (OfxBuilder.set_starting established "1234.56") OfxBuilder.init_locals
            multi_line_entry _
            (OfxBuilder.append_transaction OfxBuilder.init_locals
               (multi_line_transaction (Datetime.mk_datetime 2021 3 14)))
            [] _ _).
  - repeat constructor.
  - vm_compute; reflexivity.
Defined.

Lemma scan_keeps_account_number_witness :
  OfxBuilder.account_number
    (OfxBuilder.set_starting (OfxBuilder.set_account_number established "4321") "10.00")
  = Some "4321".
Proof.
  refine (scan_keeps_account_number
            (OfxBuilder.set_account_number established "4321") OfxBuilder.init_locals
            ["Beginning Balance"; "10.00"] _ OfxBuilder.init_locals [] _ _).
  - repeat constructor.
  - vm_compute; reflexivity.
Defined.

(** The statement period is written by the [Statement Period:] header
    only: a run over lines of which none starts with it keeps both
    dates. *)
Theorem period_only_by_header self l (lines : list string) self' l' rest :
  Forall (fun line => PyStr.startswith line "Statement Period:" = false) lines ->
  OfxBuilder.scan self l lines = Ok (self', l', rest) ->
  OfxBuilder.statement_start_date self' = OfxBuilder.statement_start_date self /\
  OfxBuilder.statement_end_date self' = OfxBuilder.statement_end_date self.
Proof. apply scan_keeps_period. Qed.

Lemma period_only_by_header_witness :
  OfxBuilder.statement_start_date (OfxBuilder.set_starting established "10.00")
  = Some (Datetime.mk_datetime 2021 3 1) /\
  OfxBuilder.statement_end_date (OfxBuilder.set_starting established "10.00")
  = Some (Datetime.mk_datetime 2021 3 31).
Proof.
  refine (period_only_by_header established OfxBuilder.init_locals
            ["Beginning Balance"; "10.00"] _ OfxBuilder.init_locals [] _ _).
  - repeat constructor.
  - vm_compute; reflexivity.
Defined.

(** After the run with the repeated period header the year is the start
    year again. *)
Lemma scan_year_follows_period_witness :
  year_follows_period
    (OfxBuilder.set_period OfxBuilder.init
       (Datetime.mk_datetime 2020 12 15) (Datetime.mk_datetime 2021 1 14))
    (OfxBuilder.mk_locals
       [mk_STMTTRN CREDIT (Datetime.mk_datetime 2021 1 2)
          (PyFloat.round false 1000 100) "202101020000010002" "DEPOSIT" "";
        mk_STMTTRN CREDIT (Datetime.mk_datetime 2020 1 3)
          (PyFloat.round false 2000 100) "202001030000020002" "DEPOSIT" ""]
       false false false).
Proof.
  refine (scan_year_follows_period repeated_period_lines _ _ [] _).
  vm_compute; reflexivity.
Defined.

(** A statement from December to January with its period header once: the
    entry of December is dated 2020 and the entry of January 2021. *)
Lemma one_period_run_years_witness :
  exists new,
    [mk_STMTTRN CREDIT (Datetime.mk_datetime 2020 12 20)
       (PyFloat.round false 1000 100) "202012200000010002" "DEPOSIT" "";
     mk_STMTTRN CREDIT (Datetime.mk_datetime 2021 1 3)
       (PyFloat.round false 2000 100) "202101030000020002" "DEPOSIT" ""]
    = ([] ++ new)%list /\
    (12%Z <> 12%Z ->
     Some 2021%Z = Some 2020%Z /\
     Forall (fun t => Datetime.year (dtposted t) = 2020%Z) new) /\
    (12%Z = 12%Z ->
     (Some 2021%Z = Some 2020%Z \/ Some 2021%Z = Some (2020 + 1)%Z) /\
     Forall (fun t =>
               (Datetime.month (dtposted t) = 1%Z ->
                Datetime.year (dtposted t) = (2020 + 1)%Z) /\
               (Datetime.year (dtposted t) = 2020%Z \/
                Datetime.year (dtposted t) = (2020 + 1)%Z)) new).
Proof.
  refine (one_period_run_years
            (OfxBuilder.set_period OfxBuilder.init
               (Datetime.mk_datetime 2020 12 15) (Datetime.mk_datetime 2021 1 14))
            OfxBuilder.init_locals
            ["12/20"; "DEPOSIT"; "10.00"; "01/03"; "DEPOSIT"; "20.00"]
            (OfxBuilder.set_year
               (OfxBuilder.set_period OfxBuilder.init
                  (Datetime.mk_datetime 2020 12 15) (Datetime.mk_datetime 2021 1 14))
               2021)
            (OfxBuilder.mk_locals _ false false false) []
            (Datetime.mk_datetime 2020 12 15) 2020 _ eq_refl eq_refl _ _).
  - repeat constructor.
  - reflexivity.
  - vm_compute; reflexivity.
Defined.

(** ** [OfxBuilder.parse]: what a run adds and where it stops *)

Lemma scan_transactions_grow_witness :
  exists new,
    [multi_line_transaction (Datetime.mk_datetime 2021 3 14)] = ([] ++ new)%list /\
    (3 * length new + 0 <= 5)%nat /\
    Forall (fun x => valid_date (dtposted x)) new.
Proof.
  refine (scan_transactions_grow established OfxBuilder.init_locals multi_line_entry
            established
            (OfxBuilder.append_transaction OfxBuilder.init_locals
               (multi_line_transaction (Datetime.mk_datetime 2021 3 14))) [] _).
  vm_compute; reflexivity.
Defined.

Lemma scan_halts_witness :
  (true = false /\ ["03/14"; "DEPOSIT"; "45.99"] = []) \/
  (true = true /\
   exists before h,
     ["Beginning Balance"; "10.00"; "INTEREST SUMMARY"; "03/14"; "DEPOSIT"; "45.99"]
     = (before ++ h :: ["03/14"; "DEPOSIT"; "45.99"])%list /\ terminator h = true).
Proof.
  refine (scan_halts established OfxBuilder.init_locals
            ["Beginning Balance"; "10.00"; "INTEREST SUMMARY"; "03/14"; "DEPOSIT"; "45.99"]
            (OfxBuilder.set_starting established "10.00")
            (OfxBuilder.set_done OfxBuilder.init_locals)
            ["03/14"; "DEPOSIT"; "45.99"] eq_refl _).
  vm_compute; reflexivity.
Defined.

Lemma terminator_ends_scan_witness :
  OfxBuilder.scan established OfxBuilder.init_locals
    ["DAILY BALANCE SUMMARY"; "03/14"; "MYSTERY ENTRY"]
  = Ok (established, OfxBuilder.set_done OfxBuilder.init_locals,
        ["03/14"; "MYSTERY ENTRY"]).
Proof.
  exact (proj1 (terminator_ends_scan established OfxBuilder.init_locals
                  "DAILY BALANCE SUMMARY" ["03/14"; "MYSTERY ENTRY"]
                  eq_refl eq_refl)).
Defined.

(** A run that drains a first part of the buffer without reaching a
    terminator goes on with the lines after it exactly as a run started
    on those lines in the state reached: the scanner keeps nothing of the
    lines it has read but the builder and its local variables. *)
Theorem scan_composes self l (lines more : list string) self' l' :
  OfxBuilder.scan self l lines = Ok (self', l', []) ->
  OfxBuilder.done l' = false ->
  OfxBuilder.scan self l (lines ++ more) = OfxBuilder.scan self' l' more.
Proof. apply scan_app. Qed.

Lemma scan_composes_witness :
  OfxBuilder.scan OfxBuilder.init OfxBuilder.init_locals
    (["Statement Period:"; "Mar 01 2021-Mar 31 2021"] ++ multi_line_entry)
  = OfxBuilder.scan established OfxBuilder.init_locals multi_line_entry.
Proof.
  refine (scan_composes OfxBuilder.init OfxBuilder.init_locals
            ["Statement Period:"; "Mar 01 2021-Mar 31 2021"] multi_line_entry
            established OfxBuilder.init_locals _ eq_refl).
  vm_compute; reflexivity.
Defined.

(** ** [OfxBuilder.parse]: headers *)

Lemma beginning_and_ending_balance_witness :
  OfxBuilder.scan OfxBuilder.init OfxBuilder.init_locals
    ["Ending Balance"; "750.25"; "Beginning Balance"; "1,500.00"]
  = OfxBuilder.scan
      (OfxBuilder.mk None None None None (Some "1500.00") (Some "750.25"))
      OfxBuilder.init_locals [].
Proof.
  exact (proj2 (beginning_and_ending_balance OfxBuilder.init OfxBuilder.init_locals
                  "Beginning Balance" "1,500.00" "Ending Balance" "750.25" []
                  eq_refl eq_refl eq_refl)).
Defined.

Lemma header_without_value_raises_witness :
  OfxBuilder.scan established OfxBuilder.init_locals ["Primary Account #:"]
  = Raise IndexError.
Proof.
  exact (proj2 (header_without_value_raises established OfxBuilder.init_locals
                  "Primary Account #:" eq_refl eq_refl)).
Defined.


Lemma parse_needs_balances_witness :
  raises (OfxBuilder.parse OfxBuilder.init
            (["Statement Period:"; "Mar 01 2021-Mar 31 2021"] ++ multi_line_entry)).
Proof.
  apply (proj2 (parse_needs_balances
                  (["Statement Period:"; "Mar 01 2021-Mar 31 2021"] ++ multi_line_entry))).
  repeat constructor.
Defined.

(** ** [StatementPeriodBuilder.parse] *)

Lemma period_parse_spec_witness :
  exists a b,
    ["Dec 15 2020-Jan 14 2021"; "next"] = (a ++ String "-" b) :: ["next"] /\
    count_char "-" a = 0%nat /\ count_char "-" b = 0%nat /\
    Datetime.strptime a = Ok (Datetime.mk_datetime 2020 12 15) /\
    Datetime.strptime b = Ok (Datetime.mk_datetime 2021 1 14) /\
    valid_date (Datetime.mk_datetime 2020 12 15) /\
    valid_date (Datetime.mk_datetime 2021 1 14).
Proof.
  exact (proj1 (period_parse_spec ["Dec 15 2020-Jan 14 2021"; "next"]
                  (Datetime.mk_datetime 2020 12 15) (Datetime.mk_datetime 2021 1 14)
                  ["next"]) eq_refl).
Defined.

Lemma period_line_hyphens_witness :
  exists msg,
    StatementPeriodBuilder.parse ["Dec 15 2020 to Jan 14 2021"; "next"]
    = Raise (ValueError msg).
Proof.
  apply (period_line_hyphens "Dec 15 2020 to Jan 14 2021" ["next"]).
  discriminate.
Defined.

(** ** [tokenize_pdf_statement] *)

Lemma tokenized_lines_witness :
  "DEPOSIT" <> "" /\
  count_char "010" "DEPOSIT" = 0%nat /\
  (StatementTransactionBuilder.is_amount "DEPOSIT" = true <-> amount_shape "DEPOSIT").
Proof.
  apply (tokenized_lines two_pages "DEPOSIT").
  vm_compute. tauto.
Defined.

Lemma tokenize_pages_app_witness :
  tokenize_pdf_statement two_pages
  = ["Statement Period:"; "Mar 01 2021-Mar 31 2021"; "03/14"; "DEPOSIT"; "45.99"].
Proof.
  change two_pages with ([hd "" two_pages] ++ tl two_pages)%list.
  rewrite (tokenize_pages_app [hd "" two_pages] (tl two_pages)
             (String.append "Statement Period:"
                (String "010" "Mar 01 2021-Mar 31 2021")) eq_refl).
  reflexivity.
Defined.

(** ** The cents in the transaction identifier *)

Section FitidCents.

Import PyFloat.

Local Open Scope Z_scope.

Lemma rne_spec (n d : Z) :
  0 <= n -> 0 < d ->
  - d <= 2 * (rne n d * d - n) <= d /\ 0 <= rne n d.
Proof.
  intros Hn Hd. unfold rne.
  pose proof (Z.div_mod n d ltac:(lia)) as Hdm.
  pose proof (Z.mod_pos_bound n d Hd) as Hm.
  assert (Hq : 0 <= n / d) by (apply Z.div_pos; lia).
  destruct (2 * (n mod d) <? d) eqn:E1.
  - apply Z.ltb_lt in E1. split; [nia | lia].
  - apply Z.ltb_ge in E1. destruct (d <? 2 * (n mod d)) eqn:E2.
    + apply Z.ltb_lt in E2. split; [nia | lia].
    + apply Z.ltb_ge in E2. destruct (Z.even (n / d)); split; try nia; lia.
Qed.

Lemma ilog2_ratio_le (n d : Z) : ilog2_ratio n d <= Z.log2 n - Z.log2 d.
Proof. unfold ilog2_ratio. destruct (_ <=? _); lia. Qed.

Lemma neg_round (n d : Z) : neg (round false n d) = round true n d.
Proof.
  unfold round. destruct (n =? 0); [reflexivity|].
  destruct (rne _ _ =? 2 ^ 53);
    match goal with |- context [971 <? ?e] => destruct (971 <? e) end; reflexivity.
Qed.

(** The double of [n] hundredths, for [n] below [2^52]: its exponent is
    [-6] at most, and a hundred times it is nearer than a half to [n]. *)
Lemma round_cents (sg : bool) (n : Z) :
  1 <= n < 2 ^ 52 ->
  exists m j,
    round sg n 100 = Finite sg m (- j) /\ 6 <= j /\ 1 <= m /\
    - 2 ^ j < 2 * (100 * m - n * 2 ^ j) < 2 ^ j.
Proof.
  intros Hn. unfold round.
  replace (n =? 0) with false by (symmetry; apply Z.eqb_neq; lia).
  pose proof (ilog2_ratio_le n 100) as Hk.
  assert (Hl : Z.log2 n < 52) by (apply Z.log2_lt_pow2; lia).
  replace (Z.log2 100) with 6 in Hk by reflexivity.
  set (e := Z.max (ilog2_ratio n 100 - 52) (-1074)).
  assert (He : -1074 <= e <= -7) by (unfold e; lia).
  clearbody e.
  replace (Z.max 0 (- e)) with (- e) by lia.
  replace (Z.max 0 e) with 0 by lia.
  replace (100 * 2 ^ 0) with 100 by reflexivity.
  assert (Hs : 128 <= 2 ^ (- e)).
  { change 128 with (2 ^ 7). apply Z.pow_le_mono_r; lia. }
  destruct (rne_spec (n * 2 ^ (- e)) 100 ltac:(nia) ltac:(lia)) as [Hr Hr0].
  set (m := rne (n * 2 ^ (- e)) 100) in *. clearbody m.
  destruct (m =? 2 ^ 53) eqn:Em.
  - apply Z.eqb_eq in Em.
    replace (971 <? e + 1) with false by (symmetry; apply Z.ltb_ge; lia).
    replace (2 ^ 52 =? 0) with false by reflexivity.
    exists (2 ^ 52), (- (e + 1)).
    replace (- - (e + 1)) with (e + 1) by lia.
    split; [reflexivity|]. split; [lia|]. split; [lia|].
    assert (Hp : 2 ^ (- e) = 2 * 2 ^ (- (e + 1))).
    { replace (- e) with (Z.succ (- (e + 1))) by lia. apply Z.pow_succ_r. lia. }
    replace (2 ^ 53) with (2 * 2 ^ 52) in Em by reflexivity.
    set (s1 := 2 ^ (- (e + 1))) in *. lia.
  - apply Z.eqb_neq in Em.
    replace (971 <? e) with false by (symmetry; apply Z.ltb_ge; lia).
    assert (Hm1 : 1 <= m) by nia.
    replace (m =? 0) with false by (symmetry; apply Z.eqb_neq; lia).
    exists m, (- e). replace (- - e) with e by lia.
    split; [reflexivity|]. split; [lia|]. split; [lia|]. lia.
Qed.

(** [int(amount * 100)] is the number of hundredths of the amount or one
    less: the product is rounded once more and then cut, not rounded. *)
Lemma fitid_cents (sg : bool) (n : Z) :
  0 <= n < 2 ^ 52 ->
  exists c,
    to_int (mul (round sg n 100) 100) = Ok (if sg then - c else c) /\
    0 <= c /\ (c = n \/ c = n - 1).
Proof.
  intros Hn. destruct (Z.eq_dec n 0) as [-> | Hn0].
  { exists 0. split; [now destruct sg|]. split; [lia | now left]. }
  destruct (round_cents sg n ltac:(lia)) as (m1 & j1 & -> & Hj1 & Hm1 & Herr).
  unfold mul.
  replace (Z.max 0 (- j1)) with 0 by lia.
  replace (Z.max 0 (- - j1)) with j1 by lia.
  replace (m1 * 100 * 2 ^ 0) with (100 * m1) by (change (2 ^ 0) with 1; lia).
  assert (Hs1 : 0 < 2 ^ j1) by (apply Z.pow_pos_nonneg; lia).
  set (s1 := 2 ^ j1) in *.
  unfold round.
  replace (100 * m1 =? 0) with false by (symmetry; apply Z.eqb_neq; lia).
  pose proof (ilog2_ratio_le (100 * m1) s1) as Hk.
  assert (Hls : Z.log2 s1 = j1) by (unfold s1; apply Z.log2_pow2; lia).
  assert (Hl : Z.log2 (100 * m1) < 52 + j1).
  { apply Z.log2_lt_pow2; [lia|]. rewrite Z.pow_add_r by lia. fold s1. nia. }
  rewrite Hls in Hk.
  set (e := Z.max (ilog2_ratio (100 * m1) s1 - 52) (-1074)).
  assert (He : -1074 <= e <= -1) by (unfold e; lia).
  clearbody e.
  replace (Z.max 0 (- e)) with (- e) by lia.
  replace (Z.max 0 e) with 0 by lia.
  replace (s1 * 2 ^ 0) with s1 by (change (2 ^ 0) with 1; lia).
  assert (Hs : 0 < 2 ^ (- e)) by (apply Z.pow_pos_nonneg; lia).
  assert (Hs2 : 2 <= 2 ^ (- e)).
  { change 2 with (2 ^ 1) at 1. apply Z.pow_le_mono_r; lia. }
  destruct (rne_spec (100 * m1 * 2 ^ (- e)) s1 ltac:(nia) ltac:(lia)) as [Hr Hr0].
  set (m := rne (100 * m1 * 2 ^ (- e)) s1) in *. clearbody m.
  set (s := 2 ^ (- e)) in *.
  assert (Hlo : (n - 1) * s < m) by nia.
  assert (Hhi : m < (n + 1) * s) by nia.
  assert (Hdiv : n - 1 <= m / s < n + 1).
  { split.
    - apply Z.div_le_lower_bound; lia.
    - apply Z.div_lt_upper_bound; lia. }
  exists (m / s). split; [|lia].
  destruct (m =? 2 ^ 53) eqn:Em.
  - apply Z.eqb_eq in Em.
    replace (971 <? e + 1) with false by (symmetry; apply Z.ltb_ge; lia).
    replace (2 ^ 52 =? 0) with false by reflexivity.
    cbn [to_int].
    assert (Hp : s = 2 * 2 ^ (- (e + 1))).
    { unfold s. replace (- e) with (Z.succ (- (e + 1))) by lia.
      apply Z.pow_succ_r. lia. }
    assert (Hv : m / s = 2 ^ 52 / 2 ^ (- (e + 1))).
    { rewrite Em, Hp. replace (2 ^ 53) with (2 * 2 ^ 52) by reflexivity.
      apply Z.div_mul_cancel_l; [|lia].
      apply Z.pow_nonzero; lia. }
    destruct (0 <=? e + 1) eqn:E0.
    + apply Z.leb_le in E0. assert (e = -1) by lia. subst e.
      rewrite Hv. change (2 ^ (- (-1 + 1))) with 1. rewrite Z.div_1_r.
      change (2 ^ (-1 + 1)) with 1. rewrite Z.mul_1_r. reflexivity.
    + rewrite Hv. reflexivity.
  - replace (971 <? e) with false by (symmetry; apply Z.ltb_ge; lia).
    assert (Hm1' : 1 <= m) by nia.
    replace (m =? 0) with false by (symmetry; apply Z.eqb_neq; lia).
    cbn [to_int].
    replace (0 <=? e) with false by (symmetry; apply Z.leb_gt; lia).
    reflexivity.
Qed.

End FitidCents.

Section FitidOfTransaction.

Lemma int_of_digits_acc_nonneg (s : string) :
  forall acc, (0 <= acc)%Z -> (0 <= PyStr.int_of_digits_acc acc s)%Z.
Proof.
  induction s as [|c s IH]; intros acc Hacc; cbn [PyStr.int_of_digits_acc];
    [exact Hacc|].
  apply IH. unfold PyStr.digit_val. lia.
Qed.

End FitidOfTransaction.

(** The amount and the identifier of a returned transaction, from the
    amount line.  The reassembler has read the hint, the description lines
    and the amount line [a]; with its commas removed, [a] is digits, a
    point and two digits (and at most a newline behind).  Let [n] be the
    number these digits write without the point, the hundredths of the
    amount.  The amount of the transaction is the double nearest to
    [n / 100], with the sign of the type.  When [n] is below [2^52], the
    identifier is the date (year, month and day on two digits each), five
    zeros, a number of cents and the digit 2 for an amount above zero, 1
    otherwise; and that number of cents is [n] or [n - 1], because line
    189 cuts [amount * 100] to an integer instead of rounding it. *)
Theorem transaction_fitid_cents (lines : list string) txn_date pc t rest :
  StatementTransactionBuilder.parse lines txn_date pc = Ok (Some t, rest) ->
  exists hint ds a ip f1 f2,
    lines = (hint :: ds ++ a :: rest)%list /\
    Forall (fun x => StatementTransactionBuilder.is_amount x = false) ds /\
    StatementTransactionBuilder.is_amount a = true /\
    PyStr.all_digits ip = true /\
    PyStr.is_digit f1 = true /\ PyStr.is_digit f2 = true /\
    (PyStr.replace_comma a = ip ++ String "." (String f1 (String f2 "")) \/
     PyStr.replace_comma a
     = (ip ++ String "." (String f1 (String f2 ""))) ++ String "010" "") /\
    let n := PyStr.int_of_digits (ip ++ String f1 (String f2 "")) in
    (0 <= n)%Z /\
    trnamt t = PyFloat.round (match trntype t with DEBIT => true | CREDIT => false end)
                 n 100 /\
    ((n < 2 ^ 52)%Z ->
     exists c,
       (0 <= c)%Z /\ (c = n \/ c = (n - 1)%Z) /\
       fitid t =
       PyStr.str_of_int (Datetime.year txn_date)
       ++ PyStr.str_of_int_02 (Datetime.month txn_date)
       ++ PyStr.str_of_int_02 (Datetime.day txn_date)
       ++ "00000"
       ++ PyStr.str_of_int c
       ++ PyStr.str_of_int (if PyFloat.gt0 (trnamt t) then 2 else 1)%Z).
Proof.
  intros H. apply parse_ok_inv in H.
  destruct H as (hint & line & tail & d & a & x & Hl & _ & Hacc & Hx & Ht & _ & _ & Hf & _).
  apply accumulate_spec in Hacc. destruct Hacc as (ds & Htail & Hds & Ha & _).
  rewrite Htail in Hl.
  destruct (amount_line_converts _ Ha) as (ip & f1 & f2 & Hip & _ & H1 & H2 & Hrc & Hv).
  rewrite Hv in Hx. injection Hx as <-.
  exists hint, ds, a, ip, f1, f2.
  split; [exact Hl|]. split; [exact Hds|]. split; [exact Ha|].
  split; [exact Hip|]. split; [exact H1|]. split; [exact H2|]. split; [exact Hrc|].
  cbn zeta.
  set (n := PyStr.int_of_digits (ip ++ String f1 (String f2 ""))) in *.
  assert (Hn : (0 <= n)%Z) by (apply int_of_digits_acc_nonneg; lia).
  assert (Hamt : trnamt t
                 = PyFloat.round (match trntype t with DEBIT => true | CREDIT => false end)
                     n 100).
  { rewrite Ht. destruct (trntype t); [reflexivity | apply neg_round]. }
  split; [exact Hn|]. split; [exact Hamt|].
  intros Hlt.
  destruct (fitid_cents (match trntype t with DEBIT => true | CREDIT => false end) n
              (conj Hn Hlt)) as (c & Hc & Hc0 & Hcn).
  exists c. split; [exact Hc0|]. split; [exact Hcn|].
  unfold StatementTransactionBuilder.fitid in Hf.
  rewrite <- Hamt in Hc. rewrite Hc in Hf. cbn [bind] in Hf.
  injection Hf as <-.
  replace (Z.abs (if match trntype t with DEBIT => true | CREDIT => false end
                  then (- c)%Z else c)) with c
    by (destruct (trntype t); lia).
  reflexivity.
Qed.

(** A fee of 10.03 on 03/14/2021: the amount is the double nearest to
    1003 hundredths, and the cents of the identifier are 1002. *)
Lemma transaction_fitid_cents_witness :
  exists hint ds a ip f1 f2,
    ["FEE"; "10.03"] = (hint :: ds ++ a :: [])%list /\
    Forall (fun x => StatementTransactionBuilder.is_amount x = false) ds /\
    StatementTransactionBuilder.is_amount a = true /\
    PyStr.all_digits ip = true /\
    PyStr.is_digit f1 = true /\ PyStr.is_digit f2 = true /\
    (PyStr.replace_comma a = ip ++ String "." (String f1 (String f2 "")) \/
     PyStr.replace_comma a
     = (ip ++ String "." (String f1 (String f2 ""))) ++ String "010" "") /\
    let n := PyStr.int_of_digits (ip ++ String f1 (String f2 "")) in
    (0 <= n)%Z /\
    PyFloat.neg (PyFloat.round false 1003 100) = PyFloat.round true n 100 /\
    ((n < 2 ^ 52)%Z ->
     exists c,
       (0 <= c)%Z /\ (c = n \/ c = (n - 1)%Z) /\
       "202103140000010021" =
       PyStr.str_of_int 2021 ++ PyStr.str_of_int_02 3 ++ PyStr.str_of_int_02 14
       ++ "00000" ++ PyStr.str_of_int c ++ PyStr.str_of_int 1).
Proof.
  assert (H : StatementTransactionBuilder.parse ["FEE"; "10.03"]
                (Datetime.mk_datetime 2021 3 14) false
              = Ok (Some (mk_STMTTRN DEBIT (Datetime.mk_datetime 2021 3 14)
                            (PyFloat.neg (PyFloat.round false 1003 100))
                            "202103140000010021" "FEE" ""), []))
    by (vm_compute; reflexivity).
  exact (transaction_fitid_cents _ _ _ _ _ H).
Defined.

(** ** The name of the output file *)

Section OutputName.

Lemma prefix_pdf (c : ascii) (s : string) :
  String.prefix ".pdf" (String c s) = true ->
  exists r, String c s = String "." (String "p" (String "d" (String "f" r))).
Proof. intros H. apply prefix_app in H. destruct H as [r ->]. now exists r. Qed.

End OutputName.

(** The output file is named like the input file exactly when the name of
    the input file does not contain [.pdf] in lower case: a statement
    named [STMT.PDF] gives an output file named [STMT.PDF]. *)
Theorem output_name_unchanged (import_file_name : string) :
  output_file_name import_file_name = import_file_name <->
  PyStr.contains import_file_name ".pdf" = false.
Proof.
  unfold output_file_name, str_replace.
  induction import_file_name as [|c s IH].
  - split; reflexivity.
  - cbn [str_replace_from PyStr.contains].
    destruct (String.prefix ".pdf" (String c s)) eqn:E.
    + split; [|discriminate].
      destruct (prefix_pdf _ _ E) as [r Hr]. rewrite Hr.
      cbn. intros H. injection H as H. discriminate.
    + cbn [orb]. rewrite <- IH. split.
      * intros H. now injection H.
      * intros ->. reflexivity.
Qed.

Lemma output_name_unchanged_witness : output_file_name "STMT.PDF" = "STMT.PDF".
Proof. exact (proj2 (output_name_unchanged "STMT.PDF") eq_refl). Defined.

(** A name made of a stem without point and the extension [.pdf] gets the
    extension [.qbo]. *)
Theorem output_name_extension (stem : string) :
  count_char "." stem = 0%nat ->
  output_file_name (stem ++ ".pdf") = stem ++ ".qbo".
Proof.
  unfold output_file_name, str_replace.
  induction stem as [|c stem IH]; intros Hc.
  - reflexivity.
  - cbn [count_char] in Hc.
    destruct (Ascii.eqb c ".") eqn:Ec; [discriminate|].
    cbn [append str_replace_from String.prefix].
    destruct (ascii_dec "." c) as [<- | _]; [discriminate|].
    rewrite IH by exact Hc. reflexivity.
Qed.

Lemma output_name_extension_witness :
  output_file_name "statement_2021_03.pdf" = "statement_2021_03.qbo".
Proof. exact (output_name_extension "statement_2021_03" eq_refl). Defined.

(** ** Deferred checks and the checks section *)

(** The reassembler returns [None] in one case only: outside the checks
    section, on a hint without keyword that begins with [Check #]; and
    then it has taken exactly the hint and the two lines after it. *)
Theorem deferral_spec (lines : list string) txn_date pc rest :
  StatementTransactionBuilder.parse lines txn_date pc = Ok (None, rest) <->
  pc = false /\
  exists hint a b,
    lines = hint :: a :: b :: rest /\
    StatementTransactionBuilder.classify hint false = None /\
    PyStr.startswith hint "Check #" = true.
Proof.
  split.
  - unfold StatementTransactionBuilder.parse.
    destruct lines as [|hint lines]; cbn [pop bind]; [discriminate|].
    destruct (StatementTransactionBuilder.classify hint pc) eqn:Ec.
    + destruct lines as [|line tail]; cbn [pop bind]; [discriminate|].
      destruct (StatementTransactionBuilder.accumulate _ line tail)
        as [[[d a] r]|]; cbn [bind]; [|discriminate].
      destruct (PyFloat.of_str _); cbn [bind]; [|discriminate].
      destruct (StatementTransactionBuilder.fitid _ _); cbn [bind]; discriminate.
    + destruct pc; [rewrite classify_checks in Ec; discriminate|].
      destruct (PyStr.startswith hint "Check #") eqn:Ek; cbn [negb]; [|discriminate].
      destruct lines as [|a [|b tail]]; cbn [pop bind]; try discriminate.
      intros H; injection H as <-. split; [reflexivity|].
      exists hint, a, b. auto.
  - intros (-> & hint & a & b & -> & Hc & Hk).
    now apply parse_deferred_check.
Qed.

Lemma deferral_spec_witness :
  StatementTransactionBuilder.parse
    ["Check # 103"; "some bank note"; "120.00"; "Checks Paid"]
    (Datetime.mk_datetime 2021 1 5) false
  = Ok (None, ["Checks Paid"]).
Proof.
  apply (proj2 (deferral_spec
                  ["Check # 103"; "some bank note"; "120.00"; "Checks Paid"]
                  (Datetime.mk_datetime 2021 1 5) false ["Checks Paid"])).
  split; [reflexivity|].
  exists "Check # 103", "some bank note", "120.00".
  split; [reflexivity|]. split; reflexivity.
Defined.

Section ChecksSection.

Import OfxBuilder.

Lemma take_prefix (p s : string) (n : nat) :
  (String.length p <= n)%nat -> String.prefix p (PyStr.take n (p ++ s)) = true.
Proof.
  revert n. induction p as [|c p IH]; intros n Hn.
  - apply prefix_nil.
  - destruct n as [|n]; [simpl in Hn; lia|].
    cbn [append PyStr.take String.prefix].
    destruct (ascii_dec c c) as [_|Hne]; [|congruence].
    apply IH. simpl in Hn. lia.
Qed.

(** A turn in the checks section, on a line that does not leave it. *)
Lemma iteration_in_checks self l (line : string) (lines : list string) self' l' rest :
  processing_checks l = true ->
  PyStr.startswith line "Electronic Payments" = false ->
  iteration self l line lines = Ok (self', l', rest) ->
  processing_checks l' = true /\
  (statement_transactions l' = statement_transactions l \/
   exists x,
     statement_transactions l' = (statement_transactions l ++ [x])%list /\
     trntype x = DEBIT /\ String.prefix "Check # " (name x) = true).
Proof.
  intros Hpc He. unfold iteration. rewrite He. cbv beta iota zeta.
  set (l0 := if PyStr.startswith line "Checks Paid" then set_processing_checks l true
             else l).
  assert (Hp0 : processing_checks l0 = true)
    by (unfold l0; destruct (PyStr.startswith line "Checks Paid");
        [reflexivity | exact Hpc]).
  assert (Ht0 : statement_transactions l0 = statement_transactions l)
    by (unfold l0; destruct (PyStr.startswith line "Checks Paid"); reflexivity).
  clearbody l0. clear He.
  destruct (PyStr.startswith line "Statement Period:").
  { destruct (StatementPeriodBuilder.parse lines) as [[[s e] r]|];
      cbn [bind]; [|discriminate].
    intros H; injection H as _ <- _. auto. }
  destruct (PyStr.startswith line "Primary Account #:").
  { destruct lines; cbn [pop bind]; [discriminate|].
    intros H; injection H as _ <- _. auto. }
  destruct (PyStr.startswith line "Statement Balance as of").
  { destruct lines; cbn [pop bind]; [discriminate|].
    destruct (truthy _); intros H; injection H as _ <- _; auto. }
  destruct (PyStr.startswith line "Beginning Balance").
  { destruct lines; cbn [pop bind]; [discriminate|].
    intros H; injection H as _ <- _. auto. }
  destruct (PyStr.startswith line "Ending Balance").
  { destruct lines; cbn [pop bind]; [discriminate|].
    intros H; injection H as _ <- _. auto. }
  destruct (_ || _).
  { intros H; injection H as _ <- _. cbn. auto. }
  destruct (negb _).
  2:{ intros H; injection H as _ <- _. auto. }
  intros H. apply transaction_line_ok in H.
  destruct H as [(_ & _ & -> & _) | (g1 & g2 & st & y & d & r & _ & _ & _ & H)];
    [auto|].
  cbn zeta in H. destruct H as (_ & _ & Hp & ->). rewrite Hp0 in Hp.
  destruct r as [x|].
  - apply transaction_parse_spec in Hp.
    destruct Hp as (hint & ds & a & _ & _ & _ & Hc & Hn & _).
    rewrite classify_checks in Hc. injection Hc as Hc.
    split; [destruct (_ && _); cbn; exact Hp0|].
    right. exists x. split; [destruct (_ && _); cbn; now rewrite Ht0|].
    split; [auto|]. rewrite Hn. unfold description_of.
    apply take_prefix. cbn. lia.
  - split; [|left]; destruct (_ && _); cbn; auto.
Qed.

End ChecksSection.

(** In the checks section, as long as no line starts with [Electronic
    Payments], the scan stays in the checks section, and every
    transaction it adds is a DEBIT whose name begins with [Check # ]. *)
Theorem checks_section_run self l (lines : list string) self' l' rest :
  Forall (fun line => PyStr.startswith line "Electronic Payments" = false) lines ->
  OfxBuilder.processing_checks l = true ->
  OfxBuilder.scan self l lines = Ok (self', l', rest) ->
  OfxBuilder.processing_checks l' = true /\
  exists new,
    OfxBuilder.statement_transactions l'
    = (OfxBuilder.statement_transactions l ++ new)%list /\
    Forall (fun x => trntype x = DEBIT /\ String.prefix "Check # " (name x) = true) new.
Proof.
  intros Hall Hpc H.
  refine (loop_invariant
            (fun _ l0 =>
               OfxBuilder.processing_checks l0 = true /\
               exists new,
                 OfxBuilder.statement_transactions l0
                 = (OfxBuilder.statement_transactions l ++ new)%list /\
                 Forall (fun x => trntype x = DEBIT /\
                                  String.prefix "Check # " (name x) = true) new)
            _ _ _ _ _ _ _ _ _ Hall _ H).
  - intros s0 l0 line lines0 s1 l1 r1 Hline _ (Hp & new & Ht & Hn) E.
    destruct (iteration_in_checks _ _ _ _ _ _ _ Hp Hline E)
      as [Hp1 [Hs | (x & Hs & Hx)]].
    + split; [exact Hp1|]. exists new. rewrite Hs. auto.
    + split; [exact Hp1|]. exists (new ++ [x])%list.
      rewrite Hs, Ht, app_assoc. split; [reflexivity|].
      apply Forall_app. auto.
  - split; [exact Hpc|]. exists []. rewrite app_nil_r. auto.
Qed.

Lemma checks_section_run_witness :
  true = true /\
  exists new,
    [check_transaction (Datetime.mk_datetime 2021 1 5)] = ([] ++ new)%list /\
    Forall (fun x => trntype x = DEBIT /\ String.prefix "Check # " (name x) = true) new.
Proof.
  refine (checks_section_run established
            (OfxBuilder.set_processing_checks OfxBuilder.init_locals true)
            ["01/05"; "103"; "120.00"] established
            (OfxBuilder.append_transaction
               (OfxBuilder.set_processing_checks OfxBuilder.init_locals true)
               (check_transaction (Datetime.mk_datetime 2021 1 5))) [] _ eq_refl _).
  - repeat constructor.
  - vm_compute; reflexivity.
Defined.
